(** * ClassicBloomFX: the bloom render-graph builder

    A shallow embedding of
    [Source/ClassicBloomFX/Private/ClassicBloomSubsystem.cpp]:
    the registration of bloom components with the world subsystem and
    [FClassicBloomSceneViewExtension::PostProcessPass_RenderThread], the
    function that records the bloom passes into the render graph.

    Conventions of the embedding.
    - [int32] values are integers of [Z]; arithmetic that can overflow goes
      through [Int32.wrap].
    - [float] values are IEEE binary32 numbers ([spec_float] at precision 24),
      [double] values binary64 numbers.
    - The render graph builder, the debug log and the function-local static
      [LastLogTime] form the state that the statements thread; [return]
      statements and failed range checks are outcomes of a statement. *)

From Stdlib Require Import ZArith List String Bool Lia.
From Stdlib Require Import Floats.SpecFloat DecimalString.
Import ListNotations.
Local Open Scope string_scope.
Local Open Scope list_scope.
Local Open Scope Z_scope.

(** ** 32-bit signed integers *)

Module Int32.

Definition min_value : Z := -2147483648.
Definition max_value : Z := 2147483647.

Definition InRange (z : Z) : Prop := min_value <= z <= max_value.

(** Two's complement wrap-around of a mathematical integer. *)
Definition wrap (z : Z) : Z := (z + 2147483648) mod 4294967296 - 2147483648.

Definition add (a b : Z) : Z := wrap (a + b).
Definition sub (a b : Z) : Z := wrap (a - b).
(** C++ [/] on integers truncates toward zero. *)
Definition div (a b : Z) : Z := wrap (Z.quot a b).

End Int32.

(** ** IEEE floating point numbers *)

Module Float.

(** binary32, the C++ [float]. *)
Definition prec : Z := 24.
Definition emax : Z := 128.

Definition add : spec_float -> spec_float -> spec_float := SFadd prec emax.
Definition mul : spec_float -> spec_float -> spec_float := SFmul prec emax.
Definition div : spec_float -> spec_float -> spec_float := SFdiv prec emax.
Definition ltb : spec_float -> spec_float -> bool := SFltb.
Definition leb : spec_float -> spec_float -> bool := SFleb.

(** Conversion [(float)i] of an integer, rounding to nearest even. *)
Definition of_int (i : Z) : spec_float := binary_normalize prec emax i 0 false.

(** A decimal literal [n/d] with [n] and [d] exactly representable: the
    correctly rounded quotient is the binary32 number nearest to it. *)
Definition literal (n : Z) (d : positive) : spec_float :=
  div (of_int n) (of_int (Zpos d)).

(** Largest integer not above a finite number. *)
Definition floor (f : spec_float) : option Z :=
  match f with
  | S754_zero _ => Some 0
  | S754_finite s m e =>
      let v := if s then Zneg m else Zpos m in
      Some (if 0 <=? e then v * 2 ^ e else Z.shiftr v (- e))
  | S754_infinity _ | S754_nan => None
  end.

End Float.

Abbreviation float := spec_float (only parsing).

Module Double.

(** binary64, the C++ [double]. *)
Definition prec : Z := 53.
Definition emax : Z := 1024.

Definition sub : spec_float -> spec_float -> spec_float := SFsub prec emax.
Definition ltb : spec_float -> spec_float -> bool := SFltb.
Definition of_int (i : Z) : spec_float := binary_normalize prec emax i 0 false.

End Double.

Abbreviation double := spec_float (only parsing).

(** The literals of the source file. *)
Definition f_0 : float := Eval vm_compute in Float.of_int 0.
Definition f_1 : float := Eval vm_compute in Float.of_int 1.
Definition f_2 : float := Eval vm_compute in Float.of_int 2.
Definition f_5 : float := Eval vm_compute in Float.of_int 5.
Definition f_10 : float := Eval vm_compute in Float.of_int 10.
Definition f_200 : float := Eval vm_compute in Float.of_int 200.
Definition f_360 : float := Eval vm_compute in Float.of_int 360.
Definition f_0_5 : float := Eval vm_compute in Float.literal 1 2.
Definition f_0_25 : float := Eval vm_compute in Float.literal 1 4.
Definition f_0_1 : float := Eval vm_compute in Float.literal 1 10.
Definition f_0_05 : float := Eval vm_compute in Float.literal 5 100.
Definition f_0_01 : float := Eval vm_compute in Float.literal 1 100.
Definition f_0_0001 : float := Eval vm_compute in Float.literal 1 10000.
Definition d_1 : double := Eval vm_compute in Double.of_int 1.

(** ** FMath

    The engine's generic helpers, as templates over a type with [operator<]:
    [Max(A,B) = (B < A) ? A : B], [Min(A,B) = (A < B) ? A : B],
    [Clamp(X,Lo,Hi) = Max(Min(X,Hi),Lo)]. *)

Class TLess (T : Type) : Type := less : T -> T -> bool.

#[export] Instance int32_less : TLess Z := Z.ltb.
#[export] Instance float_less : TLess spec_float := Float.ltb.

Module FMath.

Definition Max {T : Type} `{TLess T} (A B : T) : T := if less B A then A else B.
Definition Min {T : Type} `{TLess T} (A B : T) : T := if less A B then A else B.
Definition Clamp {T : Type} `{TLess T} (X MinValue MaxValue : T) : T :=
  Max (Min X MaxValue) MinValue.

(** [FloorToInt]: the conversion to [int32] is defined by C++ only for
    values in range; outside it (and for NaN) the model gives the x86
    "integer indefinite" value. *)
Definition FloorToInt (F : float) : Z :=
  match Float.floor F with
  | Some z =>
      if (Int32.min_value <=? z) && (z <=? Int32.max_value) then z
      else Int32.min_value
  | None => Int32.min_value
  end.

(** [RoundToInt(F) = FloorToInt(F + 0.5f)]. *)
Definition RoundToInt (F : float) : Z := FloorToInt (Float.add F f_0_5).

End FMath.

(** ** Points and rectangles *)

Module FIntPoint.

Record t : Type := mk { X : Z; Y : Z }.

Definition ZeroValue : t := mk 0 0.

(** [(Lhs + Divisor - 1) / Divisor] on each coordinate. *)
Definition DivideAndRoundUp (Lhs : t) (Divisor : Z) : t :=
  mk (Int32.div (Int32.sub (Int32.add (X Lhs) Divisor) 1) Divisor)
     (Int32.div (Int32.sub (Int32.add (Y Lhs) Divisor) 1) Divisor).

End FIntPoint.

Abbreviation FIntPoint := FIntPoint.t (only parsing).

Module FIntRect.

Record t : Type := mk { Min : FIntPoint; Max : FIntPoint }.

Definition Width (R : t) : Z := Int32.sub (FIntPoint.X (Max R)) (FIntPoint.X (Min R)).
Definition Height (R : t) : Z := Int32.sub (FIntPoint.Y (Max R)) (FIntPoint.Y (Min R)).
(** The engine's [IsEmpty]: [Width() == 0 && Height() == 0]. A rectangle
    with one side of length zero, or with a negative side, is not empty. *)
Definition IsEmpty (R : t) : bool := (Width R =? 0) && (Height R =? 0).

End FIntRect.

Abbreviation FIntRect := FIntRect.t (only parsing).

(** ** Registration of bloom components with the subsystem *)

(** The identity of a [UObject]: what a [TWeakObjectPtr] stores and
    compares. *)
Definition ObjectId : Type := nat.

Module TArray.

(** [TArray::Contains]. *)
Definition Contains (A : list ObjectId) (Item : ObjectId) : bool :=
  existsb (Nat.eqb Item) A.

(** [TArray::AddUnique]: appends unless an equal element is present. *)
Definition AddUnique (A : list ObjectId) (Item : ObjectId) : list ObjectId :=
  if Contains A Item then A else A ++ [Item].

(** [TArray::Remove]: removes every element equal to the item, keeping order. *)
Definition Remove (A : list ObjectId) (Item : ObjectId) : list ObjectId :=
  filter (fun x => negb (Nat.eqb Item x)) A.

End TArray.

Record UClassicBloomSubsystem : Type := {
  BloomComponents : list ObjectId
}.

(** A freshly initialised subsystem has no registered component. *)
Definition Initialize : UClassicBloomSubsystem := {| BloomComponents := [] |}.

(** [Component] is a nullable pointer. *)
Definition RegisterBloomComponent (Component : option ObjectId)
  (S : UClassicBloomSubsystem) : UClassicBloomSubsystem :=
  match Component with
  | Some c => {| BloomComponents := TArray.AddUnique (BloomComponents S) c |}
  | None => S
  end.

Definition UnregisterBloomComponent (Component : option ObjectId)
  (S : UClassicBloomSubsystem) : UClassicBloomSubsystem :=
  match Component with
  | Some c => {| BloomComponents := TArray.Remove (BloomComponents S) c |}
  | None => S
  end.

(** The subsystems that calls of the two functions can produce. *)
Inductive Reachable : UClassicBloomSubsystem -> Prop :=
| reach_init : Reachable Initialize
| reach_register (c : option ObjectId) (S : UClassicBloomSubsystem) :
    Reachable S -> Reachable (RegisterBloomComponent c S)
| reach_unregister (c : option ObjectId) (S : UClassicBloomSubsystem) :
    Reachable S -> Reachable (UnregisterBloomComponent c S).

(** ** The bloom component ([BloomFXComponent.h]) *)

Inductive EBloomPostProcessPass : Type :=
| Tonemap | MotionBlur | FXAA | VisualizeDepthOfField.

Inductive EBloomBlendMode : Type :=
| Screen | Overlay | SoftLight | HardLight | Lighten | Multiply.

Inductive EBloomMode : Type :=
| Standard | DirectionalGlare | Kawase | SoftFocus.

(** The value of an enumerator, as the casts [(int32)] and [(float)] see it. *)
Definition EBloomMode_value (m : EBloomMode) : Z :=
  match m with
  | Standard => 0 | DirectionalGlare => 1 | Kawase => 2 | SoftFocus => 3
  end.

Definition EBloomBlendMode_value (m : EBloomBlendMode) : Z :=
  match m with
  | Screen => 0 | Overlay => 1 | SoftLight => 2
  | HardLight => 3 | Lighten => 4 | Multiply => 5
  end.

Definition EBloomMode_eqb (a b : EBloomMode) : bool :=
  EBloomMode_value a =? EBloomMode_value b.

Record FLinearColor : Type := { R : float; G : float; B : float; A : float }.

(** The properties of [UBloomFXComponent]; [bIsActive] is the flag behind
    [UActorComponent::IsActive]. *)
Record UBloomFXComponent : Type := {
  bIsActive : bool;
  BloomMode : EBloomMode;
  BloomIntensity : float;
  BloomThreshold : float;
  BloomSize : float;
  bUseSceneColor : bool;
  BloomTint : FLinearColor;
  BloomBlendMode : EBloomBlendMode;
  BloomSaturation : float;
  bProtectHighlights : bool;
  HighlightProtection : float;
  DownsampleScale : float;
  BlurPasses : Z;
  BlurSamples : Z;
  bHighQualityUpsampling : bool;
  GlareStreakCount : Z;
  GlareStreakLength : Z;
  GlareRotationOffset : float;
  GlareFalloff : float;
  KawaseMipCount : Z;
  KawaseFilterRadius : float;
  bKawaseSoftThreshold : bool;
  KawaseThresholdKnee : float;
  SoftFocusOverlayMultiplier : float;
  SoftFocusBlendStrength : float;
  SoftFocusSoftLightMultiplier : float;
  SoftFocusFinalBlend : float;
  PostProcessPass : EBloomPostProcessPass;
  bUseAdaptiveBrightnessScaling : bool;
  GameModeBloomScale : float;
  bEnableDebugLogging : bool;
  bShowBloomOnly : bool;
  bShowGammaCompensation : bool;
  bAutoReinitializeRect : bool;
  ReinitializeInterval : float;
  bReinitializeRect : bool
}.

(** ** Render graph data *)

Inductive EPixelFormat : Type :=
| PF_FloatR11G11B10
| PF_Other (id : nat).

Inductive FClearValueBinding : Type :=
| ClearBlack
| ClearOther (id : nat).

(** [ETextureCreateFlags] is a bit mask. *)
Definition TexCreate_RenderTargetable : Z := 1.
Definition TexCreate_ShaderResource : Z := 8.

Module FRDGTextureDesc.

Record t : Type := mk {
  Extent : FIntPoint;
  Format : EPixelFormat;
  ClearValue : FClearValueBinding;
  Flags : Z
}.

Definition Create2D (InExtent : FIntPoint) (InFormat : EPixelFormat)
  (InClearValue : FClearValueBinding) (InFlags : Z) : t :=
  mk InExtent InFormat InClearValue InFlags.

End FRDGTextureDesc.

Abbreviation FRDGTextureDesc := FRDGTextureDesc.t (only parsing).

(** A texture of the graph; [Handle] is its identity. *)
Record FRDGTexture : Type := {
  Handle : nat;
  Name : string;
  Desc : FRDGTextureDesc
}.

(** [FRDGTextureRef] is a nullable pointer. *)
Definition FRDGTextureRef : Type := option FRDGTexture.

Inductive ERenderTargetLoadAction : Type := ENoAction | ELoad | EClear.

Module FRenderTargetBinding.
Record t : Type := mk {
  Texture : FRDGTextureRef;
  LoadAction : ERenderTargetLoadAction
}.
End FRenderTargetBinding.

Abbreviation FRenderTargetBinding := FRenderTargetBinding.t (only parsing).

Inductive ESamplerFilter : Type := SF_Point | SF_Bilinear | SF_Trilinear.
Inductive ESamplerAddressMode : Type := AM_Wrap | AM_Clamp | AM_Mirror.

Record FSamplerState : Type := {
  Filter : ESamplerFilter;
  AddressU : ESamplerAddressMode;
  AddressV : ESamplerAddressMode;
  AddressW : ESamplerAddressMode
}.

(** [TStaticSamplerState<Filter, U, V, W>::GetRHI()]. *)
Definition TStaticSamplerState (F : ESamplerFilter) (U V W : ESamplerAddressMode)
  : FSamplerState :=
  {| Filter := F; AddressU := U; AddressV := V; AddressW := W |}.

Module FVector2f.
Record t : Type := mk { X : float; Y : float }.
End FVector2f.

Module FVector4f.
Record t : Type := mk { X : float; Y : float; Z : float; W : float }.
End FVector4f.

Abbreviation FVector2f := FVector2f.t (only parsing).
Abbreviation FVector4f := FVector4f.t (only parsing).

(** The conversion [FVector4f(FLinearColor)]. *)
Definition FVector4f_of_color (C : FLinearColor) : FVector4f :=
  FVector4f.mk (R C) (G C) (B C) (A C).

(** The vector [(W, H, 1.0f / W, 1.0f / H)] that the passes receive for
    their buffer and viewport sizes. *)
Definition SizeAndInvSize (W H : Z) : FVector4f :=
  FVector4f.mk (Float.of_int W) (Float.of_int H)
    (Float.div f_1 (Float.of_int W)) (Float.div f_1 (Float.of_int H)).

Module FScreenPassTextureViewport.
Record t : Type := mk { Extent : FIntPoint; Rect : FIntRect }.
End FScreenPassTextureViewport.

Abbreviation FScreenPassTextureViewport := FScreenPassTextureViewport.t (only parsing).

(** [FScreenTransform]: the engine evaluates these terms to a scale and a
    bias; the model keeps the term that the source builds. *)
Inductive ETextureBasis : Type :=
| ScreenPosition | ViewportUV | TexelPosition | TextureUV.

Inductive FScreenTransform : Type :=
| ChangeTextureBasisFromTo (Viewport : FScreenPassTextureViewport)
    (SrcBasis DestBasis : ETextureBasis)
| Compose (AB BC : FScreenTransform).

Module FScreenPassTexture.

Record t : Type := mk { Texture : FRDGTextureRef; ViewRect : FIntRect }.

Definition IsValid (T : t) : bool :=
  match Texture T with
  | Some _ => negb (FIntRect.IsEmpty (ViewRect T))
  | None => false
  end.

End FScreenPassTexture.

Abbreviation FScreenPassTexture := FScreenPassTexture.t (only parsing).

Module FScreenPassRenderTarget.

Record t : Type := mk {
  Texture : FRDGTextureRef;
  ViewRect : FIntRect;
  LoadAction : ERenderTargetLoadAction
}.

Definition IsValid (T : t) : bool :=
  match Texture T with
  | Some _ => negb (FIntRect.IsEmpty (ViewRect T))
  | None => false
  end.

Definition GetRenderTargetBinding (T : t) : FRenderTargetBinding :=
  FRenderTargetBinding.mk (Texture T) (LoadAction T).

(** The slicing conversion to the base class on [return]. *)
Definition ToTexture (T : t) : FScreenPassTexture :=
  FScreenPassTexture.mk (Texture T) (ViewRect T).

End FScreenPassRenderTarget.

Abbreviation FScreenPassRenderTarget := FScreenPassRenderTarget.t (only parsing).

(** ** Shaders and their parameters

    The parameter structs are those of [ClassicBloomShaders.h], with the
    members that the graph builder assigns. *)

Inductive EShader : Type :=
| BrightPassPS | BlurPS | CompositePS | GlareStreakPS | GlareAccumulatePS
| KawaseDownsamplePS | KawaseUpsamplePS.

(** The global shader map tells which shaders are compiled and loaded. *)
Record FGlobalShaderMap : Type := { HasShader : EShader -> bool }.

Module TShaderMapRef.

Record t : Type := mk { ShaderType : EShader; IsValid : bool }.

(** The constructor [TShaderMapRef<S> Ref(ShaderMap)]. *)
Definition Lookup (Map : FGlobalShaderMap) (S : EShader) : t :=
  mk S (HasShader Map S).

End TShaderMapRef.

Abbreviation TShaderMapRef := TShaderMapRef.t (only parsing).

(** The handle of [View.ViewUniformBuffer]. *)
Definition FViewUniformBufferRef : Type := nat.

Module FClassicBloomBrightPassPS.
Record FParameters : Type := {
  View : FViewUniformBufferRef;
  SceneColorTexture : FRDGTextureRef;
  SceneColorSampler : FSamplerState;
  InputViewportSizeAndInvSize : FVector4f;
  OutputViewportSizeAndInvSize : FVector4f;
  SvPositionToInputTextureUV : FScreenTransform;
  BloomThreshold : float;
  BloomIntensity : float;
  RenderTargets0 : FRenderTargetBinding
}.
End FClassicBloomBrightPassPS.

Module FClassicBloomBlurPS.
Record FParameters : Type := {
  View : FViewUniformBufferRef;
  SourceTexture : FRDGTextureRef;
  SourceSampler : FSamplerState;
  BufferSizeAndInvSize : FVector4f;
  BlurDirection : FVector2f;
  BlurRadius : float;
  RenderTargets0 : FRenderTargetBinding
}.
End FClassicBloomBlurPS.

Module FClassicBloomGlareStreakPS.
Record FParameters : Type := {
  View : FViewUniformBufferRef;
  SourceTexture : FRDGTextureRef;
  SourceSampler : FSamplerState;
  BufferSizeAndInvSize : FVector4f;
  StreakDirection : FVector2f;
  StreakLength : float;
  StreakFalloff : float;
  RenderTargets0 : FRenderTargetBinding
}.
End FClassicBloomGlareStreakPS.

Module FClassicBloomGlareAccumulatePS.
Record FParameters : Type := {
  View : FViewUniformBufferRef;
  StreakTexture0 : FRDGTextureRef;
  StreakTexture1 : FRDGTextureRef;
  StreakTexture2 : FRDGTextureRef;
  StreakTexture3 : FRDGTextureRef;
  StreakSampler : FSamplerState;
  GlareViewportSizeAndInvSize : FVector4f;
  NumStreaks : Z;
  RenderTargets0 : FRenderTargetBinding
}.
End FClassicBloomGlareAccumulatePS.

Module FClassicBloomKawaseDownsamplePS.
Record FParameters : Type := {
  View : FViewUniformBufferRef;
  SourceTexture : FRDGTextureRef;
  SourceSampler : FSamplerState;
  SourceSizeAndInvSize : FVector4f;
  OutputSizeAndInvSize : FVector4f;
  SvPositionToSourceUV : FScreenTransform;
  BloomThreshold : float;
  ThresholdKnee : float;
  MipLevel : Z;
  bUseKarisAverage : Z;
  RenderTargets0 : FRenderTargetBinding
}.
End FClassicBloomKawaseDownsamplePS.

Module FClassicBloomKawaseUpsamplePS.
Record FParameters : Type := {
  View : FViewUniformBufferRef;
  SourceTexture : FRDGTextureRef;
  PreviousMipTexture : FRDGTextureRef;
  SourceSampler : FSamplerState;
  OutputSizeAndInvSize : FVector4f;
  FilterRadius : float;
  RenderTargets0 : FRenderTargetBinding
}.
End FClassicBloomKawaseUpsamplePS.

Module FClassicBloomCompositePS.
Record FParameters : Type := {
  View : FViewUniformBufferRef;
  SceneColorTexture : FRDGTextureRef;
  SceneColorSampler : FSamplerState;
  BloomTexture : FRDGTextureRef;
  BloomSampler : FSamplerState;
  OutputViewportSizeAndInvSize : FVector4f;
  SvPositionToSceneColorUV : FScreenTransform;
  SvPositionToBloomUV : FScreenTransform;
  BloomIntensity : float;
  BloomTint : FVector4f;
  BloomBlendMode : float;
  BloomSaturation : float;
  bProtectHighlights : float;
  HighlightProtection : float;
  SoftFocusIntensity : float;
  SoftFocusParams : FVector4f;
  bUseAdaptiveScaling : float;
  bShowBloomOnly : float;
  bShowGammaCompensation : float;
  bIsGameWorld : float;
  GameModeBloomScale : float;
  RenderTargets0 : FRenderTargetBinding
}.
End FClassicBloomCompositePS.

Inductive FPassParameters : Type :=
| BrightPassParameters (P : FClassicBloomBrightPassPS.FParameters)
| BlurParameters (P : FClassicBloomBlurPS.FParameters)
| GlareStreakParameters (P : FClassicBloomGlareStreakPS.FParameters)
| GlareAccumulateParameters (P : FClassicBloomGlareAccumulatePS.FParameters)
| KawaseDownsampleParameters (P : FClassicBloomKawaseDownsamplePS.FParameters)
| KawaseUpsampleParameters (P : FClassicBloomKawaseUpsamplePS.FParameters)
| CompositeParameters (P : FClassicBloomCompositePS.FParameters).

(** A full-screen pass recorded by [FPixelShaderUtils::AddFullscreenPass]. *)
Record FRDGPass : Type := {
  EventName : string;
  PixelShader : TShaderMapRef;
  Parameters : FPassParameters;
  Viewport : FIntRect
}.

(** The graph builder: the textures and passes recorded so far, oldest
    first, and the handle of the next texture. *)
Record FRDGBuilder : Type := {
  NextHandle : nat;
  Textures : list FRDGTexture;
  Passes : list FRDGPass
}.

(** ** The view *)

Inductive EWorldType : Type :=
| WT_None | WT_Game | WT_Editor | WT_PIE | WT_EditorPreview | WT_GamePreview
| WT_GameRPC | WT_Inactive.

Definition EWorldType_value (t : EWorldType) : Z :=
  match t with
  | WT_None => 0 | WT_Game => 1 | WT_Editor => 2 | WT_PIE => 3
  | WT_EditorPreview => 4 | WT_GamePreview => 5 | WT_GameRPC => 6
  | WT_Inactive => 7
  end.

Record UWorld : Type := { WorldType : EWorldType }.

(** [UWorld::IsGameWorld]. *)
Definition IsGameWorld (W : UWorld) : bool :=
  match WorldType W with
  | WT_Game | WT_PIE | WT_GamePreview | WT_GameRPC => true
  | _ => false
  end.

(** [Scene->GetWorld()] may be null. *)
Record FSceneInterface : Type := { GetWorld : option UWorld }.

Record FEngineShowFlags : Type := {
  Rendering : bool;
  PostProcessing : bool;
  Wireframe : bool
}.

Record FSceneViewFamily : Type := {
  Scene : option FSceneInterface;
  EngineShowFlags : FEngineShowFlags
}.

Record FViewInfo : Type := {
  bIsReflectionCapture : bool;
  bIsSceneCapture : bool;
  bIsViewInfo : bool;
  bIsGameView : bool;
  Family : FSceneViewFamily;
  ShaderMap : option FGlobalShaderMap;
  ViewUniformBuffer : FViewUniformBufferRef
}.

(** The world of the view's scene, when there is one: the test
    [Family->Scene && Family->Scene->GetWorld()]. *)
Definition ViewWorld (V : FViewInfo) : option UWorld :=
  match Scene (Family V) with
  | Some Sc => GetWorld Sc
  | None => None
  end.

(** The inputs of the pass. [SceneColor] is the result of
    [FScreenPassTexture::CopyFromSlice] on the scene colour input, which for
    a plain 2D texture is that texture with its view rectangle. *)
Record FPostProcessMaterialInputs : Type := {
  SceneColor : FScreenPassTexture;
  OverrideOutput : FScreenPassRenderTarget
}.

(** ** The debug log *)

Inductive ELogVerbosity : Type := LogWarning | LogLog.

Inductive ETransformPart : Type := ScaleX | ScaleY | BiasX | BiasY.

(** An argument of a [UE_LOG] format string. *)
Inductive FLogArg : Type :=
| ArgInt (z : Z)
| ArgBool (b : bool)
| ArgFloat (f : float)
| ArgText (s : string)
| ArgTransform (T : FScreenTransform) (part : ETransformPart).

Record FLogLine : Type := {
  Verbosity : ELogVerbosity;
  Format : string;
  Args : list FLogArg
}.

(** ** Statements

    The state of the render thread that the function touches, and the
    outcome of running a statement in it. *)

Record RenderState : Type := {
  GraphBuilder : FRDGBuilder;
  LogOutput : list FLogLine;
  LastLogTime : double
}.

Inductive ECrash : Type :=
| IndexOutOfRange
| NullDereference
| LoopBound.

Inductive Step (A : Type) : Type :=
| Next (a : A) (s : RenderState)
| Return (r : FScreenPassTexture) (s : RenderState)
| Crash (why : ECrash).

Arguments Next {A} a s.
Arguments Return {A} r s.
Arguments Crash {A} why.

Definition Stmt (A : Type) : Type := RenderState -> Step A.

Definition ret {A : Type} (a : A) : Stmt A := fun s => Next a s.

Definition bind {A B : Type} (m : Stmt A) (k : A -> Stmt B) : Stmt B :=
  fun s =>
    match m s with
    | Next a s' => k a s'
    | Return r s' => Return r s'
    | Crash why => Crash why
    end.

(** The statement [return r;]. *)
Definition return_ {A : Type} (r : FScreenPassTexture) : Stmt A :=
  fun s => Return r s.

Definition crash {A : Type} (why : ECrash) : Stmt A := fun _ => Crash why.

Declare Scope stmt_scope.
Delimit Scope stmt_scope with stmt.

Notation "x <- m ;; k" := (bind m (fun x => k))
  (at level 61, m at next level, right associativity) : stmt_scope.
Notation "m ;; k" := (bind m (fun _ => k))
  (at level 61, right associativity) : stmt_scope.

Local Open Scope stmt_scope.

(** [if (b) { m }]. *)
Definition when (b : bool) (m : Stmt unit) : Stmt unit :=
  if b then m else ret tt.

(** A [for] loop: [Cond] is tested before each iteration, [Incr] gives the
    next value of the loop variable, [L] holds the variables that the body
    updates. [bound] limits the number of iterations. *)
Fixpoint ForLoop {L : Type} (bound : nat) (Cond : Z -> bool) (Incr : Z -> Z)
  (Body : Z -> L -> Stmt L) (i : Z) (l : L) : Stmt L :=
  if Cond i then
    match bound with
    | O => crash LoopBound
    | S bound' =>
        l' <- Body i l ;;
        ForLoop bound' Cond Incr Body (Incr i) l'
    end
  else ret l.

(** [Array[Index]] with the range check of [TArray::operator[]]. *)
Definition Index {A : Type} (Array : list A) (i : Z) : Stmt A :=
  if i <? 0 then crash IndexOutOfRange
  else
    match nth_error Array (Z.to_nat i) with
    | Some a => ret a
    | None => crash IndexOutOfRange
    end.

(** [Array.Last()]. *)
Definition Last {A : Type} (Array : list A) : Stmt A :=
  Index Array (Z.of_nat (List.length Array) - 1).

(** [Array.Num()]. *)
Definition Num {A : Type} (Array : list A) : Z := Z.of_nat (List.length Array).

(** [Pointer->] on a nullable texture pointer. *)
Definition Deref (Pointer : FRDGTextureRef) : Stmt FRDGTexture :=
  match Pointer with
  | Some T => ret T
  | None => crash NullDereference
  end.

(** A registry of the state with one more entry at its end. *)
Definition Appended {A : Type} (Registry : list A) (Entry : A) : list A :=
  Registry ++ [Entry].

(** [GraphBuilder.CreateTexture(Desc, Name)]. *)
Definition CreateTexture (InDesc : FRDGTextureDesc) (InName : string)
  : Stmt FRDGTextureRef :=
  fun s =>
    let G := GraphBuilder s in
    let T := {| Handle := NextHandle G; Name := InName; Desc := InDesc |} in
    Next (Some T)
      {| GraphBuilder :=
           {| NextHandle := S (NextHandle G);
              Textures := Appended (Textures G) T;
              Passes := Passes G |};
         LogOutput := LogOutput s;
         LastLogTime := LastLogTime s |}.

(** [FPixelShaderUtils::AddFullscreenPass]. *)
Definition AddFullscreenPass (InName : string) (InShader : TShaderMapRef)
  (InParameters : FPassParameters) (InViewport : FIntRect) : Stmt unit :=
  fun s =>
    let G := GraphBuilder s in
    let P := {| EventName := InName; PixelShader := InShader;
                Parameters := InParameters; Viewport := InViewport |} in
    Next tt
      {| GraphBuilder :=
           {| NextHandle := NextHandle G;
              Textures := Textures G;
              Passes := Appended (Passes G) P |};
         LogOutput := LogOutput s;
         LastLogTime := LastLogTime s |}.

(** [UE_LOG(LogTemp, Verbosity, Format, Args...)]. *)
Definition UE_LOG (V : ELogVerbosity) (Fmt : string) (InArgs : list FLogArg)
  : Stmt unit :=
  fun s =>
    Next tt
      {| GraphBuilder := GraphBuilder s;
         LogOutput :=
           Appended (LogOutput s)
             {| Verbosity := V; Format := Fmt; Args := InArgs |};
         LastLogTime := LastLogTime s |}.

(** Assignment to the static [LastLogTime]. *)
Definition SetLastLogTime (T : double) : Stmt unit :=
  fun s =>
    Next tt
      {| GraphBuilder := GraphBuilder s;
         LogOutput := LogOutput s;
         LastLogTime := T |}.

(** Reading the static [LastLogTime]. *)
Definition GetLastLogTime : Stmt double := fun s => Next (LastLogTime s) s.

(** [FString::Printf] of a name with one [%d]: the decimal digits of the
    integer are appended to the prefix. *)
Definition Printf_d (Prefix : string) (i : Z) : string :=
  String.append Prefix (NilZero.string_of_int (Z.to_int i)).

(** ** [PostProcessPass_RenderThread] *)

(** [UE_PI], the binary32 number nearest to pi. *)
Definition UE_PI : float := S754_finite false 13176795 (-22).

(** The loop over the registered components (lines 220-227): the first
    entry whose object is still alive and active. [Objects] resolves a weak
    pointer: it gives nothing for a stale one. *)
Fixpoint FindActiveComponent (Objects : ObjectId -> option UBloomFXComponent)
  (Components : list ObjectId) : option UBloomFXComponent :=
  match Components with
  | [] => None
  | CompPtr :: Rest =>
      match Objects CompPtr with
      | Some Component =>
          if bIsActive Component then Some Component
          else FindActiveComponent Objects Rest
      | None => FindActiveComponent Objects Rest
      end
  end.

(** Lines 314-315. *)
Definition BloomDivisor (ActiveComponent : UBloomFXComponent) : Z :=
  let Scale := FMath.Clamp (DownsampleScale ActiveComponent) f_0_25 f_2 in
  FMath.Max 1 (FMath.RoundToInt (Float.div f_2 Scale)).

(** Line 320. *)
Definition BloomDownsampledExtent (ActiveComponent : UBloomFXComponent)
  (ViewRect : FIntRect) : FIntPoint :=
  FIntPoint.DivideAndRoundUp
    (FIntPoint.mk (FIntRect.Width ViewRect) (FIntRect.Height ViewRect))
    (BloomDivisor ActiveComponent).

(** Line 323. *)
Definition BloomDownsampledRect (ActiveComponent : UBloomFXComponent)
  (ViewRect : FIntRect) : FIntRect :=
  FIntRect.mk FIntPoint.ZeroValue (BloomDownsampledExtent ActiveComponent ViewRect).

Definition BoolToFloat (b : bool) : float := if b then f_1 else f_0.

Section RenderThread.

(** [FMath::Cos] and [FMath::Sin], the platform's single precision
    routines. *)
Variables FMath_Cos FMath_Sin : float -> float.

(** [FMath::DegreesToRadians]. *)
Definition DegreesToRadians (DegVal : float) : float :=
  Float.mul DegVal (Float.div UE_PI (Float.of_int 180)).

Variable View : FViewInfo.

Section Blocks.

(** The shader map, the selected component and the scene colour input,
    fixed while the passes are recorded. *)
Variable GlobalShaderMap : FGlobalShaderMap.
Variable ActiveComponent : UBloomFXComponent.
Variable SceneColor : FScreenPassTexture.

(** Lines 241-304: the throttled debug header. The result is [bShouldLog]. *)
Definition LogFrameInfo (SceneColorExtent : FIntPoint) (ViewRect : FIntRect)
  (CurrentTime : double) : Stmt bool :=
  let bDebugLog := bEnableDebugLogging ActiveComponent in
  LastTime <- GetLastLogTime ;;
  let bShouldLog := bDebugLog && Double.ltb d_1 (Double.sub CurrentTime LastTime) in
  when bShouldLog (
    SetLastLogTime CurrentTime ;;
    let PassName :=
      match PostProcessPass ActiveComponent with
      | Tonemap => "Tonemap"
      | MotionBlur => "MotionBlur"
      | FXAA => "FXAA"
      | VisualizeDepthOfField => "VisualizeDOF"
      end in
    let WorldTypeName :=
      match ViewWorld View with
      | Some World =>
          match WorldType World with
          | WT_None => "None"
          | WT_Game => "Game"
          | WT_Editor => "Editor"
          | WT_PIE => "PIE"
          | WT_EditorPreview => "EditorPreview"
          | WT_GamePreview => "GamePreview"
          | WT_Inactive => "Inactive"
          | WT_GameRPC => "Unknown"
          end
      | None => "Unknown"
      end in
    let bIsGameWorld :=
      match ViewWorld View with
      | Some World => IsGameWorld World
      | None => false
      end in
    let bIsPIE :=
      match ViewWorld View with
      | Some World => match WorldType World with WT_PIE => true | _ => false end
      | None => false
      end in
    UE_LOG LogWarning "========== CUSTOM BLOOM DEBUG ==========" [] ;;
    UE_LOG LogWarning "WORLD INFO:" [] ;;
    UE_LOG LogWarning "  WorldType: %s | IsGameWorld: %d | IsPIE: %d"
      [ArgText WorldTypeName; ArgBool bIsGameWorld; ArgBool bIsPIE] ;;
    UE_LOG LogWarning "  PostProcessPass: %s" [ArgText PassName] ;;
    UE_LOG LogWarning "VIEW INFO:" [] ;;
    UE_LOG LogWarning "  ViewRect: [%d,%d] -> [%d,%d] (Size: %dx%d)"
      [ArgInt (FIntPoint.X (FIntRect.Min ViewRect));
       ArgInt (FIntPoint.Y (FIntRect.Min ViewRect));
       ArgInt (FIntPoint.X (FIntRect.Max ViewRect));
       ArgInt (FIntPoint.Y (FIntRect.Max ViewRect));
       ArgInt (FIntRect.Width ViewRect); ArgInt (FIntRect.Height ViewRect)] ;;
    UE_LOG LogWarning "  Extent: %dx%d"
      [ArgInt (FIntPoint.X SceneColorExtent); ArgInt (FIntPoint.Y SceneColorExtent)] ;;
    UE_LOG LogWarning
      "  bIsGameView: %d | bIsSceneCapture: %d | bIsReflectionCapture: %d"
      [ArgBool (bIsGameView View); ArgBool (bIsSceneCapture View);
       ArgBool (bIsReflectionCapture View)] ;;
    UE_LOG LogWarning "BLOOM SETTINGS:" [] ;;
    UE_LOG LogWarning
      "  BloomIntensity: %.3f | BloomThreshold: %.3f | BloomSize: %.3f"
      [ArgFloat (BloomIntensity ActiveComponent);
       ArgFloat (BloomThreshold ActiveComponent);
       ArgFloat (BloomSize ActiveComponent)] ;;
    UE_LOG LogWarning "  bUseSceneColor: %d | BloomTint: (%.2f, %.2f, %.2f)"
      [ArgBool (bUseSceneColor ActiveComponent);
       ArgFloat (R (BloomTint ActiveComponent));
       ArgFloat (G (BloomTint ActiveComponent));
       ArgFloat (B (BloomTint ActiveComponent))] ;;
    UE_LOG LogWarning "BLOOM MODE:" [] ;;
    UE_LOG LogWarning
      "  BloomMode: %d (0=Standard, 1=DirectionalGlare, 2=Kawase, 3=SoftFocus)"
      [ArgInt (EBloomMode_value (BloomMode ActiveComponent))] ;;
    UE_LOG LogWarning "QUALITY:" [] ;;
    UE_LOG LogWarning "  DownsampleScale: %.2f | BlurPasses: %d | BlurSamples: %d"
      [ArgFloat (DownsampleScale ActiveComponent);
       ArgInt (BlurPasses ActiveComponent);
       ArgInt (BlurSamples ActiveComponent)] ;;
    UE_LOG LogWarning "========================================" []
  ) ;;
  ret bShouldLog.

(** The locals of the function that the later blocks read. *)
Variable bShouldLog : bool.
Variable Divisor : Z.
Variable DownsampledExtent : FIntPoint.
Variable DownsampledRect : FIntRect.
Variable BrightPassDesc : FRDGTextureDesc.
Variable BrightPassTexture : FRDGTextureRef.

(** Lines 340-400: the bright pass. *)
Definition BrightPass (SceneTexture : FRDGTexture) : Stmt unit :=
  let ViewRect := FScreenPassTexture.ViewRect SceneColor in
  let PixelShader := TShaderMapRef.Lookup GlobalShaderMap BrightPassPS in
  if negb (TShaderMapRef.IsValid PixelShader) then return_ SceneColor
  else
    let EffectiveThreshold := BloomThreshold ActiveComponent in
    let bIsSoftFocusMode := EBloomMode_eqb (BloomMode ActiveComponent) SoftFocus in
    let EffectiveThreshold :=
      if bIsSoftFocusMode then f_0_01 else EffectiveThreshold in
    when bShouldLog (
      UE_LOG LogWarning "THRESHOLD CALCULATION:" [] ;;
      UE_LOG LogWarning "  BloomThreshold: %.3f | Effective: %.3f"
        [ArgFloat (BloomThreshold ActiveComponent); ArgFloat EffectiveThreshold]
    ) ;;
    let OutputViewport :=
      FScreenPassTextureViewport.mk DownsampledExtent DownsampledRect in
    let InputViewport :=
      FScreenPassTextureViewport.mk
        (FIntPoint.mk
           (FIntPoint.X (FRDGTextureDesc.Extent (Desc SceneTexture)))
           (FIntPoint.Y (FRDGTextureDesc.Extent (Desc SceneTexture))))
        (FScreenPassTexture.ViewRect SceneColor) in
    let PassParameters :=
      {| FClassicBloomBrightPassPS.View := ViewUniformBuffer View;
         FClassicBloomBrightPassPS.SceneColorTexture :=
           FScreenPassTexture.Texture SceneColor;
         FClassicBloomBrightPassPS.SceneColorSampler :=
           TStaticSamplerState SF_Bilinear AM_Clamp AM_Clamp AM_Clamp;
         FClassicBloomBrightPassPS.InputViewportSizeAndInvSize :=
           SizeAndInvSize (FIntRect.Width ViewRect) (FIntRect.Height ViewRect);
         FClassicBloomBrightPassPS.OutputViewportSizeAndInvSize :=
           SizeAndInvSize (FIntRect.Width DownsampledRect)
             (FIntRect.Height DownsampledRect);
         FClassicBloomBrightPassPS.SvPositionToInputTextureUV :=
           Compose
             (ChangeTextureBasisFromTo OutputViewport TexelPosition ViewportUV)
             (ChangeTextureBasisFromTo InputViewport ViewportUV TextureUV);
         FClassicBloomBrightPassPS.BloomThreshold := EffectiveThreshold;
         FClassicBloomBrightPassPS.BloomIntensity := f_1;
         FClassicBloomBrightPassPS.RenderTargets0 :=
           FRenderTargetBinding.mk BrightPassTexture EClear |} in
    AddFullscreenPass "BrightPass" PixelShader
      (BrightPassParameters PassParameters) DownsampledRect.

(** The parameters of a separable blur pass, as both the glare smoothing
    and the standard blur fill them in. *)
Definition BlurPassParameters (Source Target : FRDGTextureRef)
  (Direction : FVector2f) (Radius : float) : FPassParameters :=
  BlurParameters
    {| FClassicBloomBlurPS.View := ViewUniformBuffer View;
       FClassicBloomBlurPS.SourceTexture := Source;
       FClassicBloomBlurPS.SourceSampler :=
         TStaticSamplerState SF_Bilinear AM_Clamp AM_Clamp AM_Clamp;
       FClassicBloomBlurPS.BufferSizeAndInvSize :=
         SizeAndInvSize (FIntPoint.X DownsampledExtent) (FIntPoint.Y DownsampledExtent);
       FClassicBloomBlurPS.BlurDirection := Direction;
       FClassicBloomBlurPS.BlurRadius := Radius;
       FClassicBloomBlurPS.RenderTargets0 := FRenderTargetBinding.mk Target EClear |}.

(** Lines 449-475: the body of the loop over the streak directions. *)
Definition GlareStreakBody (GlareStreakShader : TShaderMapRef)
  (AngleStep RotationOffset ScaledStreakLength Falloff : float)
  (i : Z) (StreakTextures : list FRDGTextureRef) : Stmt (list FRDGTextureRef) :=
  let Angle := Float.add (Float.mul AngleStep (Float.of_int i)) RotationOffset in
  let RadAngle := DegreesToRadians Angle in
  let Direction := FVector2f.mk (FMath_Cos RadAngle) (FMath_Sin RadAngle) in
  StreakTexture <- CreateTexture BrightPassDesc (Printf_d "ClassicBloom.Streak" i) ;;
  let StreakTextures := StreakTextures ++ [StreakTexture] in
  let StreakParams :=
    {| FClassicBloomGlareStreakPS.View := ViewUniformBuffer View;
       FClassicBloomGlareStreakPS.SourceTexture := BrightPassTexture;
       FClassicBloomGlareStreakPS.SourceSampler :=
         TStaticSamplerState SF_Bilinear AM_Clamp AM_Clamp AM_Clamp;
       FClassicBloomGlareStreakPS.BufferSizeAndInvSize :=
         SizeAndInvSize (FIntPoint.X DownsampledExtent) (FIntPoint.Y DownsampledExtent);
       FClassicBloomGlareStreakPS.StreakDirection := Direction;
       FClassicBloomGlareStreakPS.StreakLength := ScaledStreakLength;
       FClassicBloomGlareStreakPS.StreakFalloff := Falloff;
       FClassicBloomGlareStreakPS.RenderTargets0 :=
         FRenderTargetBinding.mk StreakTexture EClear |} in
  AddFullscreenPass (Printf_d "GlareStreak" i) GlareStreakShader
    (GlareStreakParameters StreakParams) DownsampledRect ;;
  ret StreakTextures.

(** Lines 483-542: the accumulation of the streak textures. The result is
    [AccumTexture]. *)
Definition GlareAccumulate (GlareAccumShader : TShaderMapRef) (NumStreaks : Z)
  (StreakTextures : list FRDGTextureRef) : Stmt FRDGTextureRef :=
  AccumTexture <- CreateTexture BrightPassDesc "ClassicBloom.GlareAccum" ;;
  let StreaksToProcess := FMath.Min NumStreaks 4 in
  Streak0 <- Index StreakTextures 0 ;;
  Streak1 <- (if 2 <=? StreaksToProcess then Index StreakTextures 1
              else Index StreakTextures 0) ;;
  Streak2 <- (if 3 <=? StreaksToProcess then Index StreakTextures 2
              else Index StreakTextures 0) ;;
  Streak3 <- (if 4 <=? StreaksToProcess then Index StreakTextures 3
              else Index StreakTextures 0) ;;
  let AccumParams :=
    {| FClassicBloomGlareAccumulatePS.View := ViewUniformBuffer View;
       FClassicBloomGlareAccumulatePS.StreakTexture0 := Streak0;
       FClassicBloomGlareAccumulatePS.StreakTexture1 := Streak1;
       FClassicBloomGlareAccumulatePS.StreakTexture2 := Streak2;
       FClassicBloomGlareAccumulatePS.StreakTexture3 := Streak3;
       FClassicBloomGlareAccumulatePS.StreakSampler :=
         TStaticSamplerState SF_Bilinear AM_Clamp AM_Clamp AM_Clamp;
       FClassicBloomGlareAccumulatePS.GlareViewportSizeAndInvSize :=
         SizeAndInvSize (FIntRect.Width DownsampledRect)
           (FIntRect.Height DownsampledRect);
       FClassicBloomGlareAccumulatePS.NumStreaks := StreaksToProcess;
       FClassicBloomGlareAccumulatePS.RenderTargets0 :=
         FRenderTargetBinding.mk AccumTexture EClear |} in
  AddFullscreenPass "GlareAccumulate" GlareAccumShader
    (GlareAccumulateParameters AccumParams) DownsampledRect ;;
  if 4 <? NumStreaks then
    ForLoop (Z.to_nat NumStreaks)
      (fun BatchStart => BatchStart <? NumStreaks)
      (fun BatchStart => Int32.add BatchStart 3)
      (fun BatchStart PrevAccum =>
         NextAccum <- CreateTexture BrightPassDesc
                        (Printf_d "ClassicBloom.GlareAccum" BatchStart) ;;
         let StreaksInBatch := FMath.Min 3 (Int32.sub NumStreaks BatchStart) in
         Streak1 <- Index StreakTextures BatchStart ;;
         Streak2 <- (if 2 <=? StreaksInBatch
                     then Index StreakTextures (Int32.add BatchStart 1)
                     else Index StreakTextures BatchStart) ;;
         Streak3 <- (if 3 <=? StreaksInBatch
                     then Index StreakTextures (Int32.add BatchStart 2)
                     else Index StreakTextures BatchStart) ;;
         let AccumParams :=
           {| FClassicBloomGlareAccumulatePS.View := ViewUniformBuffer View;
              FClassicBloomGlareAccumulatePS.StreakTexture0 := PrevAccum;
              FClassicBloomGlareAccumulatePS.StreakTexture1 := Streak1;
              FClassicBloomGlareAccumulatePS.StreakTexture2 := Streak2;
              FClassicBloomGlareAccumulatePS.StreakTexture3 := Streak3;
              FClassicBloomGlareAccumulatePS.StreakSampler :=
                TStaticSamplerState SF_Bilinear AM_Clamp AM_Clamp AM_Clamp;
              FClassicBloomGlareAccumulatePS.GlareViewportSizeAndInvSize :=
                SizeAndInvSize (FIntRect.Width DownsampledRect)
                  (FIntRect.Height DownsampledRect);
              FClassicBloomGlareAccumulatePS.NumStreaks :=
                Int32.add 1 StreaksInBatch;
              FClassicBloomGlareAccumulatePS.RenderTargets0 :=
                FRenderTargetBinding.mk NextAccum EClear |} in
         AddFullscreenPass (Printf_d "GlareAccumulate" BatchStart) GlareAccumShader
           (GlareAccumulateParameters AccumParams) DownsampledRect ;;
         ret NextAccum)
      4 AccumTexture
  else ret AccumTexture.

(** Lines 410-584: directional glare. The result is [BlurredBloomTexture],
    still null when the block does not run or falls back. *)
Definition DirectionalGlareBlock : Stmt FRDGTextureRef :=
  let bUseDirectionalGlare :=
    EBloomMode_eqb (BloomMode ActiveComponent) DirectionalGlare in
  if bUseDirectionalGlare then
    let NumStreaks := FMath.Clamp (GlareStreakCount ActiveComponent) 2 16 in
    let StreakLength :=
      FMath.Clamp (Float.of_int (GlareStreakLength ActiveComponent)) f_5 f_200 in
    let RotationOffset := GlareRotationOffset ActiveComponent in
    let Falloff := FMath.Clamp (GlareFalloff ActiveComponent) f_0_5 f_10 in
    let ScaledStreakLength := Float.div StreakLength (Float.of_int Divisor) in
    let AngleStep := Float.div f_360 (Float.of_int NumStreaks) in
    when bShouldLog (
      UE_LOG LogWarning "DIRECTIONAL GLARE SETTINGS:" [] ;;
      UE_LOG LogWarning "  NumStreaks: %d | StreakLength: %.1f (scaled: %.1f)"
        [ArgInt NumStreaks; ArgFloat StreakLength; ArgFloat ScaledStreakLength] ;;
      UE_LOG LogWarning "  RotationOffset: %.1f | Falloff: %.2f | AngleStep: %.1f"
        [ArgFloat RotationOffset; ArgFloat Falloff; ArgFloat AngleStep]
    ) ;;
    let GlareStreakShader := TShaderMapRef.Lookup GlobalShaderMap GlareStreakPS in
    if negb (TShaderMapRef.IsValid GlareStreakShader) then
      when bShouldLog (
        UE_LOG LogWarning
          "ClassicBloom: Glare streak shader not available, falling back to standard"
          []
      ) ;;
      ret None
    else
      StreakTextures <-
        ForLoop (Z.to_nat NumStreaks)
          (fun i => i <? NumStreaks) (fun i => Int32.add i 1)
          (GlareStreakBody GlareStreakShader AngleStep RotationOffset
             ScaledStreakLength Falloff)
          0 [] ;;
      let GlareAccumShader :=
        TShaderMapRef.Lookup GlobalShaderMap GlareAccumulatePS in
      if TShaderMapRef.IsValid GlareAccumShader then
        AccumTexture <- GlareAccumulate GlareAccumShader NumStreaks StreakTextures ;;
        GlareBlurTemp <- CreateTexture BrightPassDesc "ClassicBloom.GlareBlurTemp" ;;
        BlurredBloomTexture <-
          CreateTexture BrightPassDesc "ClassicBloom.GlareBlurred" ;;
        AddFullscreenPass "GlareBlurH"
          (TShaderMapRef.Lookup GlobalShaderMap BlurPS)
          (BlurPassParameters AccumTexture GlareBlurTemp (FVector2f.mk f_1 f_0)
             (Float.mul (BloomSize ActiveComponent) f_0_05))
          DownsampledRect ;;
        AddFullscreenPass "GlareBlurV"
          (TShaderMapRef.Lookup GlobalShaderMap BlurPS)
          (BlurPassParameters GlareBlurTemp BlurredBloomTexture (FVector2f.mk f_0 f_1)
             (Float.mul (BloomSize ActiveComponent) f_0_05))
          DownsampledRect ;;
        ret BlurredBloomTexture
      else ret None
  else ret None.

(** Lines 631-653: the body of the loop that sizes and creates the mips.
    The loop updates [CurrentExtent], [CurrentRect] and the three arrays. *)
Definition KawaseMipBody (Mip : Z)
  (L : FIntPoint * FIntRect
       * list FRDGTextureRef * list FIntPoint * list FIntRect)
  : Stmt (FIntPoint * FIntRect
          * list FRDGTextureRef * list FIntPoint * list FIntRect) :=
  let '(CurrentExtent, CurrentRect, MipTextures, MipExtents, MipRects) := L in
  let CurrentExtent := FIntPoint.DivideAndRoundUp CurrentExtent 2 in
  let CurrentRect :=
    FIntRect.mk FIntPoint.ZeroValue
      (FIntPoint.DivideAndRoundUp
         (FIntPoint.mk (FIntRect.Width CurrentRect) (FIntRect.Height CurrentRect))
         2) in
  let CurrentExtent :=
    FIntPoint.mk (FMath.Max (FIntPoint.X CurrentExtent) 1) (FIntPoint.Y CurrentExtent) in
  let CurrentExtent :=
    FIntPoint.mk (FIntPoint.X CurrentExtent) (FMath.Max (FIntPoint.Y CurrentExtent) 1) in
  let CurrentRect :=
    FIntRect.mk (FIntRect.Min CurrentRect)
      (FIntPoint.mk (FMath.Max (FIntPoint.X (FIntRect.Max CurrentRect)) 1)
         (FIntPoint.Y (FIntRect.Max CurrentRect))) in
  let CurrentRect :=
    FIntRect.mk (FIntRect.Min CurrentRect)
      (FIntPoint.mk (FIntPoint.X (FIntRect.Max CurrentRect))
         (FMath.Max (FIntPoint.Y (FIntRect.Max CurrentRect)) 1)) in
  let MipDesc :=
    FRDGTextureDesc.Create2D CurrentExtent PF_FloatR11G11B10 ClearBlack
      (Z.lor TexCreate_ShaderResource TexCreate_RenderTargetable) in
  MipTexture <- CreateTexture MipDesc (Printf_d "ClassicBloom.KawaseMip" Mip) ;;
  ret (CurrentExtent, CurrentRect,
       MipTextures ++ [MipTexture], MipExtents ++ [CurrentExtent],
       MipRects ++ [CurrentRect]).

(** Lines 665-701: the body of the downsample loop. The loop updates
    [DownsampleSource], [SourceExtent] and [SourceRect]. *)
Definition KawaseDownsampleBody (KawaseDownsampleShader : TShaderMapRef)
  (ThresholdKnee : float)
  (MipTextures : list FRDGTextureRef) (MipExtents : list FIntPoint)
  (MipRects : list FIntRect)
  (Mip : Z) (L : FRDGTextureRef * FIntPoint * FIntRect)
  : Stmt (FRDGTextureRef * FIntPoint * FIntRect) :=
  let '(DownsampleSource, SourceExtent, SourceRect) := L in
  MipExtent <- Index MipExtents Mip ;;
  MipRect <- Index MipRects Mip ;;
  let OutputViewport := FScreenPassTextureViewport.mk MipExtent MipRect in
  let SourceViewport := FScreenPassTextureViewport.mk SourceExtent SourceRect in
  MipTexture <- Index MipTextures Mip ;;
  let DownParams :=
    {| FClassicBloomKawaseDownsamplePS.View := ViewUniformBuffer View;
       FClassicBloomKawaseDownsamplePS.SourceTexture := DownsampleSource;
       FClassicBloomKawaseDownsamplePS.SourceSampler :=
         TStaticSamplerState SF_Bilinear AM_Clamp AM_Clamp AM_Clamp;
       FClassicBloomKawaseDownsamplePS.SourceSizeAndInvSize :=
         SizeAndInvSize (FIntPoint.X SourceExtent) (FIntPoint.Y SourceExtent);
       FClassicBloomKawaseDownsamplePS.OutputSizeAndInvSize :=
         SizeAndInvSize (FIntPoint.X MipExtent) (FIntPoint.Y MipExtent);
       FClassicBloomKawaseDownsamplePS.SvPositionToSourceUV :=
         Compose
           (ChangeTextureBasisFromTo OutputViewport TexelPosition ViewportUV)
           (ChangeTextureBasisFromTo SourceViewport ViewportUV TextureUV);
       FClassicBloomKawaseDownsamplePS.BloomThreshold :=
         BloomThreshold ActiveComponent;
       FClassicBloomKawaseDownsamplePS.ThresholdKnee := ThresholdKnee;
       FClassicBloomKawaseDownsamplePS.MipLevel := Mip;
       FClassicBloomKawaseDownsamplePS.bUseKarisAverage :=
         (if Mip =? 0 then 1 else 0);
       FClassicBloomKawaseDownsamplePS.RenderTargets0 :=
         FRenderTargetBinding.mk MipTexture EClear |} in
  AddFullscreenPass (Printf_d "KawaseDownsample_Mip" Mip) KawaseDownsampleShader
    (KawaseDownsampleParameters DownParams) MipRect ;;
  ret (MipTexture, MipExtent, MipRect).

(** Lines 716-726: the body of the loop that creates the upsample targets. *)
Definition KawaseUpsampleTargetBody (MipExtents : list FIntPoint)
  (Mip : Z) (UpsampleTextures : list FRDGTextureRef)
  : Stmt (list FRDGTextureRef) :=
  MipExtent <- Index MipExtents Mip ;;
  let UpsampleDesc :=
    FRDGTextureDesc.Create2D MipExtent PF_FloatR11G11B10 ClearBlack
      (Z.lor TexCreate_ShaderResource TexCreate_RenderTargetable) in
  UpsampleTexture <-
    CreateTexture UpsampleDesc (Printf_d "ClassicBloom.KawaseUpsample" Mip) ;;
  ret (UpsampleTextures ++ [UpsampleTexture]).

(** Lines 733-757: the body of the upsample loop. The loop updates
    [UpsampleSource], [UpsampleSourceExtent] and [UpsampleIdx]. *)
Definition KawaseUpsampleBody (KawaseUpsampleShader : TShaderMapRef)
  (FilterRadius : float)
  (MipTextures : list FRDGTextureRef) (MipExtents : list FIntPoint)
  (MipRects : list FIntRect) (UpsampleTextures : list FRDGTextureRef)
  (Mip : Z) (L : FRDGTextureRef * FIntPoint * Z)
  : Stmt (FRDGTextureRef * FIntPoint * Z) :=
  let '(UpsampleSource, UpsampleSourceExtent, UpsampleIdx) := L in
  PreviousMip <- Index MipTextures Mip ;;
  MipExtent <- Index MipExtents Mip ;;
  UpsampleTarget <- Index UpsampleTextures UpsampleIdx ;;
  let UpParams :=
    {| FClassicBloomKawaseUpsamplePS.View := ViewUniformBuffer View;
       FClassicBloomKawaseUpsamplePS.SourceTexture := UpsampleSource;
       FClassicBloomKawaseUpsamplePS.PreviousMipTexture := PreviousMip;
       FClassicBloomKawaseUpsamplePS.SourceSampler :=
         TStaticSamplerState SF_Bilinear AM_Clamp AM_Clamp AM_Clamp;
       FClassicBloomKawaseUpsamplePS.OutputSizeAndInvSize :=
         SizeAndInvSize (FIntPoint.X MipExtent) (FIntPoint.Y MipExtent);
       FClassicBloomKawaseUpsamplePS.FilterRadius := FilterRadius;
       FClassicBloomKawaseUpsamplePS.RenderTargets0 :=
         FRenderTargetBinding.mk UpsampleTarget EClear |} in
  MipRect <- Index MipRects Mip ;;
  AddFullscreenPass (Printf_d "KawaseUpsample_Mip" Mip) KawaseUpsampleShader
    (KawaseUpsampleParameters UpParams) MipRect ;;
  ret (UpsampleTarget, MipExtent, Int32.add UpsampleIdx 1).

(** Lines 589-798: Kawase bloom. The argument and the result are
    [BlurredBloomTexture]. *)
Definition KawaseBlock (SceneTexture : FRDGTexture)
  (BlurredBloomTexture : FRDGTextureRef) : Stmt FRDGTextureRef :=
  let bUseKawaseBloom := EBloomMode_eqb (BloomMode ActiveComponent) Kawase in
  if bUseKawaseBloom
     && (match BlurredBloomTexture with None => true | Some _ => false end)
  then
    let KawaseDownsampleShader :=
      TShaderMapRef.Lookup GlobalShaderMap KawaseDownsamplePS in
    let KawaseUpsampleShader :=
      TShaderMapRef.Lookup GlobalShaderMap KawaseUpsamplePS in
    if negb (TShaderMapRef.IsValid KawaseDownsampleShader)
       || negb (TShaderMapRef.IsValid KawaseUpsampleShader)
    then
      when bShouldLog (
        UE_LOG LogWarning
          "ClassicBloom: Kawase shaders not available, falling back to standard" []
      ) ;;
      ret BlurredBloomTexture
    else
      let MipCount := FMath.Clamp (KawaseMipCount ActiveComponent) 3 8 in
      let FilterRadius :=
        FMath.Clamp (KawaseFilterRadius ActiveComponent) f_0_0001 f_0_01 in
      let bSoftThreshold := bKawaseSoftThreshold ActiveComponent in
      let ThresholdKnee :=
        if bSoftThreshold
        then FMath.Clamp (KawaseThresholdKnee ActiveComponent) f_0 f_1
        else f_0 in
      when bShouldLog (
        UE_LOG LogWarning "KAWASE BLOOM SETTINGS:" [] ;;
        UE_LOG LogWarning "  MipCount: %d | FilterRadius: %.5f"
          [ArgInt MipCount; ArgFloat FilterRadius] ;;
        UE_LOG LogWarning "  SoftThreshold: %d | ThresholdKnee: %.2f"
          [ArgBool bSoftThreshold; ArgFloat ThresholdKnee] ;;
        UE_LOG LogWarning "  BloomThreshold: %.2f | BloomIntensity: %.2f"
          [ArgFloat (BloomThreshold ActiveComponent);
           ArgFloat (BloomIntensity ActiveComponent)]
      ) ;;
      Mips <-
        ForLoop (Z.to_nat MipCount)
          (fun Mip => Mip <? MipCount) (fun Mip => Int32.add Mip 1)
          KawaseMipBody
          0 (DownsampledExtent, DownsampledRect, [], [], []) ;;
      let '(_, _, MipTextures, MipExtents, MipRects) := Mips in
      ForLoop (Z.to_nat MipCount)
        (fun Mip => Mip <? MipCount) (fun Mip => Int32.add Mip 1)
        (KawaseDownsampleBody KawaseDownsampleShader ThresholdKnee
           MipTextures MipExtents MipRects)
        0 (FScreenPassTexture.Texture SceneColor,
           FRDGTextureDesc.Extent (Desc SceneTexture),
           FScreenPassTexture.ViewRect SceneColor) ;;
      UpsampleTextures <-
        ForLoop (Z.to_nat MipCount)
          (fun Mip => 0 <=? Mip) (fun Mip => Int32.sub Mip 1)
          (KawaseUpsampleTargetBody MipExtents)
          (Int32.sub MipCount 2) [] ;;
      UpsampleSource <- Index MipTextures (Int32.sub MipCount 1) ;;
      UpsampleSourceExtent <- Index MipExtents (Int32.sub MipCount 1) ;;
      ForLoop (Z.to_nat MipCount)
        (fun Mip => 0 <=? Mip) (fun Mip => Int32.sub Mip 1)
        (KawaseUpsampleBody KawaseUpsampleShader FilterRadius
           MipTextures MipExtents MipRects UpsampleTextures)
        (Int32.sub MipCount 2) (UpsampleSource, UpsampleSourceExtent, 0) ;;
      Blurred <-
        (if 0 <? Num UpsampleTextures then
           Blurred <- CreateTexture BrightPassDesc "ClassicBloom.KawaseBlurred" ;;
           LastUpsample <- Last UpsampleTextures ;;
           Mip0 <- Index MipTextures 0 ;;
           let FinalUpParams :=
             {| FClassicBloomKawaseUpsamplePS.View := ViewUniformBuffer View;
                FClassicBloomKawaseUpsamplePS.SourceTexture := LastUpsample;
                FClassicBloomKawaseUpsamplePS.PreviousMipTexture := Mip0;
                FClassicBloomKawaseUpsamplePS.SourceSampler :=
                  TStaticSamplerState SF_Bilinear AM_Clamp AM_Clamp AM_Clamp;
                FClassicBloomKawaseUpsamplePS.OutputSizeAndInvSize :=
                  SizeAndInvSize (FIntPoint.X DownsampledExtent)
                    (FIntPoint.Y DownsampledExtent);
                FClassicBloomKawaseUpsamplePS.FilterRadius := FilterRadius;
                FClassicBloomKawaseUpsamplePS.RenderTargets0 :=
                  FRenderTargetBinding.mk Blurred EClear |} in
           AddFullscreenPass "KawaseUpsample_Final" KawaseUpsampleShader
             (KawaseUpsampleParameters FinalUpParams) DownsampledRect ;;
           ret Blurred
         else
           if 0 <? Num MipTextures then Index MipTextures 0
           else ret BrightPassTexture) ;;
      when bShouldLog (
        UE_LOG LogWarning "KAWASE BLOOM COMPLETED:" [] ;;
        UE_LOG LogWarning "  Generated %d mips, %d upsample passes"
          [ArgInt MipCount; ArgInt (Num UpsampleTextures)]
      ) ;;
      ret Blurred
  else ret BlurredBloomTexture.

(** Lines 801-857: the standard separable blur, also the fallback of the
    two blocks above. The argument and the result are
    [BlurredBloomTexture]. *)
Definition StandardBlurBlock (BlurredBloomTexture : FRDGTextureRef)
  : Stmt FRDGTextureRef :=
  match BlurredBloomTexture with
  | Some _ => ret BlurredBloomTexture
  | None =>
      let NumBlurPasses := FMath.Clamp (BlurPasses ActiveComponent) 1 4 in
      BlurTempTexture <- CreateTexture BrightPassDesc "ClassicBloom.BlurTemp" ;;
      BlurredBloomTexture <- CreateTexture BrightPassDesc "ClassicBloom.Blurred" ;;
      ForLoop (Z.to_nat NumBlurPasses)
        (fun PassIndex => PassIndex <? NumBlurPasses)
        (fun PassIndex => Int32.add PassIndex 1)
        (fun PassIndex BlurSource =>
           AddFullscreenPass "BlurHorizontal"
             (TShaderMapRef.Lookup GlobalShaderMap BlurPS)
             (BlurPassParameters BlurSource BlurTempTexture (FVector2f.mk f_1 f_0)
                (Float.mul (BloomSize ActiveComponent) f_0_1))
             DownsampledRect ;;
           AddFullscreenPass "BlurVertical"
             (TShaderMapRef.Lookup GlobalShaderMap BlurPS)
             (BlurPassParameters BlurTempTexture BlurredBloomTexture
                (FVector2f.mk f_0 f_1)
                (Float.mul (BloomSize ActiveComponent) f_0_1))
             DownsampledRect ;;
           ret BlurredBloomTexture)
        0 BrightPassTexture ;;
      ret BlurredBloomTexture
  end.

(** Lines 859-996: the composite pass and the final [return]. *)
Definition CompositeBlock (OverrideOutput : FScreenPassRenderTarget)
  (SceneTexture : FRDGTexture) (BlurredBloomTexture : FRDGTextureRef)
  : Stmt unit :=
  let bUseSoftFocus := EBloomMode_eqb (BloomMode ActiveComponent) SoftFocus in
  Output <-
    (if negb (FScreenPassRenderTarget.IsValid OverrideOutput) then
       let OutputDesc := Desc SceneTexture in
       let OutputDesc :=
         FRDGTextureDesc.mk (FRDGTextureDesc.Extent OutputDesc)
           (FRDGTextureDesc.Format OutputDesc) ClearBlack
           (FRDGTextureDesc.Flags OutputDesc) in
       let OutputDesc :=
         FRDGTextureDesc.mk (FRDGTextureDesc.Extent OutputDesc)
           (FRDGTextureDesc.Format OutputDesc)
           (FRDGTextureDesc.ClearValue OutputDesc)
           (Z.lor (FRDGTextureDesc.Flags OutputDesc)
              (Z.lor TexCreate_RenderTargetable TexCreate_ShaderResource)) in
       OutputTexture <- CreateTexture OutputDesc "ClassicBloom.Output" ;;
       ret (FScreenPassRenderTarget.mk OutputTexture
              (FScreenPassTexture.ViewRect SceneColor) ENoAction)
     else ret OverrideOutput) ;;
  let OutputRect := FScreenPassRenderTarget.ViewRect Output in
  OutputTexture <- Deref (FScreenPassRenderTarget.Texture Output) ;;
  let OutputViewport :=
    FScreenPassTextureViewport.mk
      (FIntPoint.mk
         (FIntPoint.X (FRDGTextureDesc.Extent (Desc OutputTexture)))
         (FIntPoint.Y (FRDGTextureDesc.Extent (Desc OutputTexture))))
      OutputRect in
  let SceneColorViewport :=
    FScreenPassTextureViewport.mk
      (FIntPoint.mk
         (FIntPoint.X (FRDGTextureDesc.Extent (Desc SceneTexture)))
         (FIntPoint.Y (FRDGTextureDesc.Extent (Desc SceneTexture))))
      (FScreenPassTexture.ViewRect SceneColor) in
  let BloomViewport :=
    FScreenPassTextureViewport.mk DownsampledExtent DownsampledRect in
  let SvPositionToSceneColorUV :=
    Compose
      (ChangeTextureBasisFromTo OutputViewport TexelPosition ViewportUV)
      (ChangeTextureBasisFromTo SceneColorViewport ViewportUV TextureUV) in
  let SvPositionToBloomUV :=
    Compose
      (ChangeTextureBasisFromTo OutputViewport TexelPosition ViewportUV)
      (ChangeTextureBasisFromTo BloomViewport ViewportUV TextureUV) in
  let BloomIntensityParameter :=
    if bUseSoftFocus then f_0 else BloomIntensity ActiveComponent in
  when bShouldLog (
    UE_LOG LogWarning "FINAL SHADER PARAMETERS:" [] ;;
    UE_LOG LogWarning "  BloomMode: %d (SoftFocus: %d) | BloomIntensity: %.3f"
      [ArgInt (EBloomMode_value (BloomMode ActiveComponent));
       ArgBool bUseSoftFocus; ArgFloat BloomIntensityParameter] ;;
    UE_LOG LogWarning "  SoftFocusIntensity: %.3f"
      [ArgFloat (if bUseSoftFocus then BloomIntensity ActiveComponent else f_0)] ;;
    UE_LOG LogWarning "  bUseAdaptiveScaling: %d"
      [ArgBool (bUseAdaptiveBrightnessScaling ActiveComponent)] ;;
    UE_LOG LogWarning "VIEWPORT MAPPING:" [] ;;
    UE_LOG LogWarning "  Output: Extent[%d,%d] ViewRect[%d,%d]-[%d,%d]"
      [ArgInt (FIntPoint.X (FRDGTextureDesc.Extent (Desc OutputTexture)));
       ArgInt (FIntPoint.Y (FRDGTextureDesc.Extent (Desc OutputTexture)));
       ArgInt (FIntPoint.X (FIntRect.Min OutputRect));
       ArgInt (FIntPoint.Y (FIntRect.Min OutputRect));
       ArgInt (FIntPoint.X (FIntRect.Max OutputRect));
       ArgInt (FIntPoint.Y (FIntRect.Max OutputRect))] ;;
    UE_LOG LogWarning "  SceneColor: Extent[%d,%d] ViewRect[%d,%d]-[%d,%d]"
      [ArgInt (FIntPoint.X (FRDGTextureDesc.Extent (Desc SceneTexture)));
       ArgInt (FIntPoint.Y (FRDGTextureDesc.Extent (Desc SceneTexture)));
       ArgInt (FIntPoint.X (FIntRect.Min (FScreenPassTexture.ViewRect SceneColor)));
       ArgInt (FIntPoint.Y (FIntRect.Min (FScreenPassTexture.ViewRect SceneColor)));
       ArgInt (FIntPoint.X (FIntRect.Max (FScreenPassTexture.ViewRect SceneColor)));
       ArgInt (FIntPoint.Y (FIntRect.Max (FScreenPassTexture.ViewRect SceneColor)))] ;;
    UE_LOG LogWarning "  Bloom: Extent[%d,%d] Rect[%d,%d]-[%d,%d]"
      [ArgInt (FIntPoint.X DownsampledExtent); ArgInt (FIntPoint.Y DownsampledExtent);
       ArgInt (FIntPoint.X (FIntRect.Min DownsampledRect));
       ArgInt (FIntPoint.Y (FIntRect.Min DownsampledRect));
       ArgInt (FIntPoint.X (FIntRect.Max DownsampledRect));
       ArgInt (FIntPoint.Y (FIntRect.Max DownsampledRect))] ;;
    UE_LOG LogWarning "  SvPosToSceneColorUV: Scale[%.4f,%.4f] Bias[%.4f,%.4f]"
      [ArgTransform SvPositionToSceneColorUV ScaleX;
       ArgTransform SvPositionToSceneColorUV ScaleY;
       ArgTransform SvPositionToSceneColorUV BiasX;
       ArgTransform SvPositionToSceneColorUV BiasY] ;;
    UE_LOG LogWarning "  SvPosToBloomUV: Scale[%.4f,%.4f] Bias[%.4f,%.4f]"
      [ArgTransform SvPositionToBloomUV ScaleX;
       ArgTransform SvPositionToBloomUV ScaleY;
       ArgTransform SvPositionToBloomUV BiasX;
       ArgTransform SvPositionToBloomUV BiasY]
  ) ;;
  let TintWithFlag := BloomTint ActiveComponent in
  let TintWithFlag :=
    {| R := R TintWithFlag; G := G TintWithFlag; B := B TintWithFlag;
       A := if bUseSceneColor ActiveComponent then f_1 else f_0 |} in
  let bIsGameWorld :=
    match ViewWorld View with
    | Some World => IsGameWorld World
    | None => false
    end in
  let PassParameters :=
    {| FClassicBloomCompositePS.View := ViewUniformBuffer View;
       FClassicBloomCompositePS.SceneColorTexture :=
         FScreenPassTexture.Texture SceneColor;
       FClassicBloomCompositePS.SceneColorSampler :=
         TStaticSamplerState SF_Bilinear AM_Clamp AM_Clamp AM_Clamp;
       FClassicBloomCompositePS.BloomTexture := BlurredBloomTexture;
       FClassicBloomCompositePS.BloomSampler :=
         TStaticSamplerState SF_Bilinear AM_Clamp AM_Clamp AM_Clamp;
       FClassicBloomCompositePS.OutputViewportSizeAndInvSize :=
         SizeAndInvSize (FIntRect.Width OutputRect) (FIntRect.Height OutputRect);
       FClassicBloomCompositePS.SvPositionToSceneColorUV := SvPositionToSceneColorUV;
       FClassicBloomCompositePS.SvPositionToBloomUV := SvPositionToBloomUV;
       FClassicBloomCompositePS.BloomIntensity := BloomIntensityParameter;
       FClassicBloomCompositePS.BloomTint := FVector4f_of_color TintWithFlag;
       FClassicBloomCompositePS.BloomBlendMode :=
         Float.of_int (EBloomBlendMode_value (BloomBlendMode ActiveComponent));
       FClassicBloomCompositePS.BloomSaturation := BloomSaturation ActiveComponent;
       FClassicBloomCompositePS.bProtectHighlights :=
         BoolToFloat (bProtectHighlights ActiveComponent);
       FClassicBloomCompositePS.HighlightProtection :=
         HighlightProtection ActiveComponent;
       FClassicBloomCompositePS.SoftFocusIntensity :=
         (if bUseSoftFocus then BloomIntensity ActiveComponent else f_0);
       FClassicBloomCompositePS.SoftFocusParams :=
         FVector4f.mk (SoftFocusOverlayMultiplier ActiveComponent)
           (SoftFocusBlendStrength ActiveComponent)
           (SoftFocusSoftLightMultiplier ActiveComponent)
           (SoftFocusFinalBlend ActiveComponent);
       FClassicBloomCompositePS.bUseAdaptiveScaling :=
         BoolToFloat (bUseAdaptiveBrightnessScaling ActiveComponent);
       FClassicBloomCompositePS.bShowBloomOnly :=
         BoolToFloat (bShowBloomOnly ActiveComponent);
       FClassicBloomCompositePS.bShowGammaCompensation :=
         BoolToFloat (bShowGammaCompensation ActiveComponent);
       FClassicBloomCompositePS.bIsGameWorld := BoolToFloat bIsGameWorld;
       FClassicBloomCompositePS.GameModeBloomScale :=
         GameModeBloomScale ActiveComponent;
       FClassicBloomCompositePS.RenderTargets0 :=
         FScreenPassRenderTarget.GetRenderTargetBinding Output |} in
  let PixelShader := TShaderMapRef.Lookup GlobalShaderMap CompositePS in
  if negb (TShaderMapRef.IsValid PixelShader) then
    when bShouldLog (
      UE_LOG LogWarning "ClassicBloom: Composite shader not available" []
    ) ;;
    return_ SceneColor
  else
    AddFullscreenPass "CompositeBloom" PixelShader
      (CompositeParameters PassParameters) OutputRect ;;
    when bShouldLog (
      UE_LOG LogLog
        "ClassicBloom: Successfully rendered bloom (Downsampled: %dx%d, Output ViewRect: [%d,%d]-[%d,%d])"
        [ArgInt (FIntRect.Width DownsampledRect);
         ArgInt (FIntRect.Height DownsampledRect);
         ArgInt (FIntPoint.X (FIntRect.Min OutputRect));
         ArgInt (FIntPoint.Y (FIntRect.Min OutputRect));
         ArgInt (FIntPoint.X (FIntRect.Max OutputRect));
         ArgInt (FIntPoint.Y (FIntRect.Max OutputRect))]
    ) ;;
    return_ (FScreenPassRenderTarget.ToTexture Output).

End Blocks.

(** Lines 332-996: the passes of the effect, from the allocation of the
    bright pass texture to the final [return]. *)
Definition BloomPasses (GlobalShaderMap : FGlobalShaderMap)
  (ActiveComponent : UBloomFXComponent) (Inputs : FPostProcessMaterialInputs)
  (SceneTexture : FRDGTexture) (bShouldLog : bool) (Divisor : Z)
  (DownsampledExtent : FIntPoint) (DownsampledRect : FIntRect) : Stmt unit :=
  let SceneColor := SceneColor Inputs in
  let BrightPassDesc :=
    FRDGTextureDesc.Create2D DownsampledExtent PF_FloatR11G11B10 ClearBlack
      (Z.lor TexCreate_ShaderResource TexCreate_RenderTargetable) in
  BrightPassTexture <- CreateTexture BrightPassDesc "ClassicBloom.BrightPass" ;;
  BrightPass GlobalShaderMap ActiveComponent SceneColor bShouldLog
    DownsampledExtent DownsampledRect BrightPassTexture SceneTexture ;;
  BlurredBloomTexture <-
    DirectionalGlareBlock GlobalShaderMap ActiveComponent bShouldLog
      Divisor DownsampledExtent DownsampledRect BrightPassDesc
      BrightPassTexture ;;
  BlurredBloomTexture <-
    KawaseBlock GlobalShaderMap ActiveComponent SceneColor bShouldLog
      DownsampledExtent DownsampledRect BrightPassDesc BrightPassTexture
      SceneTexture BlurredBloomTexture ;;
  BlurredBloomTexture <-
    StandardBlurBlock GlobalShaderMap ActiveComponent
      DownsampledExtent DownsampledRect BrightPassDesc BrightPassTexture
      BlurredBloomTexture ;;
  CompositeBlock GlobalShaderMap ActiveComponent SceneColor bShouldLog
    DownsampledExtent DownsampledRect
    (OverrideOutput Inputs) SceneTexture BlurredBloomTexture.

(** The function. [WeakSubsystem] is the subsystem that the weak pointer of
    the extension resolves to, if it is still alive; [Objects] resolves the
    weak pointers of its components; [CurrentTime] is the value of
    [FPlatformTime::Seconds()]. Every path ends in a [return]. *)
Definition PostProcessPass_RenderThread (Inputs : FPostProcessMaterialInputs)
  (WeakSubsystem : option UClassicBloomSubsystem)
  (Objects : ObjectId -> option UBloomFXComponent)
  (CurrentTime : double) : Stmt unit :=
  let SceneColor := SceneColor Inputs in
  if negb (FScreenPassTexture.IsValid SceneColor) then return_ SceneColor
  else if bIsReflectionCapture View || bIsSceneCapture View
          || negb (bIsViewInfo View)
  then return_ SceneColor
  else if negb (Rendering (EngineShowFlags (Family View)))
          || negb (PostProcessing (EngineShowFlags (Family View)))
          || Wireframe (EngineShowFlags (Family View))
  then return_ SceneColor
  else
    match ShaderMap View with
    | None => return_ SceneColor
    | Some GlobalShaderMap =>
    match WeakSubsystem with
    | None => return_ SceneColor
    | Some Subsystem =>
    match FindActiveComponent Objects (BloomComponents Subsystem) with
    | None => return_ SceneColor
    | Some ActiveComponent =>
    if Float.leb (BloomIntensity ActiveComponent) f_0 then return_ SceneColor
    else
      SceneTexture <- Deref (FScreenPassTexture.Texture SceneColor) ;;
      let SceneColorExtent := FRDGTextureDesc.Extent (Desc SceneTexture) in
      let ViewRect := FScreenPassTexture.ViewRect SceneColor in
      bShouldLog <- LogFrameInfo ActiveComponent SceneColorExtent ViewRect
                      CurrentTime ;;
      if (FIntRect.Width ViewRect <=? 0) || (FIntRect.Height ViewRect <=? 0)
      then return_ SceneColor
      else
        let Divisor := BloomDivisor ActiveComponent in
        let DownsampledExtent := BloomDownsampledExtent ActiveComponent ViewRect in
        let DownsampledRect := BloomDownsampledRect ActiveComponent ViewRect in
        if (FIntRect.Width DownsampledRect <=? 0)
           || (FIntRect.Height DownsampledRect <=? 0)
        then return_ SceneColor
        else
          BloomPasses GlobalShaderMap ActiveComponent Inputs SceneTexture
            bShouldLog Divisor DownsampledExtent DownsampledRect
    end end end.

End RenderThread.

(** The outcome of a call: the returned texture and the final state, or
    nothing when the call does not reach a [return]. *)
Definition Outcome (r : Step unit) : option (FScreenPassTexture * RenderState) :=
  match r with
  | Return T s => Some (T, s)
  | Next _ _ | Crash _ => None
  end.

(** ** Notions used by the statements *)

(** No entry of the array resolves to a live, active component. *)
Definition NoActiveComponent (Objects : ObjectId -> option UBloomFXComponent)
  (Components : list ObjectId) : Prop :=
  forall (id : ObjectId) (c : UBloomFXComponent),
    In id Components -> Objects id = Some c -> bIsActive c = false.

(** Rounding in the words of the specification: the integer nearest to a
    finite number, a half going up. For x = v * 2^e with e < 0 this is the
    largest integer not above x + 1/2, computed on integers:
    (2v + 2^-e) / 2^(1-e). *)
Definition RoundHalfUp (x : float) : Z :=
  match x with
  | S754_finite s m e =>
      let v := if s then Zneg m else Zpos m in
      if 0 <=? e then v * 2 ^ e else (2 * v + 2 ^ (- e)) / 2 ^ (1 - e)
  | _ => 0
  end.

(** The test of lines 307 and 327 on a rectangle:
    [Width() <= 0 || Height() <= 0]. *)
Definition NoArea (R : FIntRect) : bool :=
  (FIntRect.Width R <=? 0) || (FIntRect.Height R <=? 0).

(** [c] is the component of the first entry that is live and active. *)
Definition FirstActiveComponent (Objects : ObjectId -> option UBloomFXComponent)
  (Components : list ObjectId) (c : UBloomFXComponent) : Prop :=
  exists (before : list ObjectId) (id : ObjectId) (after : list ObjectId),
    Components = before ++ id :: after
    /\ NoActiveComponent Objects before
    /\ Objects id = Some c
    /\ bIsActive c = true.

(** ** Sample inputs

    A frame of a game world: a 1920x1080 scene colour texture whose view
    rectangle is 1280x720, one registered component, every shader
    available, no override output. *)

Definition SampleComponentAt (Mode : EBloomMode) (Intensity : float)
  : UBloomFXComponent :=
  {| bIsActive := true;
     BloomMode := Mode;
     BloomIntensity := Intensity;
     BloomThreshold := f_0_5;
     BloomSize := f_5;
     bUseSceneColor := true;
     BloomTint := {| R := f_1; G := f_1; B := f_1; A := f_1 |};
     BloomBlendMode := Screen;
     BloomSaturation := f_1;
     bProtectHighlights := false;
     HighlightProtection := f_0_5;
     DownsampleScale := f_1;
     BlurPasses := 1;
     BlurSamples := 5;
     bHighQualityUpsampling := false;
     GlareStreakCount := 6;
     GlareStreakLength := 40;
     GlareRotationOffset := f_0;
     GlareFalloff := f_2;
     KawaseMipCount := 5;
     KawaseFilterRadius := f_0_01;
     bKawaseSoftThreshold := true;
     KawaseThresholdKnee := f_0_5;
     SoftFocusOverlayMultiplier := f_0_5;
     SoftFocusBlendStrength := f_0_5;
     SoftFocusSoftLightMultiplier := f_0_5;
     SoftFocusFinalBlend := f_0_25;
     PostProcessPass := Tonemap;
     bUseAdaptiveBrightnessScaling := false;
     GameModeBloomScale := f_1;
     bEnableDebugLogging := false;
     bShowBloomOnly := false;
     bShowGammaCompensation := false;
     bAutoReinitializeRect := false;
     ReinitializeInterval := f_1;
     bReinitializeRect := false |}.

(** The sample component: intensity 2. *)
Definition SampleComponent (Mode : EBloomMode) : UBloomFXComponent :=
  SampleComponentAt Mode f_2.

(** The sample component in standard mode at another downsample scale. *)
Definition SampleComponentScaled (Scale : float)
  : UBloomFXComponent :=
  {| bIsActive := true;
     BloomMode := Standard;
     BloomIntensity := f_2;
     BloomThreshold := f_0_5;
     BloomSize := f_5;
     bUseSceneColor := true;
     BloomTint := {| R := f_1; G := f_1; B := f_1; A := f_1 |};
     BloomBlendMode := Screen;
     BloomSaturation := f_1;
     bProtectHighlights := false;
     HighlightProtection := f_0_5;
     DownsampleScale := Scale;
     BlurPasses := 1;
     BlurSamples := 5;
     bHighQualityUpsampling := false;
     GlareStreakCount := 6;
     GlareStreakLength := 40;
     GlareRotationOffset := f_0;
     GlareFalloff := f_2;
     KawaseMipCount := 5;
     KawaseFilterRadius := f_0_01;
     bKawaseSoftThreshold := true;
     KawaseThresholdKnee := f_0_5;
     SoftFocusOverlayMultiplier := f_0_5;
     SoftFocusBlendStrength := f_0_5;
     SoftFocusSoftLightMultiplier := f_0_5;
     SoftFocusFinalBlend := f_0_25;
     PostProcessPass := Tonemap;
     bUseAdaptiveBrightnessScaling := false;
     GameModeBloomScale := f_1;
     bEnableDebugLogging := false;
     bShowBloomOnly := false;
     bShowGammaCompensation := false;
     bAutoReinitializeRect := false;
     ReinitializeInterval := f_1;
     bReinitializeRect := false |}.

Definition AllShaders : FGlobalShaderMap := {| HasShader := fun _ => true |}.

(** Every shader but one. *)
Definition ShadersWithout (Missing : EShader) : FGlobalShaderMap :=
  {| HasShader := fun S =>
       match Missing, S with
       | BrightPassPS, BrightPassPS | BlurPS, BlurPS | CompositePS, CompositePS
       | GlareStreakPS, GlareStreakPS | GlareAccumulatePS, GlareAccumulatePS
       | KawaseDownsamplePS, KawaseDownsamplePS
       | KawaseUpsamplePS, KawaseUpsamplePS => false
       | _, _ => true
       end |}.

Definition SampleView (Shaders : FGlobalShaderMap) : FViewInfo :=
  {| bIsReflectionCapture := false;
     bIsSceneCapture := false;
     bIsViewInfo := true;
     bIsGameView := true;
     Family :=
       {| Scene := Some {| GetWorld := Some {| WorldType := WT_Game |} |};
          EngineShowFlags :=
            {| Rendering := true; PostProcessing := true; Wireframe := false |} |};
     ShaderMap := Some Shaders;
     ViewUniformBuffer := 7%nat |}.

Definition SampleSceneTexture : FRDGTexture :=
  {| Handle := 0%nat;
     Name := "SceneColor";
     Desc := FRDGTextureDesc.mk (FIntPoint.mk 1920 1080) (PF_Other 0)
               (ClearOther 0) TexCreate_ShaderResource |}.

Definition SampleInputs : FPostProcessMaterialInputs :=
  {| SceneColor :=
       FScreenPassTexture.mk (Some SampleSceneTexture)
         (FIntRect.mk (FIntPoint.mk 0 0) (FIntPoint.mk 1280 720));
     OverrideOutput :=
       FScreenPassRenderTarget.mk None
         (FIntRect.mk (FIntPoint.mk 0 0) (FIntPoint.mk 0 0)) ENoAction |}.

Definition SampleSubsystem : UClassicBloomSubsystem :=
  RegisterBloomComponent (Some 3%nat) Initialize.

Definition SampleObjects (c : UBloomFXComponent)
  : ObjectId -> option UBloomFXComponent :=
  fun id => if Nat.eqb id 3 then Some c else None.

Definition SampleState : RenderState :=
  {| GraphBuilder :=
       {| NextHandle := 1%nat; Textures := [SampleSceneTexture]; Passes := [] |};
     LogOutput := [];
     LastLogTime := S754_zero false |}.

(** A frame with an override output whose view rectangle has a height
    and no width. *)
Definition SampleOverrideTexture : FRDGTexture :=
  {| Handle := 1%nat;
     Name := "BackBuffer";
     Desc := FRDGTextureDesc.mk (FIntPoint.mk 1920 1080) (PF_Other 0)
               (ClearOther 0) TexCreate_ShaderResource |}.

Definition SampleOverrideInputs : FPostProcessMaterialInputs :=
  {| SceneColor := SceneColor SampleInputs;
     OverrideOutput :=
       FScreenPassRenderTarget.mk (Some SampleOverrideTexture)
         (FIntRect.mk (FIntPoint.mk 0 0) (FIntPoint.mk 0 720)) ENoAction |}.

Definition SampleOverrideState : RenderState :=
  {| GraphBuilder :=
       {| NextHandle := 2%nat;
          Textures := [SampleSceneTexture; SampleOverrideTexture];
          Passes := [] |};
     LogOutput := [];
     LastLogTime := S754_zero false |}.

(** The platform routines play no part in what the statements say; the
    samples run with these stand-ins. *)
Definition SampleCos (x : float) : float := f_1.
Definition SampleSin (x : float) : float := x.

Definition SampleRun (Shaders : FGlobalShaderMap) (c : UBloomFXComponent)
  : Step unit :=
  PostProcessPass_RenderThread SampleCos SampleSin (SampleView Shaders)
    SampleInputs (Some SampleSubsystem) (SampleObjects c) d_1 SampleState.

(** The debug name of a texture pointer. *)
Definition TextureName (T : FRDGTextureRef) : string :=
  match T with
  | Some t => Name t
  | None => ""
  end.

(** The names of a list are pairwise different. *)
Fixpoint distinct_names (l : list string) : bool :=
  match l with
  | [] => true
  | x :: l' => negb (existsb (String.eqb x) l') && distinct_names l'
  end.

(** What a statement adds to the graph: the textures [ts] and the passes
    [ps], in order, after those already recorded. *)
Definition GraphAdds (g g' : FRDGBuilder) (ts : list FRDGTexture)
  (ps : list FRDGPass) : Prop :=
  Textures g' = Textures g ++ ts
  /\ Passes g' = Passes g ++ ps
  /\ NextHandle g' = (List.length ts + NextHandle g)%nat.

(** The shader whose parameter struct a pass carries. *)
Definition PassKind (p : FRDGPass) : EShader :=
  match Parameters p with
  | BrightPassParameters _ => BrightPassPS
  | BlurParameters _ => BlurPS
  | GlareStreakParameters _ => GlareStreakPS
  | GlareAccumulateParameters _ => GlareAccumulatePS
  | KawaseDownsampleParameters _ => KawaseDownsamplePS
  | KawaseUpsampleParameters _ => KawaseUpsamplePS
  | CompositeParameters _ => CompositePS
  end.

(** The texture bound as [RenderTargets[0]] of a pass. *)
Definition RenderTarget (p : FRDGPass) : FRDGTextureRef :=
  FRenderTargetBinding.Texture
    match Parameters p with
    | BrightPassParameters P => FClassicBloomBrightPassPS.RenderTargets0 P
    | BlurParameters P => FClassicBloomBlurPS.RenderTargets0 P
    | GlareStreakParameters P => FClassicBloomGlareStreakPS.RenderTargets0 P
    | GlareAccumulateParameters P => FClassicBloomGlareAccumulatePS.RenderTargets0 P
    | KawaseDownsampleParameters P => FClassicBloomKawaseDownsamplePS.RenderTargets0 P
    | KawaseUpsampleParameters P => FClassicBloomKawaseUpsamplePS.RenderTargets0 P
    | CompositeParameters P => FClassicBloomCompositePS.RenderTargets0 P
    end.

Definition EShader_eqb (a b : EShader) : bool :=
  match a, b with
  | BrightPassPS, BrightPassPS | BlurPS, BlurPS | CompositePS, CompositePS
  | GlareStreakPS, GlareStreakPS | GlareAccumulatePS, GlareAccumulatePS
  | KawaseDownsamplePS, KawaseDownsamplePS
  | KawaseUpsamplePS, KawaseUpsamplePS => true
  | _, _ => false
  end.

(** The passes of one shader among recorded passes. *)
Definition PassesOf (S : EShader) (ps : list FRDGPass) : list FRDGPass :=
  filter (fun p => EShader_eqb (PassKind p) S) ps.

(** *** Directional glare: the accumulation plan of the specification *)

(** An input slot of an accumulation pass reads the previous accumulation
    or the streak of some index. *)
Inductive ESlot : Type :=
| PreviousAccumulation
| Streak (i : Z).

(** A batch: what its four input slots read and how many of them count. *)
Record FBatch : Type := { Slots : list ESlot; Count : Z }.

(** The first batch takes streaks 0 to min(K,4)-1 and repeats streak 0 in
    the unused slots. *)
Definition FirstBatch (K : Z) : FBatch :=
  {| Slots := [Streak 0;
               Streak (if 2 <=? K then 1 else 0);
               Streak (if 3 <=? K then 2 else 0);
               Streak (if 4 <=? K then 3 else 0)];
     Count := Z.min K 4 |}.

(** A later batch takes the previous accumulation and up to three streaks
    from index [B] on, repeating streak [B] in the unused slots. *)
Definition LaterBatch (K B : Z) : FBatch :=
  {| Slots := [PreviousAccumulation;
               Streak B;
               Streak (if B + 1 <? K then B + 1 else B);
               Streak (if B + 2 <? K then B + 2 else B)];
     Count := 1 + Z.min 3 (K - B) |}.

(** The later batches start at 4, 7, 10, ... below [K]. *)
Definition BatchStarts (K : Z) : list Z :=
  map (fun j => 4 + 3 * Z.of_nat j) (seq 0 (Z.to_nat ((K - 2) / 3))).

Definition AccumulationPlan (K : Z) : list FBatch :=
  FirstBatch K :: map (LaterBatch K) (BatchStarts K).

(** The streak indices that the plan reads. *)
Definition PlanIndices (Plan : list FBatch) : list Z :=
  flat_map (fun b =>
    flat_map (fun slot => match slot with Streak i => [i] | _ => [] end) (Slots b))
    Plan.

Definition AccumulateInputs (P : FClassicBloomGlareAccumulatePS.FParameters)
  : list FRDGTextureRef :=
  [FClassicBloomGlareAccumulatePS.StreakTexture0 P;
   FClassicBloomGlareAccumulatePS.StreakTexture1 P;
   FClassicBloomGlareAccumulatePS.StreakTexture2 P;
   FClassicBloomGlareAccumulatePS.StreakTexture3 P].

(** The texture [t] is what the slot designates, [Streaks] being the
    array of streak textures and [Prev] the previous accumulation. *)
Definition SlotReads (Streaks : list FRDGTextureRef) (Prev : FRDGTextureRef)
  (slot : ESlot) (t : FRDGTextureRef) : Prop :=
  match slot with
  | PreviousAccumulation => t = Prev
  | Streak i => 0 <= i /\ nth_error Streaks (Z.to_nat i) = Some t
  end.

(** The accumulation passes [ps] follow the plan, each later pass reading
    the render target of the pass before it. *)
Fixpoint PlanMatches (Streaks : list FRDGTextureRef) (Prev : FRDGTextureRef)
  (ps : list FRDGPass) (Plan : list FBatch) : Prop :=
  match ps, Plan with
  | [], [] => True
  | p :: ps', b :: Plan' =>
      match Parameters p with
      | GlareAccumulateParameters P =>
          Forall2 (SlotReads Streaks Prev) (Slots b) (AccumulateInputs P)
          /\ FClassicBloomGlareAccumulatePS.NumStreaks P = Count b
      | _ => False
      end
      /\ PlanMatches Streaks (RenderTarget p) ps' Plan'
  | _, _ => False
  end.

(** What the directional glare block records for [K] streaks: [K] streak
    passes into distinct textures, the accumulation passes, which follow
    the plan, and the two smoothing passes, the first of which reads the
    last accumulation and the second of which writes the result. *)
Definition GlareRecorded (K : Z) (ps : list FRDGPass) (Blurred : FRDGTextureRef)
  : Prop :=
  let sps := PassesOf GlareStreakPS ps in
  let aps := PassesOf GlareAccumulatePS ps in
  exists bh bv : FRDGPass,
    ps = sps ++ aps ++ [bh; bv]
    /\ Z.of_nat (List.length sps) = K
    /\ NoDup (map RenderTarget sps)
    /\ PlanMatches (map RenderTarget sps) None aps (AccumulationPlan K)
    /\ EventName bh = "GlareBlurH" /\ EventName bv = "GlareBlurV"
    /\ match Parameters bh with
       | BlurParameters P =>
           Some (FClassicBloomBlurPS.SourceTexture P)
           = option_map RenderTarget (last (map Some aps) None)
       | _ => False
       end
    /\ PassKind bv = BlurPS
    /\ RenderTarget bv = Blurred.

(** *** Runs that record the same graph *)

(** Two graphs hold the same textures and passes related by [PR], in the
    same order. *)
Definition GraphRel (PR : FRDGPass -> FRDGPass -> Prop) (g g' : FRDGBuilder)
  : Prop :=
  NextHandle g = NextHandle g'
  /\ Textures g = Textures g'
  /\ Forall2 PR (Passes g) (Passes g').

(** Two states agree on the graph, up to [PR], and on the static
    [LastLogTime]; the log is free. *)
Definition StateRel (PR : FRDGPass -> FRDGPass -> Prop) (s s' : RenderState)
  : Prop :=
  GraphRel PR (GraphBuilder s) (GraphBuilder s')
  /\ LastLogTime s = LastLogTime s'.

(** Two outcomes are of the same kind, with the same value, in states that
    agree. *)
Definition StepRel {A : Type} (PR : FRDGPass -> FRDGPass -> Prop)
  (r r' : Step A) : Prop :=
  match r, r' with
  | Next a s, Next a' s' => a = a' /\ StateRel PR s s'
  | Return t s, Return t' s' => t = t' /\ StateRel PR s s'
  | Crash why, Crash why' => why = why'
  | _, _ => False
  end.

(** Two statements do the same from states that agree. *)
Definition Related {A : Type} (PR : FRDGPass -> FRDGPass -> Prop)
  (m m' : Stmt A) : Prop :=
  forall s s', StateRel PR s s' -> StepRel PR (m s) (m' s').

(** A statement that only writes to the log. *)
Definition LogOnly (m : Stmt unit) : Prop :=
  forall s, exists s',
    m s = Next tt s'
    /\ GraphBuilder s' = GraphBuilder s
    /\ LastLogTime s' = LastLogTime s.

(** A statement that runs to its end and leaves the graph alone. *)
Definition Quiet {A : Type} (m : Stmt A) : Prop :=
  forall s, exists a s', m s = Next a s' /\ GraphBuilder s' = GraphBuilder s.

(** *** The bright pass *)

(** The bright pass [p]: what it is drawn into, what it reads and writes,
    and its threshold. *)
Definition BrightRecorded (c : UBloomFXComponent) (Scene : FScreenPassTexture)
  (DownsampledRect : FIntRect) (BrightPassTexture : FRDGTextureRef)
  (p : FRDGPass) : Prop :=
  EventName p = "BrightPass"
  /\ Viewport p = DownsampledRect
  /\ match Parameters p with
     | BrightPassParameters P =>
         FClassicBloomBrightPassPS.SceneColorTexture P
         = FScreenPassTexture.Texture Scene
         /\ FClassicBloomBrightPassPS.BloomThreshold P
            = (if EBloomMode_eqb (BloomMode c) SoftFocus then f_0_01
               else BloomThreshold c)
         /\ FClassicBloomBrightPassPS.RenderTargets0 P
            = FRenderTargetBinding.mk BrightPassTexture EClear
     | _ => False
     end.

(** *** The standard blur: the ping-pong plan of the specification *)

Inductive EBlurBuffer : Type := BrightBuffer | TempBuffer | BlurredBuffer.

Record FBlurStep : Type := {
  StepName : string;
  StepSource : EBlurBuffer;
  StepTarget : EBlurBuffer
}.

(** Each iteration blurs horizontally into the temporary buffer and
    vertically into the result; the first iteration reads the bright pass,
    the later ones the result of the iteration before. *)
Definition StandardPlan (N : Z) : list FBlurStep :=
  flat_map
    (fun i =>
       [{| StepName := "BlurHorizontal";
           StepSource := match i with O => BrightBuffer | _ => BlurredBuffer end;
           StepTarget := TempBuffer |};
        {| StepName := "BlurVertical";
           StepSource := TempBuffer;
           StepTarget := BlurredBuffer |}])
    (seq 0 (Z.to_nat N)).

(** The passes [ps] follow the standard plan for [N] iterations, with the
    blur shader as the shader map gives it, available or not. *)
Definition StandardRecorded (Shaders : FGlobalShaderMap) (N : Z)
  (Bright : FRDGTextureRef) (ps : list FRDGPass) (Blurred : FRDGTextureRef)
  : Prop :=
  exists Temp : FRDGTextureRef,
    let Buffer b :=
      match b with
      | BrightBuffer => Bright
      | TempBuffer => Temp
      | BlurredBuffer => Blurred
      end in
    TextureName Blurred = "ClassicBloom.Blurred"
    /\ Temp <> Blurred
    /\ Forall2
         (fun step p =>
            EventName p = StepName step
            /\ PixelShader p = TShaderMapRef.Lookup Shaders BlurPS
            /\ match Parameters p with
               | BlurParameters P =>
                   FClassicBloomBlurPS.SourceTexture P = Buffer (StepSource step)
                   /\ FClassicBloomBlurPS.RenderTargets0 P
                      = FRenderTargetBinding.mk (Buffer (StepTarget step)) EClear
               | _ => False
               end)
         (StandardPlan N) ps.

(** *** Kawase: the mip chain *)

(** The extent of a texture pointer, when it is not null. *)
Definition TextureExtent (T : FRDGTextureRef) : option FIntPoint :=
  option_map (fun t => FRDGTextureDesc.Extent (Desc t)) T.

(** Lines 634 and 638-639: the extent of the next mip. *)
Definition KawaseMipExtent (E : FIntPoint) : FIntPoint :=
  FIntPoint.mk (FMath.Max (FIntPoint.X (FIntPoint.DivideAndRoundUp E 2)) 1)
    (FMath.Max (FIntPoint.Y (FIntPoint.DivideAndRoundUp E 2)) 1).

(** Lines 635 and 640-641: the rectangle of the next mip. *)
Definition KawaseMipRect (R : FIntRect) : FIntRect :=
  FIntRect.mk (FIntPoint.mk 0 0)
    (FIntPoint.mk
       (FMath.Max
          (FIntPoint.X
             (FIntPoint.DivideAndRoundUp
                (FIntPoint.mk (FIntRect.Width R) (FIntRect.Height R)) 2)) 1)
       (FMath.Max
          (FIntPoint.Y
             (FIntPoint.DivideAndRoundUp
                (FIntPoint.mk (FIntRect.Width R) (FIntRect.Height R)) 2)) 1)).

(** The body of the mip loop in terms of the two functions above. *)
Definition KawaseMipStep (Mip : Z)
  (L : FIntPoint * FIntRect
       * list FRDGTextureRef * list FIntPoint * list FIntRect)
  : Stmt (FIntPoint * FIntRect
          * list FRDGTextureRef * list FIntPoint * list FIntRect) :=
  let '(CurrentExtent, CurrentRect, MipTextures, MipExtents, MipRects) := L in
  bind
    (CreateTexture
       (FRDGTextureDesc.Create2D (KawaseMipExtent CurrentExtent)
          PF_FloatR11G11B10 ClearBlack
          (Z.lor TexCreate_ShaderResource TexCreate_RenderTargetable))
       (Printf_d "ClassicBloom.KawaseMip" Mip))
    (fun MipTexture =>
       ret (KawaseMipExtent CurrentExtent, KawaseMipRect CurrentRect,
            MipTextures ++ [MipTexture],
            MipExtents ++ [KawaseMipExtent CurrentExtent],
            MipRects ++ [KawaseMipRect CurrentRect])).

(** Half of an extent, rounded up, at least 1x1. *)
Definition HalfRoundedUp (E : FIntPoint) : FIntPoint :=
  FIntPoint.mk (Z.max ((FIntPoint.X E + 1) / 2) 1)
    (Z.max ((FIntPoint.Y E + 1) / 2) 1).

(** The rectangle that fills a texture of extent [E]. *)
Definition FullRect (E : FIntPoint) : FIntRect :=
  FIntRect.mk (FIntPoint.mk 0 0) E.

(** The downsample passes, from level [Level] on: each reads [Source] (the
    level before, or the scene colour at level 0), writes a mip whose
    extent [NextExtent] gives from the extent before, is drawn into the
    rectangle [NextRect] gives, and uses the Karis average at level 0
    only. *)
Fixpoint DownChain (NextExtent : FIntPoint -> FIntPoint)
  (NextRect : FIntRect -> FIntRect)
  (Source : FRDGTextureRef) (E : FIntPoint) (R : FIntRect) (Level : Z)
  (downs : list FRDGPass) : Prop :=
  match downs with
  | [] => True
  | p :: rest =>
      match Parameters p with
      | KawaseDownsampleParameters P =>
          FClassicBloomKawaseDownsamplePS.SourceTexture P = Source
          /\ FClassicBloomKawaseDownsamplePS.MipLevel P = Level
          /\ FClassicBloomKawaseDownsamplePS.bUseKarisAverage P
             = (if Level =? 0 then 1 else 0)
          /\ TextureExtent (RenderTarget p) = Some (NextExtent E)
          /\ Viewport p = NextRect R
      | _ => False
      end
      /\ DownChain NextExtent NextRect (RenderTarget p) (NextExtent E)
           (NextRect R) (Level + 1) rest
  end.

(** The upsample passes of the chain against the downsample passes of the
    larger mips, smallest first: each reads [Source] (the smallest mip, or
    the upsample before), blends with the downsample mip of its level, and
    has that mip's extent and rectangle. *)
Fixpoint UpChain (Source : FRDGTextureRef) (ups downs : list FRDGPass) : Prop :=
  match ups, downs with
  | [], [] => True
  | u :: ups', d :: downs' =>
      match Parameters u with
      | KawaseUpsampleParameters P =>
          FClassicBloomKawaseUpsamplePS.SourceTexture P = Source
          /\ FClassicBloomKawaseUpsamplePS.PreviousMipTexture P = RenderTarget d
          /\ TextureExtent (RenderTarget u) = TextureExtent (RenderTarget d)
          /\ Viewport u = Viewport d
      | _ => False
      end
      /\ UpChain (RenderTarget u) ups' downs'
  | _, _ => False
  end.

(** What the Kawase block records for [M] mips: [M] downsample passes
    from the scene colour, [M-1] upsample passes from the smallest mip up,
    and the final upsample pass, which reads the top of the chain, blends
    with mip 0 and writes the result, as large as the bright pass buffer. *)
Definition KawaseRecorded (NextExtent : FIntPoint -> FIntPoint)
  (NextRect : FIntRect -> FIntRect) (M : Z) (Scene : FRDGTextureRef)
  (DownsampledExtent : FIntPoint) (DownsampledRect : FIntRect)
  (ps : list FRDGPass) (Blurred : FRDGTextureRef) : Prop :=
  let downs := PassesOf KawaseDownsamplePS ps in
  let ups := PassesOf KawaseUpsamplePS ps in
  exists (final : FRDGPass),
    ps = downs ++ ups
    /\ Z.of_nat (List.length downs) = M
    /\ Z.of_nat (List.length ups) = M
    /\ NoDup (map RenderTarget ps)
    /\ DownChain NextExtent NextRect Scene DownsampledExtent DownsampledRect 0
         downs
    /\ UpChain (RenderTarget (hd final (rev downs))) (removelast ups)
         (tl (rev downs))
    /\ last ups final = final
    /\ match Parameters final with
       | KawaseUpsampleParameters P =>
           Some (FClassicBloomKawaseUpsamplePS.SourceTexture P)
           = option_map RenderTarget (last (map Some (removelast ups)) None)
           /\ Some (FClassicBloomKawaseUpsamplePS.PreviousMipTexture P)
              = option_map RenderTarget (hd_error downs)
       | _ => False
       end
    /\ RenderTarget final = Blurred
    /\ TextureExtent Blurred = Some DownsampledExtent
    /\ Viewport final = DownsampledRect.

(** *** The composite pass *)

(** The [FScreenTransform] members of a parameter struct. *)
Definition ScreenTransforms (P : FPassParameters) : list FScreenTransform :=
  match P with
  | BrightPassParameters P =>
      [FClassicBloomBrightPassPS.SvPositionToInputTextureUV P]
  | KawaseDownsampleParameters P =>
      [FClassicBloomKawaseDownsamplePS.SvPositionToSourceUV P]
  | CompositeParameters P =>
      [FClassicBloomCompositePS.SvPositionToSceneColorUV P;
       FClassicBloomCompositePS.SvPositionToBloomUV P]
  | _ => []
  end.

(** The transform from the pixel positions of the viewport [Dest] to the
    texture coordinates of the viewport [Source]. *)
Definition PixelToTextureUV (Dest Source : FScreenPassTextureViewport)
  : FScreenTransform :=
  Compose (ChangeTextureBasisFromTo Dest TexelPosition ViewportUV)
    (ChangeTextureBasisFromTo Source ViewportUV TextureUV).

(** The viewport of a texture with its view rectangle. *)
Definition ViewportOf (T : FRDGTextureRef) (Rect : FIntRect)
  : option FScreenPassTextureViewport :=
  option_map (fun E => FScreenPassTextureViewport.mk E Rect) (TextureExtent T).

(** The composite pass [p] into [Output]: it is drawn into the view
    rectangle of the output, reads the scene colour and the bloom texture
    through two transforms from the output viewport, and splits the
    intensity between the bloom and the soft focus channels by the mode. *)
Definition CompositeRecorded (c : UBloomFXComponent) (Scene : FScreenPassTexture)
  (DownsampledExtent : FIntPoint) (DownsampledRect : FIntRect)
  (Output : FScreenPassRenderTarget) (Blurred : FRDGTextureRef)
  (p : FRDGPass) : Prop :=
  EventName p = "CompositeBloom"
  /\ Viewport p = FScreenPassRenderTarget.ViewRect Output
  /\ match Parameters p with
     | CompositeParameters P =>
         FClassicBloomCompositePS.SceneColorTexture P
         = FScreenPassTexture.Texture Scene
         /\ FClassicBloomCompositePS.BloomTexture P = Blurred
         /\ FClassicBloomCompositePS.RenderTargets0 P
            = FScreenPassRenderTarget.GetRenderTargetBinding Output
         /\ (exists OutputViewport SceneColorViewport,
               ViewportOf (FScreenPassRenderTarget.Texture Output)
                 (FScreenPassRenderTarget.ViewRect Output)
               = Some OutputViewport
               /\ ViewportOf (FScreenPassTexture.Texture Scene)
                    (FScreenPassTexture.ViewRect Scene)
                  = Some SceneColorViewport
               /\ ScreenTransforms (Parameters p)
                  = [PixelToTextureUV OutputViewport SceneColorViewport;
                     PixelToTextureUV OutputViewport
                       (FScreenPassTextureViewport.mk DownsampledExtent
                          DownsampledRect)])
         /\ FClassicBloomCompositePS.BloomIntensity P
            = (if EBloomMode_eqb (BloomMode c) SoftFocus then f_0
               else BloomIntensity c)
         /\ FClassicBloomCompositePS.SoftFocusIntensity P
            = (if EBloomMode_eqb (BloomMode c) SoftFocus then BloomIntensity c
               else f_0)
     | _ => False
     end.

(** The output target: the override output when it is valid, otherwise a
    new texture with the view rectangle of the scene colour. *)
Definition OutputChosen (Scene : FScreenPassTexture)
  (Override Output : FScreenPassRenderTarget) (ts : list FRDGTexture) : Prop :=
  if FScreenPassRenderTarget.IsValid Override
  then Output = Override /\ ts = []
  else exists T,
      ts = [T]
      /\ Name T = "ClassicBloom.Output"
      /\ Some (FRDGTextureDesc.Extent (Desc T))
         = TextureExtent (FScreenPassTexture.Texture Scene)
      /\ Output
         = FScreenPassRenderTarget.mk (Some T)
             (FScreenPassTexture.ViewRect Scene) ENoAction.

(** The mip chain in the words of the specification: each level reads the
    level before (the scene colour at level 0), is half the level before,
    rounded up and at least 1x1, fills its texture, and uses the Karis
    average at level 0 only. *)
Fixpoint HalvedChain (Source : FRDGTextureRef) (E : FIntPoint) (Level : Z)
  (downs : list FRDGPass) : Prop :=
  match downs with
  | [] => True
  | p :: rest =>
      match Parameters p with
      | KawaseDownsampleParameters P =>
          FClassicBloomKawaseDownsamplePS.SourceTexture P = Source
          /\ FClassicBloomKawaseDownsamplePS.MipLevel P = Level
          /\ FClassicBloomKawaseDownsamplePS.bUseKarisAverage P
             = (if Level =? 0 then 1 else 0)
          /\ TextureExtent (RenderTarget p) = Some (HalfRoundedUp E)
          /\ Viewport p = FullRect (HalfRoundedUp E)
      | _ => False
      end
      /\ HalvedChain (RenderTarget p) (HalfRoundedUp E) (Level + 1) rest
  end.

(** The view with another shader map. *)
Definition WithShaderMap (V : FViewInfo) (Map : FGlobalShaderMap) : FViewInfo :=
  {| bIsReflectionCapture := bIsReflectionCapture V;
     bIsSceneCapture := bIsSceneCapture V;
     bIsViewInfo := bIsViewInfo V;
     bIsGameView := bIsGameView V;
     Family := Family V;
     ShaderMap := Some Map;
     ViewUniformBuffer := ViewUniformBuffer V |}.

(** Two shader maps that differ in the availability of the blur shader
    at most. *)
Definition AgreeButBlur (Map Map' : FGlobalShaderMap) : Prop :=
  forall S, S <> BlurPS -> HasShader Map' S = HasShader Map S.

(** Two passes are the same, or are the same blur pass up to the validity
    of the shader reference. *)
Definition SameButBlurValidity (p p' : FRDGPass) : Prop :=
  p = p'
  \/ (EventName p = EventName p'
      /\ Parameters p = Parameters p'
      /\ Viewport p = Viewport p'
      /\ TShaderMapRef.ShaderType (PixelShader p) = BlurPS
      /\ TShaderMapRef.ShaderType (PixelShader p') = BlurPS).

(** The standard blur is reached: by the mode, or because a shader of the
    mode is missing. *)
Definition StandardPathTaken (Shaders : FGlobalShaderMap)
  (c : UBloomFXComponent) : bool :=
  match BloomMode c with
  | Standard | SoftFocus => true
  | DirectionalGlare =>
      negb (HasShader Shaders GlareStreakPS
            && HasShader Shaders GlareAccumulatePS)
  | Kawase =>
      negb (HasShader Shaders KawaseDownsamplePS
            && HasShader Shaders KawaseUpsamplePS)
  end.

(** The component with other values of the two blur quality fields. *)
Definition WithBlurQuality (c : UBloomFXComponent) (Samples : Z)
  (bHighQuality : bool) : UBloomFXComponent :=
  {| bIsActive := bIsActive c;
     BloomMode := BloomMode c;
     BloomIntensity := BloomIntensity c;
     BloomThreshold := BloomThreshold c;
     BloomSize := BloomSize c;
     bUseSceneColor := bUseSceneColor c;
     BloomTint := BloomTint c;
     BloomBlendMode := BloomBlendMode c;
     BloomSaturation := BloomSaturation c;
     bProtectHighlights := bProtectHighlights c;
     HighlightProtection := HighlightProtection c;
     DownsampleScale := DownsampleScale c;
     BlurPasses := BlurPasses c;
     BlurSamples := Samples;
     bHighQualityUpsampling := bHighQuality;
     GlareStreakCount := GlareStreakCount c;
     GlareStreakLength := GlareStreakLength c;
     GlareRotationOffset := GlareRotationOffset c;
     GlareFalloff := GlareFalloff c;
     KawaseMipCount := KawaseMipCount c;
     KawaseFilterRadius := KawaseFilterRadius c;
     bKawaseSoftThreshold := bKawaseSoftThreshold c;
     KawaseThresholdKnee := KawaseThresholdKnee c;
     SoftFocusOverlayMultiplier := SoftFocusOverlayMultiplier c;
     SoftFocusBlendStrength := SoftFocusBlendStrength c;
     SoftFocusSoftLightMultiplier := SoftFocusSoftLightMultiplier c;
     SoftFocusFinalBlend := SoftFocusFinalBlend c;
     PostProcessPass := PostProcessPass c;
     bUseAdaptiveBrightnessScaling := bUseAdaptiveBrightnessScaling c;
     GameModeBloomScale := GameModeBloomScale c;
     bEnableDebugLogging := bEnableDebugLogging c;
     bShowBloomOnly := bShowBloomOnly c;
     bShowGammaCompensation := bShowGammaCompensation c;
     bAutoReinitializeRect := bAutoReinitializeRect c;
     ReinitializeInterval := ReinitializeInterval c;
     bReinitializeRect := bReinitializeRect c |}.

(** Two tables of components that differ in the two blur quality fields
    at most. *)
Definition DifferInBlurQuality
  (Objects Objects' : ObjectId -> option UBloomFXComponent) : Prop :=
  forall id,
    match Objects id, Objects' id with
    | Some c, Some c' =>
        c' = WithBlurQuality c (BlurSamples c') (bHighQualityUpsampling c')
    | None, None => True
    | _, _ => False
    end.

(** *** The whole effect *)

(** What the blur stage records, by mode and by the shaders at hand:
    the glare passes, the Kawase passes, or the standard blur, which is
    also where a mode lands whose shaders are missing (after the streak
    passes, when only the accumulate shader is missing). *)
Definition BlurStageRecorded (Shaders : FGlobalShaderMap)
  (c : UBloomFXComponent) (Scene : FRDGTextureRef)
  (DownsampledExtent : FIntPoint) (DownsampledRect : FIntRect)
  (BrightPassTexture : FRDGTextureRef)
  (ps : list FRDGPass) (Blurred : FRDGTextureRef) : Prop :=
  let K := FMath.Clamp (GlareStreakCount c) 2 16 in
  let M := FMath.Clamp (KawaseMipCount c) 3 8 in
  let N := FMath.Clamp (BlurPasses c) 1 4 in
  let StandardPath := StandardRecorded Shaders N BrightPassTexture ps Blurred in
  match BloomMode c with
  | DirectionalGlare =>
      if HasShader Shaders GlareStreakPS then
        if HasShader Shaders GlareAccumulatePS then GlareRecorded K ps Blurred
        else exists sps std,
            ps = sps ++ std
            /\ Forall (fun p => PassKind p = GlareStreakPS) sps
            /\ Z.of_nat (List.length sps) = K
            /\ StandardRecorded Shaders N BrightPassTexture std Blurred
      else StandardPath
  | Kawase =>
      if HasShader Shaders KawaseDownsamplePS
         && HasShader Shaders KawaseUpsamplePS
      then KawaseRecorded KawaseMipExtent KawaseMipRect M Scene
             DownsampledExtent DownsampledRect ps Blurred
      else StandardPath
  | Standard | SoftFocus => StandardPath
  end.

(** What a call records when the bright pass shader is available, and
    what it returns: the bright pass texture and pass, the blur stage, the
    output and, with the composite shader available, the composite pass
    into it. *)
Definition BloomRecorded (Shaders : FGlobalShaderMap) (c : UBloomFXComponent)
  (Scene : FScreenPassTexture) (Override : FScreenPassRenderTarget)
  (DownsampledExtent : FIntPoint) (DownsampledRect : FIntRect)
  (r : FScreenPassTexture) (ts : list FRDGTexture) (ps : list FRDGPass)
  : Prop :=
  exists (BrightPassTexture : FRDGTexture) (bp : FRDGPass)
         (bts : list FRDGTexture) (blur : list FRDGPass)
         (Blurred : FRDGTextureRef)
         (Output : FScreenPassRenderTarget) (ots : list FRDGTexture)
         (cps : list FRDGPass),
    ts = BrightPassTexture :: bts ++ ots
    /\ ps = bp :: blur ++ cps
    /\ Name BrightPassTexture = "ClassicBloom.BrightPass"
    /\ FRDGTextureDesc.Extent (Desc BrightPassTexture) = DownsampledExtent
    /\ BrightRecorded c Scene DownsampledRect (Some BrightPassTexture) bp
    /\ BlurStageRecorded Shaders c (FScreenPassTexture.Texture Scene)
         DownsampledExtent DownsampledRect (Some BrightPassTexture)
         blur Blurred
    /\ Blurred <> None
    /\ OutputChosen Scene Override Output ots
    /\ if HasShader Shaders CompositePS
       then r = FScreenPassRenderTarget.ToTexture Output
            /\ exists p,
                cps = [p]
                /\ PixelShader p = TShaderMapRef.Lookup Shaders CompositePS
                /\ CompositeRecorded c Scene DownsampledExtent DownsampledRect
                     Output Blurred p
       else r = Scene /\ cps = [].

(** The conditions under which the call gets past its early returns and
    starts to record passes: a scene colour with a texture and a view
    rectangle of positive width and height, a view of the renderer that is
    not a capture, rendering and post-processing on without wireframe, a
    shader map, a live subsystem whose first live and active component is
    [c] with an intensity above zero, and a downsampled rectangle of
    positive width and height. *)
Record GateOpen (View : FViewInfo) (Inputs : FPostProcessMaterialInputs)
  (WeakSubsystem : option UClassicBloomSubsystem)
  (Objects : ObjectId -> option UBloomFXComponent)
  (Shaders : FGlobalShaderMap) (c : UBloomFXComponent)
  (SceneTexture : FRDGTexture) : Prop := {
  gate_texture :
    FScreenPassTexture.Texture (SceneColor Inputs) = Some SceneTexture;
  gate_rect :
    NoArea (FScreenPassTexture.ViewRect (SceneColor Inputs)) = false;
  gate_reflection : bIsReflectionCapture View = false;
  gate_capture : bIsSceneCapture View = false;
  gate_viewinfo : bIsViewInfo View = true;
  gate_rendering : Rendering (EngineShowFlags (Family View)) = true;
  gate_postprocessing : PostProcessing (EngineShowFlags (Family View)) = true;
  gate_wireframe : Wireframe (EngineShowFlags (Family View)) = false;
  gate_shaders : ShaderMap View = Some Shaders;
  gate_component :
    exists Subsystem,
      WeakSubsystem = Some Subsystem
      /\ FirstActiveComponent Objects (BloomComponents Subsystem) c;
  gate_intensity : Float.leb (BloomIntensity c) f_0 = false;
  gate_downsampled :
    NoArea
      (BloomDownsampledRect c (FScreenPassTexture.ViewRect (SceneColor Inputs)))
    = false
}.

(** The returned texture and the graph of a call that returns. *)
Definition GraphOutcome (r : Step unit)
  : option (FScreenPassTexture * FRDGBuilder) :=
  match r with
  | Return T s => Some (T, GraphBuilder s)
  | Next _ _ | Crash _ => None
  end.

(** ** The scene view extension: subscription and activity

    [FClassicBloomSceneViewExtension::SubscribeToPostProcessingPass] and
    [IsActiveThisFrame_Internal] (lines 28-165). *)

(** [EPostProcessingPass] of the engine: the four passes that the plugin
    names, and the others. *)
Module EPostProcessingPass.

Inductive t : Type :=
| MotionBlur | Tonemap | FXAA | VisualizeDepthOfField
| Other (Index : nat).

Definition eqb (a b : t) : bool :=
  match a, b with
  | MotionBlur, MotionBlur | Tonemap, Tonemap | FXAA, FXAA
  | VisualizeDepthOfField, VisualizeDepthOfField => true
  | Other i, Other j => Nat.eqb i j
  | _, _ => false
  end.

End EPostProcessingPass.

Abbreviation EPostProcessingPass := EPostProcessingPass.t (only parsing).

(** The [switch] of lines 81-98, from the enum of the component to the
    enum of the engine. *)
Definition DesiredPassOf (P : EBloomPostProcessPass) : EPostProcessingPass :=
  match P with
  | Tonemap => EPostProcessingPass.Tonemap
  | MotionBlur => EPostProcessingPass.MotionBlur
  | FXAA => EPostProcessingPass.FXAA
  | VisualizeDepthOfField => EPostProcessingPass.VisualizeDepthOfField
  end.

(** The view that a subscription is asked for: [View.Family] may be
    null. *)
Module FSceneView.
Record t : Type := mk { Family : option FSceneViewFamily }.
End FSceneView.

Abbreviation FSceneView := FSceneView.t (only parsing).

(** An entry of [FAfterPassCallbackDelegateArray]: the delegate that the
    plugin creates from [PostProcessPass_RenderThread], or the delegate of
    another extension. The array of a pass is shared by all extensions. *)
Inductive FAfterPassCallbackDelegate : Type :=
| ClassicBloomDelegate
| ForeignDelegate (Owner : nat).

(** What a subscription reads and writes: the callbacks of the pass, the
    log and the two function-local statics. *)
Record FSubscribeState : Type := {
  InOutPassCallbacks : list FAfterPassCallbackDelegate;
  SubscribeLog : list FLogLine;
  LastSkipLogTime : double;
  LastSubscribeLogTime : double
}.

(** A subscription runs to its end, or reads [WorldType] through a null
    [GetWorld()]. *)
Inductive FSubscribeOutcome : Type :=
| Completed (s : FSubscribeState)
| NullWorldDereference.

Definition d_2 : double := Eval vm_compute in Double.of_int 2.

(** Lines 37-50: the scene has a world and it is not a game, editor or
    PIE world. *)
Definition IsPreviewWorld (Family : FSceneViewFamily) : bool :=
  match Scene Family with
  | Some Sc =>
      match GetWorld Sc with
      | Some World =>
          match WorldType World with
          | WT_Game | WT_Editor | WT_PIE => false
          | _ => true
          end
      | None => false
      end
  | None => false
  end.

(** Lines 71-102: the pass and the debug switch of the first live and
    active component; [MotionBlur] and no debugging without one. The loop
    is the one of [FindActiveComponent]. *)
Definition DesiredPass (Objects : ObjectId -> option UBloomFXComponent)
  (Subsystem : UClassicBloomSubsystem) : EPostProcessingPass * bool :=
  match FindActiveComponent Objects (BloomComponents Subsystem) with
  | Some CompPtr =>
      (DesiredPassOf (PostProcessPass CompPtr), bEnableDebugLogging CompPtr)
  | None => (EPostProcessingPass.MotionBlur, false)
  end.

Section Subscription.

(** The cast [(int32)PassId]. *)
Variable PassValue : EPostProcessingPass -> Z.

(** [CurrentTime] is the value of [FPlatformTime::Seconds()], which a call
    reads at most once. *)
Definition SubscribeToPostProcessingPass
  (WeakSubsystem : option UClassicBloomSubsystem)
  (Objects : ObjectId -> option UBloomFXComponent) (CurrentTime : double)
  (PassId : EPostProcessingPass) (View : FSceneView) (bIsPassEnabled : bool)
  (s : FSubscribeState) : FSubscribeOutcome :=
  match FSceneView.Family View with
  | None => Completed s
  | Some Family =>
  if IsPreviewWorld Family then Completed s
  else if negb (PostProcessing (EngineShowFlags Family)) then Completed s
  else if negb (Rendering (EngineShowFlags Family))
          || Wireframe (EngineShowFlags Family)
  then Completed s
  else
    match WeakSubsystem with
    | None => Completed s
    | Some Subsystem =>
    let '(Desired, bEnableDebug) := DesiredPass Objects Subsystem in
    if EPostProcessingPass.eqb PassId Desired then
      if 0 <? Num (InOutPassCallbacks s) then
        if bEnableDebug
           && Double.ltb d_2 (Double.sub CurrentTime (LastSkipLogTime s))
        then
          Completed
            {| InOutPassCallbacks := InOutPassCallbacks s;
               SubscribeLog :=
                 SubscribeLog s ++
                 [{| Verbosity := LogWarning;
                     Format :=
                       "ClassicBloom: Skipped duplicate subscription (already %d callbacks), preventing double-application";
                     Args := [ArgInt (Num (InOutPassCallbacks s))] |}];
               LastSkipLogTime := CurrentTime;
               LastSubscribeLogTime := LastSubscribeLogTime s |}
        else Completed s
      else
        if bEnableDebug
           && Double.ltb d_1 (Double.sub CurrentTime (LastSubscribeLogTime s))
        then
          match Scene Family with
          | Some Sc =>
              match GetWorld Sc with
              | Some World =>
                  Completed
                    {| InOutPassCallbacks :=
                         InOutPassCallbacks s ++ [ClassicBloomDelegate];
                       SubscribeLog :=
                         SubscribeLog s ++
                         [{| Verbosity := LogLog;
                             Format :=
                               "ClassicBloom: Subscribed to pass %d (WorldType: %d, PassEnabled: %d)";
                             Args :=
                               [ArgInt (PassValue PassId);
                                ArgInt (EWorldType_value (WorldType World));
                                ArgBool bIsPassEnabled] |}];
                       LastSkipLogTime := LastSkipLogTime s;
                       LastSubscribeLogTime := CurrentTime |}
              | None => NullWorldDereference
              end
          | None =>
              Completed
                {| InOutPassCallbacks :=
                     InOutPassCallbacks s ++ [ClassicBloomDelegate];
                   SubscribeLog :=
                     SubscribeLog s ++
                     [{| Verbosity := LogLog;
                         Format :=
                           "ClassicBloom: Subscribed to pass %d (WorldType: %d, PassEnabled: %d)";
                         Args :=
                           [ArgInt (PassValue PassId); ArgInt (-1);
                            ArgBool bIsPassEnabled] |}];
                   LastSkipLogTime := LastSkipLogTime s;
                   LastSubscribeLogTime := CurrentTime |}
          end
        else
          Completed
            {| InOutPassCallbacks :=
                 InOutPassCallbacks s ++ [ClassicBloomDelegate];
               SubscribeLog := SubscribeLog s;
               LastSkipLogTime := LastSkipLogTime s;
               LastSubscribeLogTime := LastSubscribeLogTime s |}
    else Completed s
    end
  end.

End Subscription.

(** Lines 153-162: the loop that looks for a live and active component. *)
Fixpoint HasActiveComponents (Objects : ObjectId -> option UBloomFXComponent)
  (Components : list ObjectId) : bool :=
  match Components with
  | [] => false
  | Component :: Rest =>
      match Objects Component with
      | Some c =>
          if bIsActive c then true else HasActiveComponents Objects Rest
      | None => HasActiveComponents Objects Rest
      end
  end.

(** Lines 145-165. The context is not read. *)
Definition IsActiveThisFrame_Internal
  (WeakSubsystem : option UClassicBloomSubsystem)
  (Objects : ObjectId -> option UBloomFXComponent) : bool :=
  match WeakSubsystem with
  | None => false
  | Some Subsystem => HasActiveComponents Objects (BloomComponents Subsystem)
  end.

(** ** The component ([BloomFXComponent.cpp]) *)

(** What [GetWorld()] gives a component: no world, or a world and the
    bloom subsystem that [World->GetSubsystem<UClassicBloomSubsystem>()]
    finds in it, if any. *)
Definition FComponentWorld : Type := option (option UClassicBloomSubsystem).

(** Lines 83-92. [This] is the component itself. *)
Definition RegisterWithSubsystem (This : ObjectId) (World : FComponentWorld)
  : FComponentWorld :=
  match World with
  | Some (Some Subsystem) =>
      Some (Some (RegisterBloomComponent (Some This) Subsystem))
  | _ => World
  end.

(** Lines 94-103. *)
Definition UnregisterFromSubsystem (This : ObjectId) (World : FComponentWorld)
  : FComponentWorld :=
  match World with
  | Some (Some Subsystem) =>
      Some (Some (UnregisterBloomComponent (Some This) Subsystem))
  | _ => World
  end.

(** Lines 14-36: the four overrides, without the calls to [Super], which
    belong to the engine. *)
Definition OnRegister := RegisterWithSubsystem.
Definition OnUnregister := UnregisterFromSubsystem.
Definition BeginPlay := RegisterWithSubsystem.
Definition EndPlay := UnregisterFromSubsystem.

(** The component with another value of [bReinitializeRect]. *)
Definition WithReinitializeRect (c : UBloomFXComponent) (b : bool)
  : UBloomFXComponent :=
  {| bIsActive := bIsActive c;
     BloomMode := BloomMode c;
     BloomIntensity := BloomIntensity c;
     BloomThreshold := BloomThreshold c;
     BloomSize := BloomSize c;
     bUseSceneColor := bUseSceneColor c;
     BloomTint := BloomTint c;
     BloomBlendMode := BloomBlendMode c;
     BloomSaturation := BloomSaturation c;
     bProtectHighlights := bProtectHighlights c;
     HighlightProtection := HighlightProtection c;
     DownsampleScale := DownsampleScale c;
     BlurPasses := BlurPasses c;
     BlurSamples := BlurSamples c;
     bHighQualityUpsampling := bHighQualityUpsampling c;
     GlareStreakCount := GlareStreakCount c;
     GlareStreakLength := GlareStreakLength c;
     GlareRotationOffset := GlareRotationOffset c;
     GlareFalloff := GlareFalloff c;
     KawaseMipCount := KawaseMipCount c;
     KawaseFilterRadius := KawaseFilterRadius c;
     bKawaseSoftThreshold := bKawaseSoftThreshold c;
     KawaseThresholdKnee := KawaseThresholdKnee c;
     SoftFocusOverlayMultiplier := SoftFocusOverlayMultiplier c;
     SoftFocusBlendStrength := SoftFocusBlendStrength c;
     SoftFocusSoftLightMultiplier := SoftFocusSoftLightMultiplier c;
     SoftFocusFinalBlend := SoftFocusFinalBlend c;
     PostProcessPass := PostProcessPass c;
     bUseAdaptiveBrightnessScaling := bUseAdaptiveBrightnessScaling c;
     GameModeBloomScale := GameModeBloomScale c;
     bEnableDebugLogging := bEnableDebugLogging c;
     bShowBloomOnly := bShowBloomOnly c;
     bShowGammaCompensation := bShowGammaCompensation c;
     bAutoReinitializeRect := bAutoReinitializeRect c;
     ReinitializeInterval := ReinitializeInterval c;
     bReinitializeRect := b |}.

(** What a tick reads and writes: the world of the component, its
    properties, its private timer and the log. *)
Record FTickState : Type := {
  TickWorld : FComponentWorld;
  Properties : UBloomFXComponent;
  ReinitializeTimer : float;
  TickLog : list FLogLine
}.

(** Lines 42-55: the manual reinitialize button. *)
Definition TickManualReinitialize (This : ObjectId) (s : FTickState)
  : FTickState :=
  if bReinitializeRect (Properties s) then
    {| TickWorld :=
         RegisterWithSubsystem This
           (UnregisterFromSubsystem This (TickWorld s));
       Properties := WithReinitializeRect (Properties s) false;
       ReinitializeTimer := ReinitializeTimer s;
       TickLog :=
         if bEnableDebugLogging (Properties s) then
           TickLog s ++
           [{| Verbosity := LogWarning;
               Format :=
                 "ClassicBloom: Manual viewport rect reinitialize triggered";
               Args := [] |}]
         else TickLog s |}
  else s.

(** Lines 57-80: the reinitialize timer. *)
Definition TickAutoReinitialize (DeltaTime : float) (This : ObjectId)
  (s : FTickState) : FTickState :=
  if bAutoReinitializeRect (Properties s)
     && Float.ltb f_0 (ReinitializeInterval (Properties s))
  then
    let Timer := Float.add (ReinitializeTimer s) DeltaTime in
    if Float.leb (ReinitializeInterval (Properties s)) Timer then
      {| TickWorld :=
           RegisterWithSubsystem This
             (UnregisterFromSubsystem This (TickWorld s));
         Properties := Properties s;
         ReinitializeTimer := f_0;
         TickLog :=
           if bEnableDebugLogging (Properties s) then
             TickLog s ++
             [{| Verbosity := LogLog;
                 Format :=
                   "ClassicBloom: Auto viewport rect reinitialize (interval: %.2f seconds)";
                 Args := [ArgFloat (ReinitializeInterval (Properties s))] |}]
           else TickLog s |}
    else
      {| TickWorld := TickWorld s;
         Properties := Properties s;
         ReinitializeTimer := Timer;
         TickLog := TickLog s |}
  else
    {| TickWorld := TickWorld s;
       Properties := Properties s;
       ReinitializeTimer := f_0;
       TickLog := TickLog s |}.

(** Lines 38-81, without the call to [Super]. *)
Definition TickComponent (DeltaTime : float) (This : ObjectId)
  (s : FTickState) : FTickState :=
  TickAutoReinitialize DeltaTime This (TickManualReinitialize This s).

(** The registered components of a world, none when there is no world or
    no subsystem. *)
Definition RegisteredComponents (World : FComponentWorld) : list ObjectId :=
  match World with
  | Some (Some Subsystem) => BloomComponents Subsystem
  | _ => []
  end.

(** *** Sample subscriptions *)

(** The view of the sample frame, as a subscription sees it. *)
Definition SampleSceneView : FSceneView :=
  FSceneView.mk (Some (Family (SampleView AllShaders))).

(** A view whose scene has no world. *)
Definition WorldlessSceneView : FSceneView :=
  FSceneView.mk
    (Some {| Scene := Some {| GetWorld := None |};
             EngineShowFlags :=
               {| Rendering := true; PostProcessing := true;
                  Wireframe := false |} |}).

(** No callback yet, nothing logged. *)
Definition SampleSubscribeState : FSubscribeState :=
  {| InOutPassCallbacks := [];
     SubscribeLog := [];
     LastSkipLogTime := S754_zero false;
     LastSubscribeLogTime := S754_zero false |}.

(** A numbering of the passes for the samples. *)
Definition SamplePassValue (P : EPostProcessingPass) : Z :=
  match P with
  | EPostProcessingPass.MotionBlur => 0
  | EPostProcessingPass.Tonemap => 1
  | EPostProcessingPass.FXAA => 2
  | EPostProcessingPass.VisualizeDepthOfField => 3
  | EPostProcessingPass.Other i => 4 + Z.of_nat i
  end.

(** The sample component with debug logging on. *)
Definition SampleDebugComponent : UBloomFXComponent :=
  {| bIsActive := true;
     BloomMode := Standard;
     BloomIntensity := f_2;
     BloomThreshold := f_0_5;
     BloomSize := f_5;
     bUseSceneColor := true;
     BloomTint := {| R := f_1; G := f_1; B := f_1; A := f_1 |};
     BloomBlendMode := Screen;
     BloomSaturation := f_1;
     bProtectHighlights := false;
     HighlightProtection := f_0_5;
     DownsampleScale := f_1;
     BlurPasses := 1;
     BlurSamples := 5;
     bHighQualityUpsampling := false;
     GlareStreakCount := 6;
     GlareStreakLength := 40;
     GlareRotationOffset := f_0;
     GlareFalloff := f_2;
     KawaseMipCount := 5;
     KawaseFilterRadius := f_0_01;
     bKawaseSoftThreshold := true;
     KawaseThresholdKnee := f_0_5;
     SoftFocusOverlayMultiplier := f_0_5;
     SoftFocusBlendStrength := f_0_5;
     SoftFocusSoftLightMultiplier := f_0_5;
     SoftFocusFinalBlend := f_0_25;
     PostProcessPass := Tonemap;
     bUseAdaptiveBrightnessScaling := false;
     GameModeBloomScale := f_1;
     bEnableDebugLogging := true;
     bShowBloomOnly := false;
     bShowGammaCompensation := false;
     bAutoReinitializeRect := false;
     ReinitializeInterval := f_1;
     bReinitializeRect := true |}.

(** A component whose eight glare and Kawase settings all differ from
    those of the sample component. *)
Definition SampleOtherModeSettings : UBloomFXComponent :=
  {| bIsActive := true;
     BloomMode := Standard;
     BloomIntensity := f_2;
     BloomThreshold := f_0_5;
     BloomSize := f_5;
     bUseSceneColor := true;
     BloomTint := {| R := f_1; G := f_1; B := f_1; A := f_1 |};
     BloomBlendMode := Screen;
     BloomSaturation := f_1;
     bProtectHighlights := false;
     HighlightProtection := f_0_5;
     DownsampleScale := f_1;
     BlurPasses := 1;
     BlurSamples := 5;
     bHighQualityUpsampling := false;
     GlareStreakCount := 9;
     GlareStreakLength := 80;
     GlareRotationOffset := f_10;
     GlareFalloff := f_1;
     KawaseMipCount := 7;
     KawaseFilterRadius := f_0_0001;
     bKawaseSoftThreshold := false;
     KawaseThresholdKnee := f_0_25;
     SoftFocusOverlayMultiplier := f_0_5;
     SoftFocusBlendStrength := f_0_5;
     SoftFocusSoftLightMultiplier := f_0_5;
     SoftFocusFinalBlend := f_0_25;
     PostProcessPass := Tonemap;
     bUseAdaptiveBrightnessScaling := false;
     GameModeBloomScale := f_1;
     bEnableDebugLogging := true;
     bShowBloomOnly := false;
     bShowGammaCompensation := false;
     bAutoReinitializeRect := false;
     ReinitializeInterval := f_1;
     bReinitializeRect := true |}.

(** A statement that leaves the log and the time stamp alone. *)
Definition Silent {A : Type} (m : Stmt A) : Prop :=
  forall s,
    match m s with
    | Next _ s' | Return _ s' =>
        LogOutput s' = LogOutput s /\ LastLogTime s' = LastLogTime s
    | Crash _ => True
    end.

(** The component [c] with the settings of the directional glare and of
    the Kawase mode taken from [o]. *)
Definition WithModeSettings (c o : UBloomFXComponent) : UBloomFXComponent :=
  {| bIsActive := bIsActive c;
     BloomMode := BloomMode c;
     BloomIntensity := BloomIntensity c;
     BloomThreshold := BloomThreshold c;
     BloomSize := BloomSize c;
     bUseSceneColor := bUseSceneColor c;
     BloomTint := BloomTint c;
     BloomBlendMode := BloomBlendMode c;
     BloomSaturation := BloomSaturation c;
     bProtectHighlights := bProtectHighlights c;
     HighlightProtection := HighlightProtection c;
     DownsampleScale := DownsampleScale c;
     BlurPasses := BlurPasses c;
     BlurSamples := BlurSamples c;
     bHighQualityUpsampling := bHighQualityUpsampling c;
     GlareStreakCount := GlareStreakCount o;
     GlareStreakLength := GlareStreakLength o;
     GlareRotationOffset := GlareRotationOffset o;
     GlareFalloff := GlareFalloff o;
     KawaseMipCount := KawaseMipCount o;
     KawaseFilterRadius := KawaseFilterRadius o;
     bKawaseSoftThreshold := bKawaseSoftThreshold o;
     KawaseThresholdKnee := KawaseThresholdKnee o;
     SoftFocusOverlayMultiplier := SoftFocusOverlayMultiplier c;
     SoftFocusBlendStrength := SoftFocusBlendStrength c;
     SoftFocusSoftLightMultiplier := SoftFocusSoftLightMultiplier c;
     SoftFocusFinalBlend := SoftFocusFinalBlend c;
     PostProcessPass := PostProcessPass c;
     bUseAdaptiveBrightnessScaling := bUseAdaptiveBrightnessScaling c;
     GameModeBloomScale := GameModeBloomScale c;
     bEnableDebugLogging := bEnableDebugLogging c;
     bShowBloomOnly := bShowBloomOnly c;
     bShowGammaCompensation := bShowGammaCompensation c;
     bAutoReinitializeRect := bAutoReinitializeRect c;
     ReinitializeInterval := ReinitializeInterval c;
     bReinitializeRect := bReinitializeRect c |}.

(** Two tables of components that differ in the eight settings of the
    directional glare and of the Kawase mode at most. *)
Definition DifferInModeSettings
  (Objects Objects' : ObjectId -> option UBloomFXComponent) : Prop :=
  forall id,
    match Objects id, Objects' id with
    | Some c, Some c' => c' = WithModeSettings c c'
    | None, None => True
    | _, _ => False
    end.

(** * Properties *)

(** ** Integers and [FMath] *)

Lemma wrap_id (z : Z) : Int32.InRange z -> Int32.wrap z = z.
Proof.
  unfold Int32.InRange, Int32.wrap, Int32.min_value, Int32.max_value.
  intros H. rewrite Z.mod_small; lia.
Qed.

Lemma wrap_range (z : Z) : Int32.InRange (Int32.wrap z).
Proof.
  unfold Int32.InRange, Int32.wrap, Int32.min_value, Int32.max_value.
  pose proof (Z.mod_pos_bound (z + 2147483648) 4294967296). lia.
Qed.

Lemma FMath_Max_int (a b : Z) : FMath.Max a b = Z.max a b.
Proof.
  unfold FMath.Max, less, int32_less.
  destruct (Z.ltb_spec b a); lia.
Qed.

Lemma FMath_Min_int (a b : Z) : FMath.Min a b = Z.min a b.
Proof.
  unfold FMath.Min, less, int32_less.
  destruct (Z.ltb_spec a b); lia.
Qed.

Lemma FMath_Clamp_int (x lo hi : Z) :
  lo <= hi -> lo <= FMath.Clamp x lo hi <= hi.
Proof.
  intros H. unfold FMath.Clamp. rewrite FMath_Max_int, FMath_Min_int. lia.
Qed.

Lemma NoArea_not_empty (R : FIntRect) :
  NoArea R = false -> FIntRect.IsEmpty R = false.
Proof.
  unfold NoArea, FIntRect.IsEmpty. intros H.
  apply orb_false_elim in H. destruct H as (H & _). apply Z.leb_gt in H.
  apply andb_false_intro1. apply Z.eqb_neq. lia.
Qed.

Lemma wrap_sub_wrap (a b : Z) : Int32.wrap (Int32.wrap a - b) = Int32.wrap (a - b).
Proof.
  unfold Int32.wrap. f_equal.
  replace ((a + 2147483648) mod 4294967296 - 2147483648 - b + 2147483648)
    with ((a + 2147483648) mod 4294967296 - b) by lia.
  replace (a - b + 2147483648) with (a + 2147483648 - b) by lia.
  apply Zminus_mod_idemp_l.
Qed.

(** The ceiling division of the engine is the mathematical one as long as
    the numerator is representable. *)
Lemma DivideAndRoundUp_coordinate (x d : Z) :
  0 <= x -> 1 <= d -> x + d - 1 <= Int32.max_value ->
  Int32.div (Int32.sub (Int32.add x d) 1) d = (x + d - 1) / d.
Proof.
  intros Hx Hd Hmax. unfold Int32.div, Int32.sub, Int32.add.
  unfold Int32.max_value in Hmax.
  rewrite wrap_sub_wrap.
  rewrite (wrap_id (x + d - 1))
    by (unfold Int32.InRange, Int32.min_value, Int32.max_value; lia).
  rewrite Z.quot_div_nonneg by lia.
  apply wrap_id. unfold Int32.InRange, Int32.min_value, Int32.max_value.
  assert (0 <= (x + d - 1) / d) by (apply Z.div_pos; lia).
  assert ((x + d - 1) / d <= x + d - 1) by (apply Z.div_le_upper_bound; nia).
  lia.
Qed.

Lemma ceil_div_positive (x d : Z) : 1 <= x -> 1 <= d -> 1 <= (x + d - 1) / d.
Proof.
  intros Hx Hd. apply Z.div_le_lower_bound; lia.
Qed.

Lemma ceil_div_le (x d : Z) : 0 <= x -> 1 <= d -> (x + d - 1) / d <= x.
Proof.
  intros Hx Hd.
  destruct (Z.eq_dec x 0) as [->|Hn].
  - rewrite Z.div_small; lia.
  - apply Z.lt_succ_r. apply Z.div_lt_upper_bound; nia.
Qed.

(** ** Registration *)

Lemma Contains_In (l : list ObjectId) (c : ObjectId) :
  TArray.Contains l c = true <-> In c l.
Proof.
  unfold TArray.Contains. rewrite existsb_exists. split.
  - intros (x & Hin & Heq). apply Nat.eqb_eq in Heq. now subst.
  - intros Hin. exists c. split; [assumption | apply Nat.eqb_refl].
Qed.

Lemma AddUnique_present (l : list ObjectId) (c : ObjectId) :
  In c l -> TArray.AddUnique l c = l.
Proof.
  intros Hin. unfold TArray.AddUnique.
  apply Contains_In in Hin. now rewrite Hin.
Qed.

Lemma AddUnique_NoDup (l : list ObjectId) (c : ObjectId) :
  NoDup l -> NoDup (TArray.AddUnique l c).
Proof.
  intros Hnd. unfold TArray.AddUnique.
  destruct (TArray.Contains l c) eqn:Hc; [assumption|].
  assert (~ In c l) as Hnin.
  { intros Hin. apply Contains_In in Hin. congruence. }
  clear Hc. induction Hnd as [|x l Hx Hnd IH]; simpl.
  - constructor; [intros [] | constructor].
  - constructor.
    + rewrite in_app_iff. simpl. intros [Hin | [Heq | []]].
      * contradiction.
      * apply Hnin. left. congruence.
    + apply IH. intros Hin. apply Hnin. now right.
Qed.

Lemma Remove_absent (l : list ObjectId) (c : ObjectId) :
  ~ In c l -> TArray.Remove l c = l.
Proof.
  unfold TArray.Remove. induction l as [|x l IH]; simpl; intros Hnin.
  - reflexivity.
  - destruct (Nat.eqb_spec c x) as [->|Hne]; simpl.
    + exfalso. apply Hnin. now left.
    + rewrite IH; [reflexivity|]. intros Hin. apply Hnin. now right.
Qed.

Lemma Remove_NoDup (l : list ObjectId) (c : ObjectId) :
  NoDup l -> NoDup (TArray.Remove l c).
Proof.
  unfold TArray.Remove. apply NoDup_filter.
Qed.

Lemma Reachable_NoDup (S : UClassicBloomSubsystem) :
  Reachable S -> NoDup (BloomComponents S).
Proof.
  induction 1 as [|c S HS IH|c S HS IH].
  - constructor.
  - destruct c; simpl; [now apply AddUnique_NoDup | assumption].
  - destruct c; simpl; [now apply Remove_NoDup | assumption].
Qed.

(** C8. Registration is idempotent. For every subsystem that registration
    calls can produce and every component [c]: the array of registered
    components has no duplicates; registering [c] when it is present, and
    unregistering it when it is absent, leave the subsystem unchanged;
    registering [c] twice leaves exactly one entry for it; and both calls
    do nothing on a null pointer. *)
Theorem registration_idempotent (S : UClassicBloomSubsystem) (c : ObjectId) :
  Reachable S ->
  NoDup (BloomComponents S)
  /\ (In c (BloomComponents S) -> RegisterBloomComponent (Some c) S = S)
  /\ RegisterBloomComponent (Some c) (RegisterBloomComponent (Some c) S)
     = RegisterBloomComponent (Some c) S
  /\ count_occ Nat.eq_dec
       (BloomComponents
          (RegisterBloomComponent (Some c) (RegisterBloomComponent (Some c) S)))
       c = 1%nat
  /\ (~ In c (BloomComponents S) -> UnregisterBloomComponent (Some c) S = S)
  /\ RegisterBloomComponent None S = S
  /\ UnregisterBloomComponent None S = S.
Proof.
  intros HS. pose proof (Reachable_NoDup S HS) as Hnd.
  assert (In c (TArray.AddUnique (BloomComponents S) c)) as Hin.
  { unfold TArray.AddUnique.
    destruct (TArray.Contains (BloomComponents S) c) eqn:Hc.
    - now apply Contains_In.
    - apply in_or_app. right. now left. }
  repeat split.
  - exact Hnd.
  - intros Hc. destruct S as [l]. simpl in *. now rewrite AddUnique_present.
  - simpl. now rewrite (AddUnique_present _ _ Hin).
  - simpl. rewrite (AddUnique_present _ _ Hin).
    apply (proj1 (NoDup_count_occ' Nat.eq_dec _)).
    + now apply AddUnique_NoDup.
    + exact Hin.
  - intros Hc. destruct S as [l]. simpl in *. now rewrite Remove_absent.
Qed.

(** The claim at a subsystem that holds two components. *)
Lemma registration_idempotent_witness :
  let S := RegisterBloomComponent (Some 2%nat)
             (RegisterBloomComponent (Some 1%nat) Initialize) in
  RegisterBloomComponent (Some 1%nat) S = S
  /\ UnregisterBloomComponent (Some 5%nat) S = S.
Proof.
  intros S.
  assert (Reachable S) as HS by (repeat constructor).
  split.
  - destruct (registration_idempotent S 1%nat HS) as (_ & H & _).
    apply H. simpl. now left.
  - destruct (registration_idempotent S 5%nat HS) as (_ & _ & _ & _ & H & _).
    apply H. simpl. intuition discriminate.
Defined.

(** ** The activation gate *)

Lemma FindActiveComponent_None (Objects : ObjectId -> option UBloomFXComponent)
  (l : list ObjectId) :
  NoActiveComponent Objects l -> FindActiveComponent Objects l = None.
Proof.
  unfold NoActiveComponent. induction l as [|id l IH]; simpl; intros H.
  - reflexivity.
  - destruct (Objects id) as [c|] eqn:Hc.
    + rewrite (H id c (or_introl eq_refl) Hc).
      apply IH. intros id' c' Hin. apply H. now right.
    + apply IH. intros id' c' Hin. apply H. now right.
Qed.

Lemma FindActiveComponent_first (Objects : ObjectId -> option UBloomFXComponent)
  (l : list ObjectId) (c : UBloomFXComponent) :
  FirstActiveComponent Objects l c -> FindActiveComponent Objects l = Some c.
Proof.
  intros (before & id & after & -> & Hno & Hid & Hact).
  induction before as [|x before IH]; simpl.
  - now rewrite Hid, Hact.
  - assert (NoActiveComponent Objects before) as Hno'.
    { intros id' c' Hin. apply Hno. now right. }
    destruct (Objects x) as [cx|] eqn:Hx.
    + rewrite (Hno x cx (or_introl eq_refl) Hx). now apply IH.
    + now apply IH.
Qed.

Lemma FindActiveComponent_Some (Objects : ObjectId -> option UBloomFXComponent)
  (l : list ObjectId) (c : UBloomFXComponent) :
  FindActiveComponent Objects l = Some c -> FirstActiveComponent Objects l c.
Proof.
  induction l as [|x l IH]; simpl; [discriminate|].
  destruct (Objects x) as [cx|] eqn:Hx.
  - destruct (bIsActive cx) eqn:Hact.
    + intros [= <-]. exists [], x, l. repeat split; try assumption.
      intros id c' [].
    + intros H. destruct (IH H) as (before & id & after & -> & Hno & Hid & Ha).
      exists (x :: before), id, after. repeat split; try assumption.
      intros id' c' [<- | Hin] Hc'; [congruence | now apply (Hno id' c')].
  - intros H. destruct (IH H) as (before & id & after & -> & Hno & Hid & Ha).
    exists (x :: before), id, after. repeat split; try assumption.
    intros id' c' [<- | Hin] Hc'; [congruence | now apply (Hno id' c')].
Qed.

(** ** Running statements *)

Lemma bind_Next {A B : Type} (m : Stmt A) (k : A -> Stmt B) (s s1 : RenderState)
  (a : A) :
  m s = Next a s1 -> bind m k s = k a s1.
Proof. intros H. unfold bind. now rewrite H. Qed.

Lemma bind_Return {A B : Type} (m : Stmt A) (k : A -> Stmt B)
  (s s1 : RenderState) (r : FScreenPassTexture) :
  m s = Return r s1 -> bind m k s = Return r s1.
Proof. intros H. unfold bind. now rewrite H. Qed.

Lemma GraphAdds_nil (g : FRDGBuilder) : GraphAdds g g [] [].
Proof. unfold GraphAdds. now rewrite !app_nil_r. Qed.

Lemma GraphAdds_trans (g1 g2 g3 : FRDGBuilder) (ts ts' : list FRDGTexture)
  (ps ps' : list FRDGPass) :
  GraphAdds g1 g2 ts ps -> GraphAdds g2 g3 ts' ps' ->
  GraphAdds g1 g3 (ts ++ ts') (ps ++ ps').
Proof.
  unfold GraphAdds. intros (Ht & Hp & Hn) (Ht' & Hp' & Hn').
  rewrite Hn', Hn, Ht', Ht, Hp', Hp, length_app, !app_assoc.
  repeat split. lia.
Qed.

Lemma fold_left_Appended {A : Type} (l base : list A) :
  fold_left Appended l base = base ++ l.
Proof.
  revert base. induction l as [|x l IH]; intros base; simpl.
  - now rewrite app_nil_r.
  - rewrite IH. unfold Appended. now rewrite <- app_assoc.
Qed.

Lemma distinct_names_NoDup (l : list string) :
  distinct_names l = true -> NoDup l.
Proof.
  induction l as [|x l IH]; simpl; intros H; constructor.
  - apply andb_prop in H. destruct H as [H _].
    intros Hin. apply negb_true_iff in H.
    assert (existsb (String.eqb x) l = true) as E.
    { apply existsb_exists. exists x. split; [assumption | apply String.eqb_refl]. }
    congruence.
  - apply IH. apply andb_prop in H. tauto.
Qed.

Lemma NoDup_by_name (l : list FRDGTextureRef) :
  distinct_names (map TextureName l) = true -> NoDup l.
Proof.
  intros H. apply (NoDup_map_inv TextureName). now apply distinct_names_NoDup.
Qed.

(** Symbolic evaluation of a block: everything is computed but the
    arithmetic on sizes and on floating point numbers, and the registries
    of the state. *)
Ltac run_block :=
  lazy -[Float.div Float.mul Float.add Float.of_int FMath.Clamp SizeAndInvSize
         DegreesToRadians FIntRect.Width FIntRect.Height
         FIntPoint.DivideAndRoundUp
         f_0 f_1 f_2 f_5 f_10 f_200 f_360 f_0_5 f_0_25 f_0_1 f_0_05 f_0_01
         f_0_0001 UE_PI Appended FMath.Max FIntRect.IsEmpty
         KawaseMipExtent KawaseMipRect].

(** The entries appended to a registry, latest first. *)
Ltac appended t :=
  lazymatch t with
  | Appended ?t' ?x => let r := appended t' in constr:(x :: r)
  | _ => constr:(@nil ltac:(let T := type of t in
                            lazymatch T with list ?A => exact A end))
  end.

(** Runs a statement and names what it adds to the graph: the goal must
    start with the four existentials of a run lemma. *)
Ltac run_split E a n T P l t :=
  let tr := appended T in
  let pr := appended P in
  let ts := eval cbv [rev app] in (rev tr) in
  let ps := eval cbv [rev app] in (rev pr) in
  exists a, (Build_RenderState (Build_FRDGBuilder n T P) l t), ts, ps;
  split; [exact E|]; clear E;
  split; [split; [exact (fold_left_Appended ts _)
                 | split; [exact (fold_left_Appended ps _)
                          | reflexivity]]|].

Ltac run_stmt :=
  lazymatch goal with
  | |- exists a s' ts ps, ?m ?s = _ /\ _ =>
      let E := fresh "E" in
      eassert (E : m s = _) by (run_block; reflexivity);
      lazymatch type of E with
      | _ = Next ?a (Build_RenderState (Build_FRDGBuilder ?n ?T ?P) ?l ?t) =>
          run_split E a n T P l t
      | _ = Return ?a (Build_RenderState (Build_FRDGBuilder ?n ?T ?P) ?l ?t) =>
          run_split E a n T P l t
      | _ = Next ?a s =>
          exists a, s, [], []; split; [exact E|]; clear E;
          split; [apply GraphAdds_nil|]
      | _ = Return ?a s =>
          exists a, s, [], []; split; [exact E|]; clear E;
          split; [apply GraphAdds_nil|]
      end
  end.

Ltac close_recorded :=
  repeat match goal with
         | |- _ /\ _ => split
         | |- True => exact I
         | |- Forall2 _ _ _ => constructor
         | |- NoDup _ => apply NoDup_by_name; vm_compute; reflexivity
         | |- _ = _ => reflexivity
         | |- _ = _ -> False => discriminate
         | |- _ <> _ => discriminate
         end.

Lemma plan_indices (K : Z) :
  2 <= K <= 16 ->
  forall i, In i (PlanIndices (AccumulationPlan K)) <-> 0 <= i < K.
Proof.
  intros HK.
  assert (K = 2 \/ K = 3 \/ K = 4 \/ K = 5 \/ K = 6 \/ K = 7 \/ K = 8 \/ K = 9
          \/ K = 10 \/ K = 11 \/ K = 12 \/ K = 13 \/ K = 14 \/ K = 15 \/ K = 16)
    as Hcases by lia.
  clear HK.
  repeat (destruct Hcases as [-> | Hcases]); [.. | subst K];
    intros i;
    match goal with
    | |- In _ ?l <-> _ =>
        let l' := eval vm_compute in l in change l with l'
    end;
    cbn [In]; lia.
Qed.

Section BlockRuns.

Variables FMath_Cos FMath_Sin : float -> float.
Variable View : FViewInfo.
Variable GlobalShaderMap : FGlobalShaderMap.
Variable ActiveComponent : UBloomFXComponent.
Variable Divisor : Z.
Variable DownsampledExtent : FIntPoint.
Variable DownsampledRect : FIntRect.
Variable BrightPassTexture : FRDGTextureRef.

Local Abbreviation BrightPassDesc :=
  (FRDGTextureDesc.Create2D DownsampledExtent PF_FloatR11G11B10 ClearBlack
     (Z.lor TexCreate_ShaderResource TexCreate_RenderTargetable)).

Ltac glare_case :=
  run_stmt; split; [|discriminate];
  run_block; eexists _, _; close_recorded.

(** With both glare shaders available, the block records the streak
    passes, the accumulation passes of the plan and the two smoothing
    passes, and yields the smoothed texture. *)
Lemma glare_block_run (s : RenderState) :
  BloomMode ActiveComponent = DirectionalGlare ->
  HasShader GlobalShaderMap GlareStreakPS = true ->
  HasShader GlobalShaderMap GlareAccumulatePS = true ->
  exists Blurred s' ts ps,
    DirectionalGlareBlock FMath_Cos FMath_Sin View GlobalShaderMap
      ActiveComponent false Divisor DownsampledExtent DownsampledRect
      BrightPassDesc BrightPassTexture s = Next Blurred s'
    /\ GraphAdds (GraphBuilder s) (GraphBuilder s') ts ps
    /\ GlareRecorded (FMath.Clamp (GlareStreakCount ActiveComponent) 2 16)
         ps Blurred
    /\ Blurred <> None.
Proof.
  intros Hmode Hstreak Haccum.
  unfold DirectionalGlareBlock, TShaderMapRef.Lookup.
  rewrite Hmode, Hstreak, Haccum.
  pose proof (FMath_Clamp_int (GlareStreakCount ActiveComponent) 2 16) as HK.
  set (K := FMath.Clamp (GlareStreakCount ActiveComponent) 2 16) in *.
  assert (K = 2 \/ K = 3 \/ K = 4 \/ K = 5 \/ K = 6 \/ K = 7 \/ K = 8 \/ K = 9
          \/ K = 10 \/ K = 11 \/ K = 12 \/ K = 13 \/ K = 14 \/ K = 15 \/ K = 16)
    as Hcases by lia.
  clearbody K. clear HK.
  destruct Hcases
    as [-> | [-> | [-> | [-> | [-> | [-> | [-> | [-> | [-> | [-> | [-> | [-> | [-> | [-> | ->]]]]]]]]]]]]]].
  all: glare_case.
Qed.

(** Without the streak shader the block records nothing. *)
Lemma glare_block_no_streak (s : RenderState) :
  BloomMode ActiveComponent = DirectionalGlare ->
  HasShader GlobalShaderMap GlareStreakPS = false ->
  DirectionalGlareBlock FMath_Cos FMath_Sin View GlobalShaderMap
    ActiveComponent false Divisor DownsampledExtent DownsampledRect
    BrightPassDesc BrightPassTexture s = Next None s.
Proof.
  intros Hmode Hstreak.
  unfold DirectionalGlareBlock, TShaderMapRef.Lookup.
  rewrite Hmode, Hstreak. reflexivity.
Qed.

(** Without the accumulate shader the block has recorded the streak passes
    when it gives up. *)
Lemma glare_block_no_accumulate (s : RenderState) :
  BloomMode ActiveComponent = DirectionalGlare ->
  HasShader GlobalShaderMap GlareStreakPS = true ->
  HasShader GlobalShaderMap GlareAccumulatePS = false ->
  exists Blurred s' ts ps,
    DirectionalGlareBlock FMath_Cos FMath_Sin View GlobalShaderMap
      ActiveComponent false Divisor DownsampledExtent DownsampledRect
      BrightPassDesc BrightPassTexture s = Next Blurred s'
    /\ GraphAdds (GraphBuilder s) (GraphBuilder s') ts ps
    /\ Blurred = None
    /\ Forall (fun p => PassKind p = GlareStreakPS) ps
    /\ Z.of_nat (List.length ps)
       = FMath.Clamp (GlareStreakCount ActiveComponent) 2 16.
Proof.
  intros Hmode Hstreak Haccum.
  unfold DirectionalGlareBlock, TShaderMapRef.Lookup.
  rewrite Hmode, Hstreak, Haccum.
  pose proof (FMath_Clamp_int (GlareStreakCount ActiveComponent) 2 16) as HK.
  set (K := FMath.Clamp (GlareStreakCount ActiveComponent) 2 16) in *.
  assert (K = 2 \/ K = 3 \/ K = 4 \/ K = 5 \/ K = 6 \/ K = 7 \/ K = 8 \/ K = 9
          \/ K = 10 \/ K = 11 \/ K = 12 \/ K = 13 \/ K = 14 \/ K = 15 \/ K = 16)
    as Hcases by lia.
  clearbody K. clear HK.
  destruct Hcases
    as [-> | [-> | [-> | [-> | [-> | [-> | [-> | [-> | [-> | [-> | [-> | [-> | [-> | [-> | ->]]]]]]]]]]]]]].
  all: run_stmt; repeat split; repeat constructor.
Qed.

(** In another mode the block does nothing. *)
Lemma glare_block_skip (bShouldLog : bool) (D : FRDGTextureDesc)
  (s : RenderState) :
  BloomMode ActiveComponent <> DirectionalGlare ->
  DirectionalGlareBlock FMath_Cos FMath_Sin View GlobalShaderMap
    ActiveComponent bShouldLog Divisor DownsampledExtent DownsampledRect
    D BrightPassTexture s = Next None s.
Proof.
  intros Hmode. unfold DirectionalGlareBlock.
  destruct (BloomMode ActiveComponent); try reflexivity. congruence.
Qed.

(** The standard blur records the passes of its plan. *)
Lemma standard_block_run (s : RenderState) :
  exists Blurred s' ts ps,
    StandardBlurBlock View GlobalShaderMap ActiveComponent DownsampledExtent
      DownsampledRect BrightPassDesc BrightPassTexture None s = Next Blurred s'
    /\ GraphAdds (GraphBuilder s) (GraphBuilder s') ts ps
    /\ StandardRecorded GlobalShaderMap
         (FMath.Clamp (BlurPasses ActiveComponent) 1 4) BrightPassTexture
         ps Blurred
    /\ Blurred <> None.
Proof.
  unfold StandardBlurBlock.
  pose proof (FMath_Clamp_int (BlurPasses ActiveComponent) 1 4) as HN.
  set (N := FMath.Clamp (BlurPasses ActiveComponent) 1 4) in *.
  assert (N = 1 \/ N = 2 \/ N = 3 \/ N = 4) as Hcases by lia.
  clearbody N. clear HN.
  destruct Hcases as [-> | [-> | [-> | ->]]].
  all: run_stmt; split; [|discriminate];
    eexists; run_block; close_recorded; close_recorded.
Qed.

(** After another block has produced the bloom texture, the standard blur
    does nothing. *)
Lemma standard_block_skip (D : FRDGTextureDesc) (T : FRDGTexture)
  (s : RenderState) :
  StandardBlurBlock View GlobalShaderMap ActiveComponent DownsampledExtent
    DownsampledRect D BrightPassTexture (Some T) s = Next (Some T) s.
Proof. reflexivity. Qed.

End BlockRuns.

(** ** Statements that record the same graph *)

Section Relational.

Variable PR : FRDGPass -> FRDGPass -> Prop.

Lemma Related_ret {A : Type} (a : A) : Related PR (ret a) (ret a).
Proof. intros s s' H. simpl. auto. Qed.

Lemma Related_return {A : Type} (r : FScreenPassTexture) :
  Related PR (@return_ A r) (return_ r).
Proof. intros s s' H. simpl. auto. Qed.

Lemma Related_crash {A : Type} (why : ECrash) :
  Related PR (@crash A why) (crash why).
Proof. intros s s' H. reflexivity. Qed.

Lemma Related_bind {A B : Type} (m m' : Stmt A) (k k' : A -> Stmt B) :
  Related PR m m' -> (forall a, Related PR (k a) (k' a)) ->
  Related PR (bind m k) (bind m' k').
Proof.
  intros Hm Hk s s' Hs. unfold bind. specialize (Hm s s' Hs).
  destruct (m s) as [a s1|r s1|why], (m' s') as [a' s1'|r' s1'|why'];
    simpl in Hm; try contradiction.
  - destruct Hm as [<- Hs1]. now apply Hk.
  - exact Hm.
  - exact Hm.
Qed.

Lemma Related_if {A : Type} (b : bool) (m1 m2 m1' m2' : Stmt A) :
  Related PR m1 m1' -> Related PR m2 m2' ->
  Related PR (if b then m1 else m2) (if b then m1' else m2').
Proof. destruct b; auto. Qed.

Lemma Related_CreateTexture (D : FRDGTextureDesc) (N : string) :
  Related PR (CreateTexture D N) (CreateTexture D N).
Proof.
  intros s s' ((Hn & Ht & Hp) & Hl). unfold CreateTexture. simpl.
  rewrite Hn, Ht. repeat split; auto.
Qed.

Lemma Related_AddFullscreenPass (N N' : string) (Sh Sh' : TShaderMapRef)
  (P P' : FPassParameters) (V V' : FIntRect) :
  PR {| EventName := N; PixelShader := Sh; Parameters := P; Viewport := V |}
     {| EventName := N'; PixelShader := Sh'; Parameters := P'; Viewport := V' |} ->
  Related PR (AddFullscreenPass N Sh P V) (AddFullscreenPass N' Sh' P' V').
Proof.
  intros HP s s' ((Hn & Ht & Hp) & Hl). unfold AddFullscreenPass. simpl.
  repeat split; auto.
  unfold Appended. apply Forall2_app; [assumption|]. now constructor.
Qed.

Lemma Related_UE_LOG (V V' : ELogVerbosity) (F F' : string)
  (L L' : list FLogArg) :
  Related PR (UE_LOG V F L) (UE_LOG V' F' L').
Proof.
  intros s s' ((Hn & Ht & Hp) & Hl). unfold UE_LOG. simpl.
  repeat split; auto.
Qed.

Lemma Related_SetLastLogTime (T : double) :
  Related PR (SetLastLogTime T) (SetLastLogTime T).
Proof.
  intros s s' ((Hn & Ht & Hp) & Hl). unfold SetLastLogTime. simpl.
  repeat split; auto.
Qed.

Lemma Related_GetLastLogTime : Related PR GetLastLogTime GetLastLogTime.
Proof.
  intros s s' ((Hn & Ht & Hp) & Hl). unfold GetLastLogTime. simpl.
  repeat split; auto.
Qed.

Lemma Related_Index {A : Type} (l : list A) (i : Z) :
  Related PR (Index l i) (Index l i).
Proof.
  intros s s' Hs. unfold Index.
  destruct (i <? 0); [reflexivity|].
  destruct (nth_error l (Z.to_nat i)); simpl; auto.
Qed.

Lemma Related_Last {A : Type} (l : list A) : Related PR (Last l) (Last l).
Proof. apply Related_Index. Qed.

Lemma Related_Deref (P : FRDGTextureRef) : Related PR (Deref P) (Deref P).
Proof. intros s s' Hs. destruct P; simpl; auto. Qed.

Lemma Related_ForLoop {L : Type} (bound : nat) (Cond : Z -> bool)
  (Incr : Z -> Z) (Body Body' : Z -> L -> Stmt L) :
  (forall i l, Related PR (Body i l) (Body' i l)) ->
  forall i l,
    Related PR (ForLoop bound Cond Incr Body i l)
      (ForLoop bound Cond Incr Body' i l).
Proof.
  intros HB. induction bound as [|bound IH]; intros i l; simpl.
  - destruct (Cond i); [apply Related_crash | apply Related_ret].
  - destruct (Cond i); [|apply Related_ret].
    apply Related_bind; [apply HB | intros l'; apply IH].
Qed.

Lemma LogOnly_UE_LOG (V : ELogVerbosity) (F : string) (L : list FLogArg) :
  LogOnly (UE_LOG V F L).
Proof. intros s. eexists. repeat split. Qed.

Lemma LogOnly_seq (m1 m2 : Stmt unit) :
  LogOnly m1 -> LogOnly m2 -> LogOnly (bind m1 (fun _ => m2)).
Proof.
  intros H1 H2 s. destruct (H1 s) as (s1 & E1 & G1 & T1).
  destruct (H2 s1) as (s2 & E2 & G2 & T2).
  exists s2. unfold bind. rewrite E1. repeat split; congruence.
Qed.

Lemma LogOnly_when (b : bool) (m : Stmt unit) : LogOnly m -> LogOnly (when b m).
Proof.
  intros H. destruct b; [exact H|].
  intros s. exists s. repeat split.
Qed.

(** Log statements are related whatever they print and whether or not
    they run. *)
Lemma Related_LogOnly (m m' : Stmt unit) :
  LogOnly m -> LogOnly m' -> Related PR m m'.
Proof.
  intros H H' s s' (Hg & Hl).
  destruct (H s) as (s1 & -> & G1 & T1).
  destruct (H' s') as (s1' & -> & G1' & T1').
  simpl. unfold StateRel. rewrite G1, G1', T1, T1'. auto.
Qed.

End Relational.

Ltac log_only :=
  cbv zeta;
  repeat match goal with
         | |- LogOnly (when _ _) => apply LogOnly_when
         | |- LogOnly (bind _ _) => apply LogOnly_seq
         | |- LogOnly (UE_LOG _ _ _) => apply LogOnly_UE_LOG
         end.

(** The passes recorded by two calls that differ in the availability of
    the blur shader and in [bShouldLog] only are related, as long as [PR]
    relates a pass to itself and to the same pass with the blur shader
    looked up in the other map. *)
Section RelatedBloomPasses.

Variables FMath_Cos FMath_Sin : float -> float.
Variable View : FViewInfo.
Variable PR : FRDGPass -> FRDGPass -> Prop.
Variables GlobalShaderMap GlobalShaderMap' : FGlobalShaderMap.

Hypothesis PR_refl : forall p, PR p p.
Hypothesis PR_blur :
  forall N P V,
    PR {| EventName := N;
          PixelShader := TShaderMapRef.Lookup GlobalShaderMap BlurPS;
          Parameters := P; Viewport := V |}
       {| EventName := N;
          PixelShader := TShaderMapRef.Lookup GlobalShaderMap' BlurPS;
          Parameters := P; Viewport := V |}.
Hypothesis shaders_agree :
  forall S, S <> BlurPS ->
    HasShader GlobalShaderMap' S = HasShader GlobalShaderMap S.

Lemma Lookup_agree (S : EShader) :
  S <> BlurPS ->
  TShaderMapRef.Lookup GlobalShaderMap' S = TShaderMapRef.Lookup GlobalShaderMap S.
Proof. intros H. unfold TShaderMapRef.Lookup. now rewrite shaders_agree. Qed.

Ltac related_step :=
  first
    [ apply Related_ret
    | apply Related_return
    | apply Related_crash
    | apply Related_CreateTexture
    | apply Related_Index
    | apply Related_Last
    | apply Related_Deref
    | apply Related_AddFullscreenPass; first [apply PR_refl | apply PR_blur]
    | apply Related_LogOnly; [solve [log_only] | solve [log_only]]
    | apply Related_bind; [|intros ?]
    | apply Related_ForLoop; intros ? ?
    | match goal with
      | |- Related _ (if ?b then _ else _) (if ?b then _ else _) => destruct b
      | |- Related _ (match ?x with _ => _ end) (match ?x with _ => _ end) =>
          destruct x
      end
    | rewrite !Lookup_agree by discriminate ].

Lemma Related_BloomPasses (ActiveComponent : UBloomFXComponent)
  (Inputs : FPostProcessMaterialInputs) (SceneTexture : FRDGTexture)
  (bShouldLog bShouldLog' : bool) (Divisor : Z)
  (DownsampledExtent : FIntPoint) (DownsampledRect : FIntRect) :
  Related PR
    (BloomPasses FMath_Cos FMath_Sin View GlobalShaderMap ActiveComponent
       Inputs SceneTexture bShouldLog Divisor DownsampledExtent DownsampledRect)
    (BloomPasses FMath_Cos FMath_Sin View GlobalShaderMap' ActiveComponent
       Inputs SceneTexture bShouldLog' Divisor DownsampledExtent DownsampledRect).
Proof.
  unfold BloomPasses, BrightPass, DirectionalGlareBlock, GlareAccumulate,
    GlareStreakBody, KawaseBlock, KawaseMipBody, KawaseDownsampleBody,
    KawaseUpsampleTargetBody, KawaseUpsampleBody, StandardBlurBlock,
    CompositeBlock.
  cbv zeta.
  repeat related_step.
Qed.

End RelatedBloomPasses.

Section BlockRuns2.

Variables FMath_Cos FMath_Sin : float -> float.
Variable View : FViewInfo.
Variable GlobalShaderMap : FGlobalShaderMap.
Variable ActiveComponent : UBloomFXComponent.
Variable DownsampledExtent : FIntPoint.
Variable DownsampledRect : FIntRect.
Variable BrightPassTexture : FRDGTextureRef.

Local Abbreviation BrightPassDesc :=
  (FRDGTextureDesc.Create2D DownsampledExtent PF_FloatR11G11B10 ClearBlack
     (Z.lor TexCreate_ShaderResource TexCreate_RenderTargetable)).

Local Abbreviation SceneOf SceneTexture SceneRect :=
  (FScreenPassTexture.mk (Some SceneTexture) SceneRect).

Lemma FIntPoint_eta (E : FIntPoint) :
  FIntPoint.mk (FIntPoint.X E) (FIntPoint.Y E) = E.
Proof. now destruct E. Qed.

Lemma KawaseMipBody_step : KawaseMipBody = KawaseMipStep.
Proof. reflexivity. Qed.

(** With both Kawase shaders available, the block records the downsample
    chain from the scene colour, the upsample chain and the final
    upsample. *)
Lemma kawase_block_run (SceneTexture : FRDGTexture) (SceneRect : FIntRect)
  (s : RenderState) :
  BloomMode ActiveComponent = Kawase ->
  HasShader GlobalShaderMap KawaseDownsamplePS = true ->
  HasShader GlobalShaderMap KawaseUpsamplePS = true ->
  exists Blurred s' ts ps,
    KawaseBlock View GlobalShaderMap ActiveComponent (SceneOf SceneTexture SceneRect) false
      DownsampledExtent DownsampledRect BrightPassDesc BrightPassTexture
      SceneTexture None s = Next Blurred s'
    /\ GraphAdds (GraphBuilder s) (GraphBuilder s') ts ps
    /\ KawaseRecorded KawaseMipExtent KawaseMipRect
         (FMath.Clamp (KawaseMipCount ActiveComponent) 3 8)
         (Some SceneTexture) DownsampledExtent DownsampledRect ps Blurred
    /\ Blurred <> None.
Proof.
  intros Hmode Hdown Hup.
  unfold KawaseBlock, TShaderMapRef.Lookup.
  rewrite Hmode, Hdown, Hup, KawaseMipBody_step.
  pose proof (FMath_Clamp_int (KawaseMipCount ActiveComponent) 3 8) as HM.
  set (M := FMath.Clamp (KawaseMipCount ActiveComponent) 3 8) in *.
  assert (M = 3 \/ M = 4 \/ M = 5 \/ M = 6 \/ M = 7 \/ M = 8) as Hcases by lia.
  clearbody M. clear HM.
  destruct Hcases as [-> | [-> | [-> | [-> | [-> | ->]]]]].
  all: run_stmt; split; [|discriminate];
    run_block; eexists; close_recorded.
Qed.

(** Without one of its shaders, or in another mode, or after the glare
    block has produced the bloom texture, the Kawase block records
    nothing. *)
Lemma kawase_block_skip (SceneTexture : FRDGTexture) (SceneRect : FIntRect)
  (D : FRDGTextureDesc) (Blurred : FRDGTextureRef) (s : RenderState) :
  BloomMode ActiveComponent <> Kawase
  \/ Blurred <> None
  \/ HasShader GlobalShaderMap KawaseDownsamplePS = false
  \/ HasShader GlobalShaderMap KawaseUpsamplePS = false ->
  KawaseBlock View GlobalShaderMap ActiveComponent (SceneOf SceneTexture SceneRect) false
    DownsampledExtent DownsampledRect D BrightPassTexture
    SceneTexture Blurred s = Next Blurred s.
Proof.
  intros H. unfold KawaseBlock, TShaderMapRef.Lookup.
  cbn [TShaderMapRef.IsValid].
  destruct (EBloomMode_eqb (BloomMode ActiveComponent) Kawase) eqn:Hmode;
    [|reflexivity].
  destruct Blurred as [T|]; [reflexivity|].
  cbn [andb].
  destruct (HasShader GlobalShaderMap KawaseDownsamplePS) eqn:Hd;
    [|reflexivity].
  destruct (HasShader GlobalShaderMap KawaseUpsamplePS) eqn:Hu;
    [|reflexivity].
  exfalso. destruct H as [H | [H | [H | H]]]; try discriminate.
  - destruct (BloomMode ActiveComponent); try discriminate. now apply H.
  - now apply H.
Qed.

(** With its shader available, the bright pass is recorded. *)
Lemma bright_pass_run (SceneTexture : FRDGTexture) (SceneRect : FIntRect)
  (s : RenderState) :
  HasShader GlobalShaderMap BrightPassPS = true ->
  exists (u : unit) s' ts ps,
    BrightPass View GlobalShaderMap ActiveComponent (SceneOf SceneTexture SceneRect) false
      DownsampledExtent DownsampledRect BrightPassTexture SceneTexture s
    = Next u s'
    /\ GraphAdds (GraphBuilder s) (GraphBuilder s') ts ps
    /\ ts = []
    /\ exists p, ps = [p]
         /\ BrightRecorded ActiveComponent (SceneOf SceneTexture SceneRect) DownsampledRect
              BrightPassTexture p.
Proof.
  intros Hbright. unfold BrightPass, TShaderMapRef.Lookup. rewrite Hbright.
  run_stmt. split; [reflexivity|]. eexists. split; [reflexivity|].
  unfold BrightRecorded. cbn. repeat split.
Qed.

(** Without its shader the function returns the scene colour. *)
Lemma bright_pass_unavailable (SceneTexture : FRDGTexture)
  (SceneRect : FIntRect) (bShouldLog : bool) (s : RenderState) :
  HasShader GlobalShaderMap BrightPassPS = false ->
  BrightPass View GlobalShaderMap ActiveComponent (SceneOf SceneTexture SceneRect) bShouldLog
    DownsampledExtent DownsampledRect BrightPassTexture SceneTexture s
  = Return (SceneOf SceneTexture SceneRect) s.
Proof.
  intros Hbright. unfold BrightPass, TShaderMapRef.Lookup. now rewrite Hbright.
Qed.

(** The composite block chooses the output and, with its shader
    available, records the composite pass and returns the output; without
    it, it returns the scene colour. *)
Lemma composite_block_run (SceneTexture : FRDGTexture) (SceneRect : FIntRect)
  (Override : FScreenPassRenderTarget) (Blurred : FRDGTextureRef)
  (s : RenderState) :
  exists r s' ts ps,
    CompositeBlock View GlobalShaderMap ActiveComponent (SceneOf SceneTexture SceneRect) false
      DownsampledExtent DownsampledRect Override SceneTexture Blurred s
    = Return r s'
    /\ GraphAdds (GraphBuilder s) (GraphBuilder s') ts ps
    /\ exists Output,
         OutputChosen (SceneOf SceneTexture SceneRect) Override Output ts
         /\ if HasShader GlobalShaderMap CompositePS
            then r = FScreenPassRenderTarget.ToTexture Output
                 /\ exists p, ps = [p]
                      /\ PixelShader p
                         = TShaderMapRef.Lookup GlobalShaderMap CompositePS
                      /\ CompositeRecorded ActiveComponent (SceneOf SceneTexture SceneRect)
                           DownsampledExtent DownsampledRect Output Blurred p
            else r = (SceneOf SceneTexture SceneRect) /\ ps = [].
Proof.
  unfold CompositeBlock, OutputChosen, TShaderMapRef.Lookup.
  cbn [TShaderMapRef.IsValid].
  destruct Override as [OT OR OA].
  destruct SceneTexture as [SH SN [[SX SY] SF SC SL]].
  unfold FScreenPassRenderTarget.IsValid.
  cbn [FScreenPassRenderTarget.Texture FScreenPassRenderTarget.ViewRect].
  destruct (HasShader GlobalShaderMap CompositePS) eqn:Hc;
    destruct OT as [[OH ON [[OX OY] OF OC OL]]|];
    [destruct (FIntRect.IsEmpty OR) eqn:HR | |
     destruct (FIntRect.IsEmpty OR) eqn:HR | ].
  all: cbn [negb].
  all: run_stmt.
  all: eexists; split;
    [first [split; reflexivity
           | eexists; repeat split; reflexivity]|].
  all: first [split; reflexivity
             | split; [reflexivity|]; eexists; split; [reflexivity|];
               split; [reflexivity|];
               unfold CompositeRecorded; cbn;
               repeat split; eexists _, _; repeat split].
Qed.

End BlockRuns2.

(** ** The passes of a call *)

Lemma CreateTexture_run (D : FRDGTextureDesc) (N : string) (s : RenderState) :
  exists T s',
    CreateTexture D N s = Next (Some T) s'
    /\ GraphAdds (GraphBuilder s) (GraphBuilder s') [T] []
    /\ Name T = N /\ Desc T = D.
Proof.
  eexists _, _. split; [reflexivity|]. unfold GraphAdds, Appended. simpl.
  rewrite app_nil_r. repeat split.
Qed.

Lemma EBloomMode_eqb_eq (a b : EBloomMode) :
  EBloomMode_eqb a b = true <-> a = b.
Proof.
  destruct a, b; split; intros H; try reflexivity; discriminate.
Qed.

Section BloomRun.

Variables FMath_Cos FMath_Sin : float -> float.
Variable View : FViewInfo.
Variable GlobalShaderMap : FGlobalShaderMap.
Variable ActiveComponent : UBloomFXComponent.
Variable Divisor : Z.
Variable DownsampledExtent : FIntPoint.
Variable DownsampledRect : FIntRect.

Local Abbreviation SceneOf SceneTexture SceneRect :=
  (FScreenPassTexture.mk (Some SceneTexture) SceneRect).
Local Abbreviation BrightPassDesc :=
  (FRDGTextureDesc.Create2D DownsampledExtent PF_FloatR11G11B10 ClearBlack
     (Z.lor TexCreate_ShaderResource TexCreate_RenderTargetable)).

(** The three blur blocks in a row end with a bloom texture and record
    the blur stage. *)
Lemma blur_stage_run (SceneTexture : FRDGTexture) (SceneRect : FIntRect)
  (BrightPassTexture : FRDGTextureRef)
  (k : FRDGTextureRef -> Stmt unit) (s : RenderState) :
  exists Blurred s' ts ps,
    bind
      (DirectionalGlareBlock FMath_Cos FMath_Sin View GlobalShaderMap
         ActiveComponent false Divisor DownsampledExtent DownsampledRect
         BrightPassDesc BrightPassTexture)
      (fun B1 =>
         bind
           (KawaseBlock View GlobalShaderMap ActiveComponent
              (SceneOf SceneTexture SceneRect) false
              DownsampledExtent DownsampledRect BrightPassDesc
              BrightPassTexture SceneTexture B1)
           (fun B2 =>
              bind
                (StandardBlurBlock View GlobalShaderMap ActiveComponent
                   DownsampledExtent DownsampledRect BrightPassDesc
                   BrightPassTexture B2)
                k)) s
    = k Blurred s'
    /\ GraphAdds (GraphBuilder s) (GraphBuilder s') ts ps
    /\ BlurStageRecorded GlobalShaderMap ActiveComponent (Some SceneTexture)
         DownsampledExtent DownsampledRect BrightPassTexture ps Blurred
    /\ Blurred <> None.
Proof.
  unfold BlurStageRecorded.
  destruct (BloomMode ActiveComponent) eqn:Hmode.
  all: try assert (BloomMode ActiveComponent <> DirectionalGlare) as NotGlare
    by (rewrite Hmode; discriminate).
  all: try assert (BloomMode ActiveComponent <> Kawase) as NotKawase
    by (rewrite Hmode; discriminate).
  - (* Standard *)
    erewrite (bind_Next _ _ _ _ _ (glare_block_skip _ _ _ _ _ _ _ _ _ _ _ _ NotGlare)).
    erewrite (bind_Next _ _ _ _ _
                (kawase_block_skip _ _ _ _ _ _ _ _ _ _ _ (or_introl NotKawase))).
    destruct (standard_block_run View GlobalShaderMap ActiveComponent
                DownsampledExtent DownsampledRect BrightPassTexture s)
      as (B & s' & ts & ps & E & HA & HS & HB).
    rewrite (bind_Next _ _ _ _ _ E). now exists B, s', ts, ps.
  - (* DirectionalGlare *)
    destruct (HasShader GlobalShaderMap GlareStreakPS) eqn:Hstreak;
      [destruct (HasShader GlobalShaderMap GlareAccumulatePS) eqn:Haccum|].
    + destruct (glare_block_run FMath_Cos FMath_Sin View GlobalShaderMap
                  ActiveComponent Divisor DownsampledExtent DownsampledRect
                  BrightPassTexture s Hmode Hstreak Haccum)
        as (B & s' & ts & ps & E & HA & HG & HB).
      rewrite (bind_Next _ _ _ _ _ E).
      erewrite (bind_Next _ _ _ _ _
                  (kawase_block_skip _ _ _ _ _ _ _ _ _ _ _
                     (or_introl NotKawase))).
      destruct B as [T|]; [|congruence].
      rewrite (bind_Next _ _ _ _ _ (standard_block_skip _ _ _ _ _ _ _ _ _)).
      now exists (Some T), s', ts, ps.
    + destruct (glare_block_no_accumulate FMath_Cos FMath_Sin View
                  GlobalShaderMap ActiveComponent Divisor DownsampledExtent
                  DownsampledRect BrightPassTexture s Hmode Hstreak Haccum)
        as (B & s1 & ts1 & ps1 & E1 & HA1 & -> & HK & HL).
      rewrite (bind_Next _ _ _ _ _ E1).
      erewrite (bind_Next _ _ _ _ _
                  (kawase_block_skip _ _ _ _ _ _ _ _ _ _ _
                     (or_introl NotKawase))).
      destruct (standard_block_run View GlobalShaderMap ActiveComponent
                  DownsampledExtent DownsampledRect BrightPassTexture s1)
        as (B & s' & ts & ps & E & HA & HS & HB).
      rewrite (bind_Next _ _ _ _ _ E).
      exists B, s', (ts1 ++ ts), (ps1 ++ ps).
      split; [reflexivity|]. split; [|split; [|exact HB]].
      * exact (GraphAdds_trans _ _ _ _ _ _ _ HA1 HA).
      * now exists ps1, ps.
    + rewrite (bind_Next _ _ _ _ _
                 (glare_block_no_streak FMath_Cos FMath_Sin View GlobalShaderMap
                    ActiveComponent Divisor DownsampledExtent DownsampledRect
                    BrightPassTexture s Hmode Hstreak)).
      erewrite (bind_Next _ _ _ _ _
                  (kawase_block_skip _ _ _ _ _ _ _ _ _ _ _
                     (or_introl NotKawase))).
      destruct (standard_block_run View GlobalShaderMap ActiveComponent
                  DownsampledExtent DownsampledRect BrightPassTexture s)
        as (B & s' & ts & ps & E & HA & HS & HB).
      rewrite (bind_Next _ _ _ _ _ E). now exists B, s', ts, ps.
  - (* Kawase *)
    erewrite (bind_Next _ _ _ _ _ (glare_block_skip _ _ _ _ _ _ _ _ _ _ _ _ NotGlare)).
    destruct (HasShader GlobalShaderMap KawaseDownsamplePS) eqn:Hdown;
      [destruct (HasShader GlobalShaderMap KawaseUpsamplePS) eqn:Hup|];
      cbn [andb].
    + destruct (kawase_block_run View GlobalShaderMap ActiveComponent
                  DownsampledExtent DownsampledRect BrightPassTexture
                  SceneTexture SceneRect s Hmode Hdown Hup)
        as (B & s' & ts & ps & E & HA & HG & HB).
      rewrite (bind_Next _ _ _ _ _ E).
      destruct B as [T|]; [|congruence].
      rewrite (bind_Next _ _ _ _ _ (standard_block_skip _ _ _ _ _ _ _ _ _)).
      now exists (Some T), s', ts, ps.
    + erewrite (bind_Next _ _ _ _ _
                  (kawase_block_skip _ _ _ _ _ _ _ _ _ _ _
                     (or_intror (or_intror (or_intror Hup))))).
      destruct (standard_block_run View GlobalShaderMap ActiveComponent
                  DownsampledExtent DownsampledRect BrightPassTexture s)
        as (B & s' & ts & ps & E & HA & HS & HB).
      rewrite (bind_Next _ _ _ _ _ E). now exists B, s', ts, ps.
    + erewrite (bind_Next _ _ _ _ _
                  (kawase_block_skip _ _ _ _ _ _ _ _ _ _ _
                     (or_intror (or_intror (or_introl Hdown))))).
      destruct (standard_block_run View GlobalShaderMap ActiveComponent
                  DownsampledExtent DownsampledRect BrightPassTexture s)
        as (B & s' & ts & ps & E & HA & HS & HB).
      rewrite (bind_Next _ _ _ _ _ E). now exists B, s', ts, ps.
  - (* SoftFocus *)
    erewrite (bind_Next _ _ _ _ _ (glare_block_skip _ _ _ _ _ _ _ _ _ _ _ _ NotGlare)).
    erewrite (bind_Next _ _ _ _ _
                (kawase_block_skip _ _ _ _ _ _ _ _ _ _ _ (or_introl NotKawase))).
    destruct (standard_block_run View GlobalShaderMap ActiveComponent
                DownsampledExtent DownsampledRect BrightPassTexture s)
      as (B & s' & ts & ps & E & HA & HS & HB).
    rewrite (bind_Next _ _ _ _ _ E). now exists B, s', ts, ps.
Qed.

(** With the bright pass shader available and no logging, the call runs
    to its final [return] and records the effect. *)
Lemma BloomPasses_run_quiet (Inputs : FPostProcessMaterialInputs)
  (SceneTexture : FRDGTexture) (s : RenderState) :
  FScreenPassTexture.Texture (SceneColor Inputs) = Some SceneTexture ->
  HasShader GlobalShaderMap BrightPassPS = true ->
  exists r s' ts ps,
    BloomPasses FMath_Cos FMath_Sin View GlobalShaderMap ActiveComponent
      Inputs SceneTexture false Divisor DownsampledExtent DownsampledRect s
    = Return r s'
    /\ GraphAdds (GraphBuilder s) (GraphBuilder s') ts ps
    /\ BloomRecorded GlobalShaderMap ActiveComponent (SceneColor Inputs)
         (OverrideOutput Inputs) DownsampledExtent DownsampledRect r ts ps.
Proof.
  destruct Inputs as [[ST SceneRect] Override].
  cbn [SceneColor FScreenPassTexture.Texture OverrideOutput]. intros ->.
  intros Hbright. unfold BloomPasses.
  cbn [SceneColor OverrideOutput].
  destruct (CreateTexture_run BrightPassDesc "ClassicBloom.BrightPass" s)
    as (T & s1 & E1 & A1 & HN & HD).
  rewrite (bind_Next _ _ _ _ _ E1).
  destruct (bright_pass_run View GlobalShaderMap ActiveComponent
              DownsampledExtent DownsampledRect (Some T) SceneTexture
              SceneRect s1 Hbright)
    as (u & s2 & ts2 & ps2 & E2 & A2 & -> & bp & -> & HB).
  rewrite (bind_Next _ _ _ _ _ E2).
  match goal with
  | |- exists r s' ts ps, bind _ (fun B1 => bind _ (fun B2 => bind _ ?k)) _ = _ /\ _ =>
      destruct (blur_stage_run SceneTexture SceneRect (Some T) k s2)
        as (Blurred & s3 & ts3 & ps3 & E3 & A3 & HS & HNN)
  end.
  rewrite E3.
  destruct (composite_block_run View GlobalShaderMap ActiveComponent
              DownsampledExtent DownsampledRect SceneTexture SceneRect
              Override Blurred s3)
    as (r & s4 & ts4 & ps4 & E4 & A4 & Output & HO & HC).
  exists r, s4, ([T] ++ [] ++ ts3 ++ ts4), ([] ++ [bp] ++ ps3 ++ ps4).
  split; [exact E4|]. split.
  - exact (GraphAdds_trans _ _ _ _ _ _ _ A1
             (GraphAdds_trans _ _ _ _ _ _ _ A2
                (GraphAdds_trans _ _ _ _ _ _ _ A3 A4))).
  - exists T, bp, ts3, ps3, Blurred, Output, ts4, ps4.
    split; [reflexivity|]. split; [reflexivity|]. split; [exact HN|].
    split; [now rewrite HD|]. split; [exact HB|]. split; [exact HS|].
    split; [exact HNN|]. split; [exact HO|].
    destruct (HasShader GlobalShaderMap CompositePS);
        [destruct HC as (-> & p & -> & Hp); split; [reflexivity | now exists p]
        | destruct HC as (-> & ->); now split].
Qed.

End BloomRun.

(** ** The whole function *)

Lemma Forall2_eq_eq {A : Type} (l l' : list A) : Forall2 eq l l' -> l = l'.
Proof. induction 1; congruence. Qed.

Lemma GraphRel_eq (g g' : FRDGBuilder) : GraphRel eq g g' -> g = g'.
Proof.
  destruct g, g'. intros (Hn & Ht & Hp). simpl in *.
  apply Forall2_eq_eq in Hp. congruence.
Qed.

Lemma Forall2_refl {A : Type} (R : A -> A -> Prop) (l : list A) :
  (forall a, R a a) -> Forall2 R l l.
Proof. intros H. induction l; constructor; auto. Qed.

Lemma StateRel_refl (PR : FRDGPass -> FRDGPass -> Prop) (s : RenderState) :
  (forall p, PR p p) -> StateRel PR s s.
Proof.
  intros H. repeat split. now apply Forall2_refl.
Qed.

Lemma Quiet_ret {A : Type} (a : A) : Quiet (ret a).
Proof. intros s. now exists a, s. Qed.

Lemma Quiet_bind {A B : Type} (m : Stmt A) (k : A -> Stmt B) :
  Quiet m -> (forall a, Quiet (k a)) -> Quiet (bind m k).
Proof.
  intros Hm Hk s. destruct (Hm s) as (a & s1 & E1 & G1).
  destruct (Hk a s1) as (b & s2 & E2 & G2).
  exists b, s2. unfold bind. rewrite E1. split; congruence.
Qed.

Lemma Quiet_LogOnly (m : Stmt unit) : LogOnly m -> Quiet m.
Proof.
  intros H s. destruct (H s) as (s' & E & G & _). now exists tt, s'.
Qed.

Lemma Quiet_GetLastLogTime : Quiet GetLastLogTime.
Proof. intros s. now exists (LastLogTime s), s. Qed.

Lemma Quiet_SetLastLogTime (T : double) : Quiet (SetLastLogTime T).
Proof. intros s. eexists tt, _. split; reflexivity. Qed.

(** The debug header writes to the log and to the static time stamp
    only. *)
Lemma LogFrameInfo_run (View : FViewInfo) (c : UBloomFXComponent)
  (E : FIntPoint) (R : FIntRect) (T : double) :
  Quiet (LogFrameInfo View c E R T).
Proof.
  unfold LogFrameInfo.
  apply Quiet_bind; [apply Quiet_GetLastLogTime|]. intros LastTime.
  apply Quiet_bind; [|intros ?; apply Quiet_ret].
  destruct (bEnableDebugLogging c
            && Double.ltb d_1 (Double.sub T LastTime)); cbn [when].
  - apply Quiet_bind; [apply Quiet_SetLastLogTime|]. intros _.
    apply Quiet_LogOnly. log_only.
  - apply Quiet_ret.
Qed.

(** With debug logging off the header writes nothing and answers
    [false]. *)
Lemma LogFrameInfo_off (View : FViewInfo) (c : UBloomFXComponent)
  (E : FIntPoint) (R : FIntRect) (T : double) (s : RenderState) :
  bEnableDebugLogging c = false ->
  LogFrameInfo View c E R T s = Next false s.
Proof.
  intros H. unfold LogFrameInfo. rewrite H. reflexivity.
Qed.

(** Two components with the same debug switch write related headers. *)
Lemma Related_LogFrameInfo (PR : FRDGPass -> FRDGPass -> Prop)
  (View View' : FViewInfo) (c c' : UBloomFXComponent)
  (E E' : FIntPoint) (R R' : FIntRect) (T : double) :
  bEnableDebugLogging c = bEnableDebugLogging c' ->
  Related PR (LogFrameInfo View c E R T) (LogFrameInfo View' c' E' R' T).
Proof.
  intros Hd. unfold LogFrameInfo. rewrite Hd.
  apply Related_bind; [apply Related_GetLastLogTime|]. intros LastTime.
  apply Related_bind; [|intros ?; apply Related_ret].
  destruct (bEnableDebugLogging c'
            && Double.ltb d_1 (Double.sub T LastTime)).
  - cbn [when]. apply Related_bind; [apply Related_SetLastLogTime|]. intros _.
    apply Related_LogOnly; log_only.
  - cbn [when]. apply Related_ret.
Qed.

Section AnyLog.

Variables FMath_Cos FMath_Sin : float -> float.
Variable View : FViewInfo.
Variable Shaders : FGlobalShaderMap.
Variable c : UBloomFXComponent.
Variable Divisor : Z.
Variable DownsampledExtent : FIntPoint.
Variable DownsampledRect : FIntRect.

(** With the bright pass shader available the call runs to its final
    [return] and records the effect, logging or not. *)
Lemma BloomPasses_run (Inputs : FPostProcessMaterialInputs)
  (SceneTexture : FRDGTexture) (bShouldLog : bool) (s : RenderState) :
  FScreenPassTexture.Texture (SceneColor Inputs) = Some SceneTexture ->
  HasShader Shaders BrightPassPS = true ->
  exists r s' ts ps,
    BloomPasses FMath_Cos FMath_Sin View Shaders c Inputs SceneTexture
      bShouldLog Divisor DownsampledExtent DownsampledRect s
    = Return r s'
    /\ GraphAdds (GraphBuilder s) (GraphBuilder s') ts ps
    /\ BloomRecorded Shaders c (SceneColor Inputs) (OverrideOutput Inputs)
         DownsampledExtent DownsampledRect r ts ps.
Proof.
  intros Ht Hb.
  destruct (BloomPasses_run_quiet FMath_Cos FMath_Sin View Shaders c Divisor
              DownsampledExtent DownsampledRect Inputs SceneTexture s Ht Hb)
    as (r & s' & ts & ps & E & HA & HR).
  pose proof (Related_BloomPasses FMath_Cos FMath_Sin View eq Shaders Shaders
                (fun p => eq_refl) (fun N P V => eq_refl) (fun S _ => eq_refl)
                c Inputs SceneTexture bShouldLog false Divisor
                DownsampledExtent DownsampledRect s s
                (StateRel_refl eq s (fun p => eq_refl))) as H.
  rewrite E in H.
  destruct (BloomPasses FMath_Cos FMath_Sin View Shaders c Inputs SceneTexture
              bShouldLog Divisor DownsampledExtent DownsampledRect s)
    as [a s2|r2 s2|why]; try contradiction.
  destruct H as (-> & Hg & _). apply GraphRel_eq in Hg.
  exists r, s2, ts, ps. rewrite Hg. auto.
Qed.

(** Without the bright pass shader the call returns the scene colour; the
    bright pass texture has been created by then. *)
Lemma BloomPasses_unavailable (Inputs : FPostProcessMaterialInputs)
  (SceneTexture : FRDGTexture) (bShouldLog : bool) (s : RenderState) :
  FScreenPassTexture.Texture (SceneColor Inputs) = Some SceneTexture ->
  HasShader Shaders BrightPassPS = false ->
  exists T s',
    BloomPasses FMath_Cos FMath_Sin View Shaders c Inputs SceneTexture
      bShouldLog Divisor DownsampledExtent DownsampledRect s
    = Return (SceneColor Inputs) s'
    /\ GraphAdds (GraphBuilder s) (GraphBuilder s') [T] []
    /\ Name T = "ClassicBloom.BrightPass"
    /\ FRDGTextureDesc.Extent (Desc T) = DownsampledExtent.
Proof.
  destruct Inputs as [[ST SceneRect] Override].
  cbn [SceneColor FScreenPassTexture.Texture OverrideOutput]. intros -> Hb.
  unfold BloomPasses. cbn [SceneColor OverrideOutput].
  match goal with
  | |- context [CreateTexture ?D ?N] =>
      destruct (CreateTexture_run D N s) as (T & s1 & E1 & A1 & HN & HD)
  end.
  rewrite (bind_Next _ _ _ _ _ E1).
  erewrite bind_Return by (now apply bright_pass_unavailable).
  exists T, s1. rewrite HD. auto.
Qed.

End AnyLog.

Section Pipeline.

Variables FMath_Cos FMath_Sin : float -> float.
Variable View : FViewInfo.
Variable Inputs : FPostProcessMaterialInputs.
Variable WeakSubsystem : option UClassicBloomSubsystem.
Variable Objects : ObjectId -> option UBloomFXComponent.
Variable CurrentTime : double.
Variable Shaders : FGlobalShaderMap.
Variable c : UBloomFXComponent.
Variable SceneTexture : FRDGTexture.

Hypothesis Open :
  GateOpen View Inputs WeakSubsystem Objects Shaders c SceneTexture.

Local Abbreviation ViewRect := (FScreenPassTexture.ViewRect (SceneColor Inputs)).

(** Past the gate the function is the debug header followed by the
    passes. *)
Lemma pipeline_open (s : RenderState) :
  PostProcessPass_RenderThread FMath_Cos FMath_Sin View Inputs WeakSubsystem
    Objects CurrentTime s
  = bind
      (LogFrameInfo View c (FRDGTextureDesc.Extent (Desc SceneTexture))
         ViewRect CurrentTime)
      (fun bShouldLog =>
         BloomPasses FMath_Cos FMath_Sin View Shaders c Inputs SceneTexture
           bShouldLog (BloomDivisor c) (BloomDownsampledExtent c ViewRect)
           (BloomDownsampledRect c ViewRect))
      s.
Proof.
  destruct Open as [Ht Hr Hrc Hsc Hvi Hre Hpp Hw Hsm (S & -> & Hc) Hi Hd].
  unfold PostProcessPass_RenderThread, FScreenPassTexture.IsValid.
  rewrite Ht, (NoArea_not_empty _ Hr), Hrc, Hsc, Hvi, Hre, Hpp, Hw, Hsm.
  rewrite (FindActiveComponent_first _ _ _ Hc), Hi.
  cbn [negb orb andb].
  unfold NoArea in Hr, Hd.
  unfold bind, Deref, ret. cbv beta iota.
  destruct (LogFrameInfo View c (FRDGTextureDesc.Extent (Desc SceneTexture))
              ViewRect CurrentTime s) as [b s1|r s1|why]; try reflexivity.
  rewrite Hr, Hd. reflexivity.
Qed.

(** Past the gate and with the bright pass shader available, the
    function returns and records the effect. *)
Lemma pipeline_run (s : RenderState) :
  HasShader Shaders BrightPassPS = true ->
  exists r s' ts ps,
    PostProcessPass_RenderThread FMath_Cos FMath_Sin View Inputs WeakSubsystem
      Objects CurrentTime s
    = Return r s'
    /\ GraphAdds (GraphBuilder s) (GraphBuilder s') ts ps
    /\ BloomRecorded Shaders c (SceneColor Inputs) (OverrideOutput Inputs)
         (BloomDownsampledExtent c ViewRect) (BloomDownsampledRect c ViewRect)
         r ts ps.
Proof.
  intros Hb. rewrite pipeline_open.
  destruct (LogFrameInfo_run View c
              (FRDGTextureDesc.Extent (Desc SceneTexture)) ViewRect
              CurrentTime s) as (b & s1 & E1 & G1).
  rewrite (bind_Next _ _ _ _ _ E1), <- G1.
  apply BloomPasses_run; [apply Open | exact Hb].
Qed.

(** Past the gate and without the bright pass shader, the function
    returns the scene colour, having created the bright pass texture. *)
Lemma pipeline_bright_unavailable (s : RenderState) :
  HasShader Shaders BrightPassPS = false ->
  exists T s',
    PostProcessPass_RenderThread FMath_Cos FMath_Sin View Inputs WeakSubsystem
      Objects CurrentTime s
    = Return (SceneColor Inputs) s'
    /\ GraphAdds (GraphBuilder s) (GraphBuilder s') [T] []
    /\ Name T = "ClassicBloom.BrightPass"
    /\ FRDGTextureDesc.Extent (Desc T) = BloomDownsampledExtent c ViewRect.
Proof.
  intros Hb. rewrite pipeline_open.
  destruct (LogFrameInfo_run View c
              (FRDGTextureDesc.Extent (Desc SceneTexture)) ViewRect
              CurrentTime s) as (b & s1 & E1 & G1).
  rewrite (bind_Next _ _ _ _ _ E1), <- G1.
  apply BloomPasses_unavailable; [apply Open | exact Hb].
Qed.

End Pipeline.

(** ** The gate, case by case *)

(** A call either returns at once; or passes the tests on the view, the
    subsystem and the component, writes the debug header when it is due,
    and returns because the view rectangle or the downsampled rectangle
    has no area; or passes the whole gate. *)
Lemma gate_cases (FMath_Cos FMath_Sin : float -> float) (View : FViewInfo)
  (Inputs : FPostProcessMaterialInputs)
  (WeakSubsystem : option UClassicBloomSubsystem)
  (Objects : ObjectId -> option UBloomFXComponent) (CurrentTime : double)
  (s : RenderState) :
  PostProcessPass_RenderThread FMath_Cos FMath_Sin View Inputs WeakSubsystem
    Objects CurrentTime s
  = Return (SceneColor Inputs) s
  \/ (exists Subsystem c s',
        WeakSubsystem = Some Subsystem
        /\ FirstActiveComponent Objects (BloomComponents Subsystem) c
        /\ FScreenPassTexture.IsValid (SceneColor Inputs) = true
        /\ (NoArea (FScreenPassTexture.ViewRect (SceneColor Inputs)) = true
            \/ NoArea
                 (BloomDownsampledRect c
                    (FScreenPassTexture.ViewRect (SceneColor Inputs))) = true)
        /\ PostProcessPass_RenderThread FMath_Cos FMath_Sin View Inputs
             WeakSubsystem Objects CurrentTime s
           = Return (SceneColor Inputs) s'
        /\ GraphBuilder s' = GraphBuilder s
        /\ (bEnableDebugLogging c = false -> s' = s))
  \/ (exists Shaders c SceneTexture,
        GateOpen View Inputs WeakSubsystem Objects Shaders c SceneTexture).
Proof.
  unfold PostProcessPass_RenderThread.
  destruct (FScreenPassTexture.IsValid (SceneColor Inputs)) eqn:Hvalid;
    [|now left].
  cbn [negb].
  destruct (bIsReflectionCapture View) eqn:Hrc; [now left|].
  destruct (bIsSceneCapture View) eqn:Hsc; [now left|].
  destruct (bIsViewInfo View) eqn:Hvi; [|now left].
  cbn [negb orb].
  destruct (Rendering (EngineShowFlags (Family View))) eqn:Hr; [|now left].
  destruct (PostProcessing (EngineShowFlags (Family View))) eqn:Hp;
    [|now left].
  destruct (Wireframe (EngineShowFlags (Family View))) eqn:Hw; [now left|].
  cbn [negb orb].
  destruct (ShaderMap View) as [Shaders|] eqn:Hsm; [|now left].
  destruct WeakSubsystem as [Subsystem|]; [|now left].
  destruct (FindActiveComponent Objects (BloomComponents Subsystem))
    as [c|] eqn:Hfind; [|now left].
  destruct (Float.leb (BloomIntensity c) f_0) eqn:Hint; [now left|].
  apply FindActiveComponent_Some in Hfind.
  pose proof Hvalid as Hv.
  unfold FScreenPassTexture.IsValid in Hv.
  destruct (FScreenPassTexture.Texture (SceneColor Inputs))
    as [SceneTexture|] eqn:Ht; [clear Hv|discriminate].
  destruct (LogFrameInfo_run View c
              (FRDGTextureDesc.Extent (Desc SceneTexture))
              (FScreenPassTexture.ViewRect (SceneColor Inputs))
              CurrentTime s) as (b & s1 & E1 & G1).
  assert (bEnableDebugLogging c = false -> s1 = s) as Hoff.
  { intros Hoff. rewrite LogFrameInfo_off in E1 by exact Hoff. congruence. }
  destruct (NoArea (FScreenPassTexture.ViewRect (SceneColor Inputs))) eqn:Hna.
  - right. left. exists Subsystem, c, s1.
    split; [reflexivity|]. split; [exact Hfind|]. split; [reflexivity|].
    split; [now left|]. split; [|split; [exact G1 | exact Hoff]].
    unfold NoArea in Hna.
    unfold bind, Deref, ret. cbv beta iota. rewrite E1, Hna. reflexivity.
  - destruct (NoArea
                (BloomDownsampledRect c
                   (FScreenPassTexture.ViewRect (SceneColor Inputs)))) eqn:Hd.
    + right. left. exists Subsystem, c, s1.
      split; [reflexivity|]. split; [exact Hfind|]. split; [reflexivity|].
      split; [now right|]. split; [|split; [exact G1 | exact Hoff]].
      unfold NoArea in Hna, Hd.
      unfold bind, Deref, ret. cbv beta iota. rewrite E1, Hna, Hd.
      reflexivity.
    + right. right. exists Shaders, c, SceneTexture.
      constructor; try assumption. now exists Subsystem.
Qed.

(** Every call returns. *)
Lemma always_returns (FMath_Cos FMath_Sin : float -> float) (View : FViewInfo)
  (Inputs : FPostProcessMaterialInputs)
  (WeakSubsystem : option UClassicBloomSubsystem)
  (Objects : ObjectId -> option UBloomFXComponent) (CurrentTime : double)
  (s : RenderState) :
  exists r s',
    PostProcessPass_RenderThread FMath_Cos FMath_Sin View Inputs WeakSubsystem
      Objects CurrentTime s
    = Return r s'.
Proof.
  destruct (gate_cases FMath_Cos FMath_Sin View Inputs WeakSubsystem Objects
              CurrentTime s)
    as [E | [(S & c & s' & _ & _ & _ & _ & E & _) | (Sh & c & T & Open)]].
  - eauto.
  - eauto.
  - destruct (HasShader Sh BrightPassPS) eqn:Hb.
    + destruct (pipeline_run FMath_Cos FMath_Sin View Inputs WeakSubsystem
                  Objects CurrentTime Sh c T Open s Hb)
        as (r & s' & _ & _ & E & _).
      eauto.
    + destruct (pipeline_bright_unavailable FMath_Cos FMath_Sin View Inputs
                  WeakSubsystem Objects CurrentTime Sh c T Open s Hb)
        as (_ & s' & E & _).
      eauto.
Qed.

(** C4. The call returns the scene colour input and records nothing in
    the graph whenever the view is a reflection capture, a scene capture
    or not a view of the renderer; rendering or post-processing is off or
    wireframe is on; the scene colour has no texture or a view rectangle
    without width or height; no registered component is live and active;
    or the first live and active component has an intensity that is not
    above zero. Every such return but one leaves the whole state as it
    was. The exception is the test of the view rectangle at line 307: the
    scene colour counts as invalid at line 174 only when it has no texture
    or when width and height are both zero, so a rectangle with one side
    of zero or negative length is turned away after the debug header,
    which is written when the component asks for it. *)
Theorem activation_gate_rejects
  (FMath_Cos FMath_Sin : float -> float) (View : FViewInfo)
  (Inputs : FPostProcessMaterialInputs)
  (WeakSubsystem : option UClassicBloomSubsystem)
  (Objects : ObjectId -> option UBloomFXComponent)
  (CurrentTime : double) (s : RenderState) :
  let Scene := SceneColor Inputs in
  let Rect := FScreenPassTexture.ViewRect Scene in
  (bIsReflectionCapture View = true
   \/ bIsSceneCapture View = true
   \/ bIsViewInfo View = false
   \/ Rendering (EngineShowFlags (Family View)) = false
   \/ PostProcessing (EngineShowFlags (Family View)) = false
   \/ Wireframe (EngineShowFlags (Family View)) = true
   \/ FScreenPassTexture.Texture Scene = None
   \/ (FIntRect.Width Rect = 0 /\ FIntRect.Height Rect = 0)
   \/ (forall Subsystem, WeakSubsystem = Some Subsystem ->
         NoActiveComponent Objects (BloomComponents Subsystem))
   \/ (exists Subsystem c,
         WeakSubsystem = Some Subsystem
         /\ FirstActiveComponent Objects (BloomComponents Subsystem) c
         /\ Float.leb (BloomIntensity c) f_0 = true) ->
   PostProcessPass_RenderThread FMath_Cos FMath_Sin View Inputs WeakSubsystem
     Objects CurrentTime s
   = Return Scene s)
  /\ (FIntRect.Width Rect <= 0 \/ FIntRect.Height Rect <= 0 ->
      exists s',
        PostProcessPass_RenderThread FMath_Cos FMath_Sin View Inputs
          WeakSubsystem Objects CurrentTime s
        = Return Scene s'
        /\ GraphBuilder s' = GraphBuilder s
        /\ ((forall Subsystem c,
               WeakSubsystem = Some Subsystem ->
               FirstActiveComponent Objects (BloomComponents Subsystem) c ->
               bEnableDebugLogging c = false) ->
            s' = s)).
Proof.
  intros Scene Rect. split.
  - intros Hgate. unfold PostProcessPass_RenderThread.
    destruct (FScreenPassTexture.IsValid (SceneColor Inputs)) eqn:Hvalid;
      [|reflexivity].
    cbn [negb].
    destruct (bIsReflectionCapture View) eqn:Hrc; [reflexivity|].
    destruct (bIsSceneCapture View) eqn:Hsc; [reflexivity|].
    destruct (bIsViewInfo View) eqn:Hvi; [|reflexivity].
    cbn [negb orb].
    destruct (Rendering (EngineShowFlags (Family View))) eqn:Hr;
      [|reflexivity].
    destruct (PostProcessing (EngineShowFlags (Family View))) eqn:Hp;
      [|reflexivity].
    destruct (Wireframe (EngineShowFlags (Family View))) eqn:Hw;
      [reflexivity|].
    cbn [negb orb].
    destruct (ShaderMap View) as [GlobalShaderMap|]; [|reflexivity].
    destruct WeakSubsystem as [Subsystem|]; [|reflexivity].
    destruct (FindActiveComponent Objects (BloomComponents Subsystem))
      as [ActiveComponent|] eqn:Hfind; [|reflexivity].
    destruct (Float.leb (BloomIntensity ActiveComponent) f_0) eqn:Hint;
      [reflexivity|].
    exfalso.
    unfold FScreenPassTexture.IsValid, FIntRect.IsEmpty in Hvalid.
    fold Scene Rect in Hvalid.
    destruct Hgate as [H|[H|[H|[H|[H|[H|[H|[H|[H|H]]]]]]]]];
      try discriminate.
    + rewrite H in Hvalid. discriminate.
    + destruct H as (HW & HH). rewrite HW, HH in Hvalid.
      destruct (FScreenPassTexture.Texture Scene); discriminate.
    + rewrite (FindActiveComponent_None _ _ (H Subsystem eq_refl)) in Hfind.
      discriminate.
    + destruct H as (S' & c & [= <-] & Hfirst & Hle).
      rewrite (FindActiveComponent_first _ _ _ Hfirst) in Hfind.
      injection Hfind as <-. congruence.
  - intros Hrect.
    destruct (gate_cases FMath_Cos FMath_Sin View Inputs WeakSubsystem Objects
                CurrentTime s)
      as [E | [(S & c & s' & HS & Hc & _ & _ & E & G & Hoff)
              | (Sh & c & T & Open)]].
    + exists s. auto.
    + exists s'. split; [exact E|]. split; [exact G|].
      intros Hall. apply Hoff. exact (Hall S c HS Hc).
    + exfalso. pose proof (gate_rect _ _ _ _ _ _ _ Open) as Hna.
      unfold NoArea in Hna. fold Scene Rect in Hna.
      apply orb_false_elim in Hna. destruct Hna as (H1 & H2).
      apply Z.leb_gt in H1, H2. lia.
Qed.

(** The gate at a component whose intensity is zero, and at a view
    rectangle of no width seen by a component that logs: the scene colour
    comes back, the graph is as it was, and the debug header of sixteen
    lines has been written. *)
Lemma activation_gate_rejects_witness :
  let NoWidth :=
    {| SceneColor :=
         FScreenPassTexture.mk (Some SampleSceneTexture)
           (FIntRect.mk (FIntPoint.mk 8 0) (FIntPoint.mk 8 720));
       OverrideOutput := OverrideOutput SampleInputs |} in
  Outcome (SampleRun AllShaders (SampleComponentAt Standard f_0))
  = Some (SceneColor SampleInputs, SampleState)
  /\ exists s',
       PostProcessPass_RenderThread SampleCos SampleSin (SampleView AllShaders)
         NoWidth (Some SampleSubsystem) (SampleObjects SampleDebugComponent)
         d_2 SampleState
       = Return (SceneColor NoWidth) s'
       /\ GraphBuilder s' = GraphBuilder SampleState
       /\ List.length (LogOutput s') = 16%nat
       /\ LastLogTime s' = d_2.
Proof.
  intros NoWidth. split.
  - unfold SampleRun.
    destruct (activation_gate_rejects SampleCos SampleSin
                (SampleView AllShaders) SampleInputs (Some SampleSubsystem)
                (SampleObjects (SampleComponentAt Standard f_0)) d_1
                SampleState) as (Hearly & _).
    cbv zeta in Hearly. rewrite Hearly; [reflexivity|].
    do 9 right.
    eexists SampleSubsystem, _. split; [reflexivity|]. split.
    + exists [], 3%nat, []. repeat split. intros id c [].
    + reflexivity.
  - destruct (activation_gate_rejects SampleCos SampleSin
                (SampleView AllShaders) NoWidth (Some SampleSubsystem)
                (SampleObjects SampleDebugComponent) d_2 SampleState)
      as (_ & Hrect).
    destruct Hrect as (s' & E & G & _); [left; vm_compute; discriminate|].
    exists s'. split; [exact E|]. split; [exact G|].
    assert (Return (SceneColor NoWidth) s'
            = PostProcessPass_RenderThread SampleCos SampleSin
                (SampleView AllShaders) NoWidth (Some SampleSubsystem)
                (SampleObjects SampleDebugComponent) d_2 SampleState) as R
      by (symmetry; exact E).
    vm_compute in R. injection R as ->. split; reflexivity.
Defined.

(** ** The sample frame *)

Lemma SampleGate (Shaders : FGlobalShaderMap) (Mode : EBloomMode) :
  GateOpen (SampleView Shaders) SampleInputs (Some SampleSubsystem)
    (SampleObjects (SampleComponent Mode)) Shaders (SampleComponent Mode)
    SampleSceneTexture.
Proof.
  constructor; try reflexivity.
  exists SampleSubsystem. split; [reflexivity|].
  exists [], 3%nat, []. repeat split. intros id c [].
Qed.

Lemma SampleOverrideGate :
  GateOpen (SampleView AllShaders) SampleOverrideInputs (Some SampleSubsystem)
    (SampleObjects (SampleComponent Standard)) AllShaders
    (SampleComponent Standard) SampleSceneTexture.
Proof.
  constructor; try reflexivity.
  exists SampleSubsystem. split; [reflexivity|].
  exists [], 3%nat, []. repeat split. intros id c [].
Qed.

(** ** Directional glare *)

(** C1. In directional glare mode with the bright pass, streak and
    accumulate shaders available, the call returns (so no streak index was
    out of range) and the passes of the blur stage are those of
    [GlareRecorded] for K = clamp(GlareStreakCount, 2, 16): K streak
    passes into distinct textures, and accumulation passes that follow
    the plan of the specification -- the first reads streaks 0 to
    min(K,4)-1 and repeats streak 0 in unused slots, each later one reads
    the accumulation before it and up to three streaks from index 4, 7,
    10, ... The streak indices of the plan are exactly 0 to K-1. *)
Theorem glare_accumulation_merges_all_streaks
  (FMath_Cos FMath_Sin : float -> float) (View : FViewInfo)
  (Inputs : FPostProcessMaterialInputs)
  (WeakSubsystem : option UClassicBloomSubsystem)
  (Objects : ObjectId -> option UBloomFXComponent) (CurrentTime : double)
  (Shaders : FGlobalShaderMap) (c : UBloomFXComponent)
  (SceneTexture : FRDGTexture) (s : RenderState) :
  GateOpen View Inputs WeakSubsystem Objects Shaders c SceneTexture ->
  BloomMode c = DirectionalGlare ->
  HasShader Shaders BrightPassPS = true ->
  HasShader Shaders GlareStreakPS = true ->
  HasShader Shaders GlareAccumulatePS = true ->
  let K := FMath.Clamp (GlareStreakCount c) 2 16 in
  2 <= K <= 16
  /\ (2 <= GlareStreakCount c <= 16 -> K = GlareStreakCount c)
  /\ (forall i, In i (PlanIndices (AccumulationPlan K)) <-> 0 <= i < K)
  /\ exists r s' ts bp blur cps Blurred,
       PostProcessPass_RenderThread FMath_Cos FMath_Sin View Inputs
         WeakSubsystem Objects CurrentTime s
       = Return r s'
       /\ GraphAdds (GraphBuilder s) (GraphBuilder s') ts (bp :: blur ++ cps)
       /\ GlareRecorded K blur Blurred.
Proof.
  intros Open Hmode Hb Hs Ha K.
  assert (2 <= K <= 16) as HK by (now apply FMath_Clamp_int).
  split; [exact HK|]. split.
  { intros Hc. unfold K, FMath.Clamp. rewrite FMath_Max_int, FMath_Min_int. lia. }
  split; [now apply plan_indices|].
  destruct (pipeline_run FMath_Cos FMath_Sin View Inputs WeakSubsystem Objects
              CurrentTime Shaders c SceneTexture Open s Hb)
    as (r & s' & ts & ps & E & HA & HR).
  destruct HR as (T & bp & bts & blur & Blurred & Output & ots & cps
                  & -> & -> & _ & _ & _ & Hblur & _).
  unfold BlurStageRecorded in Hblur. rewrite Hmode, Hs, Ha in Hblur.
  now exists r, s', (T :: bts ++ ots), bp, blur, cps, Blurred.
Qed.

(** The sample frame in directional glare mode, with six streaks. *)
Lemma glare_accumulation_merges_all_streaks_witness :
  exists r s' ts bp blur cps Blurred,
    SampleRun AllShaders (SampleComponent DirectionalGlare) = Return r s'
    /\ GraphAdds (GraphBuilder SampleState) (GraphBuilder s') ts
         (bp :: blur ++ cps)
    /\ GlareRecorded 6 blur Blurred.
Proof.
  destruct (glare_accumulation_merges_all_streaks SampleCos SampleSin
              (SampleView AllShaders) SampleInputs (Some SampleSubsystem)
              (SampleObjects (SampleComponent DirectionalGlare)) d_1
              AllShaders (SampleComponent DirectionalGlare) SampleSceneTexture
              SampleState (SampleGate AllShaders DirectionalGlare)
              eq_refl eq_refl eq_refl eq_refl)
    as (_ & _ & _ & H).
  exact H.
Defined.

(** ** Soft focus *)

(** C7. With the bright pass and composite shaders available, the call
    records a bright pass and a composite pass such that: in soft focus
    mode the threshold of the bright pass is the constant 0.01, whatever
    the component's threshold, the bloom intensity of the composite pass
    is 0 and its soft focus intensity is the component's bloom intensity;
    in every other mode the threshold is the component's, the bloom
    intensity is the component's and the soft focus intensity is 0. *)
Theorem soft_focus_routes_intensity
  (FMath_Cos FMath_Sin : float -> float) (View : FViewInfo)
  (Inputs : FPostProcessMaterialInputs)
  (WeakSubsystem : option UClassicBloomSubsystem)
  (Objects : ObjectId -> option UBloomFXComponent) (CurrentTime : double)
  (Shaders : FGlobalShaderMap) (c : UBloomFXComponent)
  (SceneTexture : FRDGTexture) (s : RenderState) :
  GateOpen View Inputs WeakSubsystem Objects Shaders c SceneTexture ->
  HasShader Shaders BrightPassPS = true ->
  HasShader Shaders CompositePS = true ->
  exists r s' ts bp blur cp BP CP,
    PostProcessPass_RenderThread FMath_Cos FMath_Sin View Inputs
      WeakSubsystem Objects CurrentTime s
    = Return r s'
    /\ GraphAdds (GraphBuilder s) (GraphBuilder s') ts (bp :: blur ++ [cp])
    /\ Parameters bp = BrightPassParameters BP
    /\ Parameters cp = CompositeParameters CP
    /\ (BloomMode c = SoftFocus ->
          FClassicBloomBrightPassPS.BloomThreshold BP = f_0_01
          /\ FClassicBloomCompositePS.BloomIntensity CP = f_0
          /\ FClassicBloomCompositePS.SoftFocusIntensity CP = BloomIntensity c)
    /\ (BloomMode c <> SoftFocus ->
          FClassicBloomBrightPassPS.BloomThreshold BP = BloomThreshold c
          /\ FClassicBloomCompositePS.BloomIntensity CP = BloomIntensity c
          /\ FClassicBloomCompositePS.SoftFocusIntensity CP = f_0).
Proof.
  intros Open Hb Hc.
  destruct (pipeline_run FMath_Cos FMath_Sin View Inputs WeakSubsystem Objects
              CurrentTime Shaders c SceneTexture Open s Hb)
    as (r & s' & ts & ps & E & HA & HR).
  destruct HR as (T & bp & bts & blur & Blurred & Output & ots & cps
                  & -> & -> & _ & _ & Hbright & _ & _ & _ & Hcomp).
  rewrite Hc in Hcomp. destruct Hcomp as (_ & cp & -> & _ & Hcp).
  destruct Hbright as (_ & _ & Hbp). destruct Hcp as (_ & _ & Hcp).
  destruct (Parameters bp) as [BP| | | | | |] eqn:EBP; try contradiction.
  destruct (Parameters cp) as [| | | | | |CP] eqn:ECP; try contradiction.
  destruct Hbp as (_ & Hthr & _).
  destruct Hcp as (_ & _ & _ & _ & Hbi & Hsf).
  exists r, s', (T :: bts ++ ots), bp, blur, cp, BP, CP.
  split; [exact E|]. split; [exact HA|]. split; [exact EBP|].
  split; [exact ECP|]. split.
  - intros Hm. rewrite Hm in Hthr, Hbi, Hsf. auto.
  - intros Hm. destruct (BloomMode c); try congruence; auto.
Qed.

(** The sample frame in soft focus mode: threshold 0.5 and intensity 2 in
    the component, 0.01 and 0 in the passes. *)
Lemma soft_focus_routes_intensity_witness :
  exists r s' ts bp blur cp BP CP,
    SampleRun AllShaders (SampleComponent SoftFocus) = Return r s'
    /\ GraphAdds (GraphBuilder SampleState) (GraphBuilder s') ts
         (bp :: blur ++ [cp])
    /\ Parameters bp = BrightPassParameters BP
    /\ Parameters cp = CompositeParameters CP
    /\ FClassicBloomBrightPassPS.BloomThreshold BP = f_0_01
    /\ FClassicBloomCompositePS.BloomIntensity CP = f_0
    /\ FClassicBloomCompositePS.SoftFocusIntensity CP = f_2.
Proof.
  destruct (soft_focus_routes_intensity SampleCos SampleSin
              (SampleView AllShaders) SampleInputs (Some SampleSubsystem)
              (SampleObjects (SampleComponent SoftFocus)) d_1
              AllShaders (SampleComponent SoftFocus) SampleSceneTexture
              SampleState (SampleGate AllShaders SoftFocus) eq_refl eq_refl)
    as (r & s' & ts & bp & blur & cp & BP & CP & E & HA & EB & EC & Hsoft & _).
  destruct (Hsoft eq_refl) as (H1 & H2 & H3).
  exists r, s', ts, bp, blur, cp, BP, CP.
  exact (conj E (conj HA (conj EB (conj EC (conj H1 (conj H2 H3)))))).
Defined.

(** ** Kinds of the recorded passes *)

Lemma EShader_eqb_eq (a b : EShader) : EShader_eqb a b = true <-> a = b.
Proof.
  destruct a, b; split; intros H; try reflexivity; discriminate.
Qed.

Lemma PassesOf_app (S : EShader) (a b : list FRDGPass) :
  PassesOf S (a ++ b) = PassesOf S a ++ PassesOf S b.
Proof. apply filter_app. Qed.

Lemma PassesOf_kind (S : EShader) (ps : list FRDGPass) :
  Forall (fun p => PassKind p = S) (PassesOf S ps).
Proof.
  apply Forall_forall. intros p Hin. apply filter_In in Hin.
  now apply EShader_eqb_eq.
Qed.

Lemma PassesOf_none (S : EShader) (ps : list FRDGPass) :
  Forall (fun p => PassKind p <> S) ps -> PassesOf S ps = [].
Proof.
  induction 1 as [|p ps Hp _ IH]; [reflexivity|].
  unfold PassesOf in *. simpl. rewrite IH.
  destruct (EShader_eqb (PassKind p) S) eqn:E; [|reflexivity].
  now apply EShader_eqb_eq in E.
Qed.

Lemma Forall_kind_other (S S' : EShader) (ps : list FRDGPass) :
  S <> S' ->
  Forall (fun p => PassKind p = S) ps -> Forall (fun p => PassKind p <> S') ps.
Proof.
  intros Hne. apply Forall_impl. intros p ->. exact Hne.
Qed.

Lemma StandardRecorded_kinds (Shaders : FGlobalShaderMap) (N : Z)
  (Bright : FRDGTextureRef) (ps : list FRDGPass) (Blurred : FRDGTextureRef) :
  StandardRecorded Shaders N Bright ps Blurred ->
  Forall (fun p => PassKind p = BlurPS) ps.
Proof.
  intros (Temp & _ & _ & H). induction H as [|step p plan ps Hp _ IH].
  - constructor.
  - constructor; [|exact IH]. destruct Hp as (_ & _ & Hp).
    unfold PassKind. now destruct (Parameters p).
Qed.

(** No pass of the blur stage is a composite pass. *)
Lemma BlurStage_kinds (Shaders : FGlobalShaderMap) (c : UBloomFXComponent)
  (Scene : FRDGTextureRef) (DownsampledExtent : FIntPoint)
  (DownsampledRect : FIntRect) (BrightPassTexture : FRDGTextureRef)
  (ps : list FRDGPass) (Blurred : FRDGTextureRef) :
  BlurStageRecorded Shaders c Scene DownsampledExtent DownsampledRect
    BrightPassTexture ps Blurred ->
  Forall (fun p => PassKind p <> CompositePS) ps.
Proof.
  assert (forall N, StandardRecorded Shaders N BrightPassTexture ps Blurred ->
                    Forall (fun p => PassKind p <> CompositePS) ps) as Hstd.
  { intros N H. apply (Forall_kind_other BlurPS); [discriminate|].
    now apply StandardRecorded_kinds in H. }
  unfold BlurStageRecorded.
  destruct (BloomMode c); try (now apply Hstd).
  - destruct (HasShader Shaders GlareStreakPS); [|now apply Hstd].
    destruct (HasShader Shaders GlareAccumulatePS).
    + intros (bh & bv & Hps & _ & _ & _ & _ & _ & Hbh & Hbv & _).
      rewrite Hps. apply Forall_app. split; [|apply Forall_app; split].
      * apply (Forall_kind_other GlareStreakPS); [discriminate|].
        apply PassesOf_kind.
      * apply (Forall_kind_other GlareAccumulatePS); [discriminate|].
        apply PassesOf_kind.
      * repeat constructor.
        -- unfold PassKind. now destruct (Parameters bh).
        -- rewrite Hbv. discriminate.
    + intros (sps & std & -> & Hsps & _ & Hs).
      apply Forall_app. split.
      * now apply (Forall_kind_other GlareStreakPS).
      * apply (Forall_kind_other BlurPS); [discriminate|].
        now apply StandardRecorded_kinds in Hs.
  - destruct (HasShader Shaders KawaseDownsamplePS
              && HasShader Shaders KawaseUpsamplePS); [|now apply Hstd].
    intros (final & Hps & _). rewrite Hps. apply Forall_app. split.
    + apply (Forall_kind_other KawaseDownsamplePS); [discriminate|].
      apply PassesOf_kind.
    + apply (Forall_kind_other KawaseUpsamplePS); [discriminate|].
      apply PassesOf_kind.
Qed.

(** ** The composite pass *)

(** C6, as the code has it. With the bright pass and composite shaders
    available, the call records exactly one composite pass, as its last
    pass, drawn into the view rectangle of the output it returns. The
    pass carries two transforms, not three: from the pixels of the output
    viewport to the texture coordinates of the scene colour, and from the
    pixels of the output viewport to the texture coordinates of the bloom
    texture. (Three viewports are built: output, scene colour, bloom.) *)
Theorem composite_builds_two_transforms
  (FMath_Cos FMath_Sin : float -> float) (View : FViewInfo)
  (Inputs : FPostProcessMaterialInputs)
  (WeakSubsystem : option UClassicBloomSubsystem)
  (Objects : ObjectId -> option UBloomFXComponent) (CurrentTime : double)
  (Shaders : FGlobalShaderMap) (c : UBloomFXComponent)
  (SceneTexture : FRDGTexture) (s : RenderState) :
  GateOpen View Inputs WeakSubsystem Objects Shaders c SceneTexture ->
  HasShader Shaders BrightPassPS = true ->
  HasShader Shaders CompositePS = true ->
  let Scene := SceneColor Inputs in
  let ViewRect := FScreenPassTexture.ViewRect Scene in
  let BloomViewport :=
    FScreenPassTextureViewport.mk (BloomDownsampledExtent c ViewRect)
      (BloomDownsampledRect c ViewRect) in
  exists s' ts before p Output OutputViewport SceneColorViewport,
    PostProcessPass_RenderThread FMath_Cos FMath_Sin View Inputs
      WeakSubsystem Objects CurrentTime s
    = Return (FScreenPassRenderTarget.ToTexture Output) s'
    /\ GraphAdds (GraphBuilder s) (GraphBuilder s') ts (before ++ [p])
    /\ PassesOf CompositePS (before ++ [p]) = [p]
    /\ Viewport p = FScreenPassRenderTarget.ViewRect Output
    /\ RenderTarget p = FScreenPassRenderTarget.Texture Output
    /\ ViewportOf (FScreenPassRenderTarget.Texture Output)
         (FScreenPassRenderTarget.ViewRect Output)
       = Some OutputViewport
    /\ ViewportOf (FScreenPassTexture.Texture Scene) ViewRect
       = Some SceneColorViewport
    /\ ScreenTransforms (Parameters p)
       = [PixelToTextureUV OutputViewport SceneColorViewport;
          PixelToTextureUV OutputViewport BloomViewport].
Proof.
  intros Open Hb Hc Scene ViewRect BloomViewport.
  destruct (pipeline_run FMath_Cos FMath_Sin View Inputs WeakSubsystem Objects
              CurrentTime Shaders c SceneTexture Open s Hb)
    as (r & s' & ts & ps & E & HA & HR).
  destruct HR as (T & bp & bts & blur & Blurred & Output & ots & cps
                  & -> & -> & _ & _ & Hbright & Hblur & _ & _ & Hcomp).
  rewrite Hc in Hcomp. destruct Hcomp as (-> & p & -> & _ & Hp).
  destruct Hbright as (_ & _ & Hbp). destruct Hp as (_ & Hvp & Hp).
  assert (PassKind p = CompositePS /\ RenderTarget p
          = FScreenPassRenderTarget.Texture Output
          /\ exists OV SV,
               ViewportOf (FScreenPassRenderTarget.Texture Output)
                 (FScreenPassRenderTarget.ViewRect Output) = Some OV
               /\ ViewportOf (FScreenPassTexture.Texture Scene) ViewRect
                  = Some SV
               /\ ScreenTransforms (Parameters p)
                  = [PixelToTextureUV OV SV; PixelToTextureUV OV BloomViewport])
    as (Hk & Hrt & OV & SV & HOV & HSV & Htr).
  { unfold PassKind, RenderTarget.
    destruct (Parameters p); try contradiction.
    destruct Hp as (_ & _ & Hr & Hv & _). rewrite Hr.
    split; [reflexivity|]. split; [reflexivity|]. exact Hv. }
  exists s', (T :: bts ++ ots), (bp :: blur), p, Output, OV, SV.
  split; [exact E|]. split; [exact HA|]. split.
  { change ((bp :: blur) ++ [p]) with ([bp] ++ blur ++ [p]).
    rewrite !PassesOf_app.
    rewrite (PassesOf_none _ blur (BlurStage_kinds _ _ _ _ _ _ _ _ Hblur)).
    unfold PassesOf. simpl. rewrite Hk. simpl.
    unfold PassKind. destruct (Parameters bp); try contradiction.
    reflexivity. }
  auto.
Qed.

(** The sample frame in standard mode. *)
Lemma composite_builds_two_transforms_witness :
  exists s' ts before p Output OutputViewport SceneColorViewport,
    SampleRun AllShaders (SampleComponent Standard)
    = Return (FScreenPassRenderTarget.ToTexture Output) s'
    /\ GraphAdds (GraphBuilder SampleState) (GraphBuilder s') ts
         (before ++ [p])
    /\ PassesOf CompositePS (before ++ [p]) = [p]
    /\ Viewport p = FScreenPassRenderTarget.ViewRect Output
    /\ RenderTarget p = FScreenPassRenderTarget.Texture Output
    /\ ViewportOf (FScreenPassRenderTarget.Texture Output)
         (FScreenPassRenderTarget.ViewRect Output)
       = Some OutputViewport
    /\ ViewportOf (Some SampleSceneTexture)
         (FIntRect.mk (FIntPoint.mk 0 0) (FIntPoint.mk 1280 720))
       = Some SceneColorViewport
    /\ ScreenTransforms (Parameters p)
       = [PixelToTextureUV OutputViewport SceneColorViewport;
          PixelToTextureUV OutputViewport
            (FScreenPassTextureViewport.mk (FIntPoint.mk 640 360)
               (FIntRect.mk (FIntPoint.mk 0 0) (FIntPoint.mk 640 360)))].
Proof.
  exact (composite_builds_two_transforms SampleCos SampleSin
           (SampleView AllShaders) SampleInputs (Some SampleSubsystem)
           (SampleObjects (SampleComponent Standard)) d_1
           AllShaders (SampleComponent Standard) SampleSceneTexture
           SampleState (SampleGate AllShaders Standard) eq_refl eq_refl).
Defined.

(** The composite pass of the sample frame carries two transforms; the
    bright pass carries one and the blur passes none. *)
Lemma composite_pass_carries_two_transforms :
  exists r s',
    SampleRun AllShaders (SampleComponent Standard) = Return r s'
    /\ map (fun p => (EventName p, List.length (ScreenTransforms (Parameters p))))
         (Passes (GraphBuilder s'))
       = [("BrightPass", 1%nat); ("BlurHorizontal", 0%nat);
          ("BlurVertical", 0%nat); ("CompositeBloom", 2%nat)].
Proof.
  eexists _, _. split; [vm_compute; reflexivity|]. vm_compute. reflexivity.
Qed.

(** ** Missing shaders *)

(** C5, as the code has it. Past the gate the call always returns, and
    what is already in the graph when a shader is found missing stays
    there. Without the bright pass shader it returns the scene colour,
    having created the bright pass texture and recorded no pass. With it,
    the call records the bright pass and the whole blur stage of the mode
    and chooses its output -- the override output when that is valid, a
    new texture otherwise -- whether or not the composite shader is
    there: without the composite shader it then returns the scene colour
    and records no composite pass, and with it the composite pass is the
    one pass that follows. In directional glare mode without the streak
    shader, and in Kawase mode without one of the two Kawase shaders, the
    blur stage is the standard blur; in directional glare mode with the
    streak shader and without the accumulate shader, it is the K streak
    passes followed by the standard blur. *)
Theorem missing_shader_falls_back
  (FMath_Cos FMath_Sin : float -> float) (View : FViewInfo)
  (Inputs : FPostProcessMaterialInputs)
  (WeakSubsystem : option UClassicBloomSubsystem)
  (Objects : ObjectId -> option UBloomFXComponent) (CurrentTime : double)
  (Shaders : FGlobalShaderMap) (c : UBloomFXComponent)
  (SceneTexture : FRDGTexture) (s : RenderState) :
  GateOpen View Inputs WeakSubsystem Objects Shaders c SceneTexture ->
  let Scene := SceneColor Inputs in
  let ViewRect := FScreenPassTexture.ViewRect Scene in
  let Extent := BloomDownsampledExtent c ViewRect in
  let Rect := BloomDownsampledRect c ViewRect in
  let K := FMath.Clamp (GlareStreakCount c) 2 16 in
  let N := FMath.Clamp (BlurPasses c) 1 4 in
  exists r s' BrightPassTexture ts ps,
    PostProcessPass_RenderThread FMath_Cos FMath_Sin View Inputs
      WeakSubsystem Objects CurrentTime s
    = Return r s'
    /\ GraphAdds (GraphBuilder s) (GraphBuilder s') (BrightPassTexture :: ts) ps
    /\ Name BrightPassTexture = "ClassicBloom.BrightPass"
    /\ FRDGTextureDesc.Extent (Desc BrightPassTexture) = Extent
    /\ (HasShader Shaders BrightPassPS = false ->
          r = Scene /\ ts = [] /\ ps = [])
    /\ (HasShader Shaders BrightPassPS = true ->
          exists bp bts blur Blurred Output ots cps,
            ts = bts ++ ots
            /\ ps = bp :: blur ++ cps
            /\ PassKind bp = BrightPassPS
            /\ BrightRecorded c Scene Rect (Some BrightPassTexture) bp
            /\ BlurStageRecorded Shaders c (FScreenPassTexture.Texture Scene)
                 Extent Rect (Some BrightPassTexture) blur Blurred
            /\ OutputChosen Scene (OverrideOutput Inputs) Output ots
            /\ (HasShader Shaders CompositePS = false ->
                  r = Scene /\ cps = [])
            /\ (HasShader Shaders CompositePS = true ->
                  r = FScreenPassRenderTarget.ToTexture Output
                  /\ exists p, cps = [p] /\ PassKind p = CompositePS)
            /\ (BloomMode c = DirectionalGlare ->
                HasShader Shaders GlareStreakPS = false ->
                StandardRecorded Shaders N (Some BrightPassTexture) blur
                  Blurred)
            /\ (BloomMode c = DirectionalGlare ->
                HasShader Shaders GlareStreakPS = true ->
                HasShader Shaders GlareAccumulatePS = false ->
                exists sps std,
                  blur = sps ++ std
                  /\ Forall (fun p => PassKind p = GlareStreakPS) sps
                  /\ Z.of_nat (List.length sps) = K
                  /\ StandardRecorded Shaders N (Some BrightPassTexture) std
                       Blurred)
            /\ (BloomMode c = Kawase ->
                HasShader Shaders KawaseDownsamplePS = false
                \/ HasShader Shaders KawaseUpsamplePS = false ->
                StandardRecorded Shaders N (Some BrightPassTexture) blur
                  Blurred)).
Proof.
  intros Open Scene ViewRect Extent Rect K N.
  destruct (HasShader Shaders BrightPassPS) eqn:Hb.
  - destruct (pipeline_run FMath_Cos FMath_Sin View Inputs WeakSubsystem
                Objects CurrentTime Shaders c SceneTexture Open s Hb)
      as (r & s' & ts & ps & E & HA & HR).
    destruct HR as (T & bp & bts & blur & Blurred & Output & ots & cps
                    & -> & -> & HN & HE & Hbright & Hblur & _ & Hout & Hcomp).
    exists r, s', T, (bts ++ ots), (bp :: blur ++ cps).
    split; [exact E|]. split; [exact HA|]. split; [exact HN|].
    split; [exact HE|].
    split; [discriminate|]. intros _.
    exists bp, bts, blur, Blurred, Output, ots, cps.
    split; [reflexivity|]. split; [reflexivity|]. split.
    { destruct Hbright as (_ & _ & Hbp). unfold PassKind.
      now destruct (Parameters bp). }
    split; [exact Hbright|]. split; [exact Hblur|]. split; [exact Hout|].
    unfold BlurStageRecorded in Hblur. fold K N in Hblur.
    split; [|split; [|split; [|split]]].
    + intros Hc. rewrite Hc in Hcomp. exact Hcomp.
    + intros Hc. rewrite Hc in Hcomp.
      destruct Hcomp as (-> & p & -> & _ & _ & _ & Hp).
      split; [reflexivity|]. exists p. split; [reflexivity|].
      unfold PassKind. now destruct (Parameters p).
    + intros Hm Hs. now rewrite Hm, Hs in Hblur.
    + intros Hm Hs Ha. now rewrite Hm, Hs, Ha in Hblur.
    + intros Hm Hk. rewrite Hm in Hblur.
      destruct Hk as [Hk|Hk]; rewrite Hk in Hblur;
        [|rewrite andb_false_r in Hblur]; exact Hblur.
  - destruct (pipeline_bright_unavailable FMath_Cos FMath_Sin View Inputs
                WeakSubsystem Objects CurrentTime Shaders c SceneTexture Open s
                Hb)
      as (T & s' & E & HA & HN & HE).
    exists Scene, s', T, [], [].
    split; [exact E|]. split; [exact HA|]. split; [exact HN|].
    split; [exact HE|].
    split; [auto | discriminate].
Qed.

(** The sample frame without the composite shader: the scene colour comes
    back, and the graph has gained the bright pass, the two passes of the
    standard blur and, last of its new textures, the output texture. *)
Lemma missing_shader_falls_back_witness :
  exists s' BrightPassTexture bts Output bp blur Blurred,
    SampleRun (ShadersWithout CompositePS) (SampleComponent Standard)
    = Return (SceneColor SampleInputs) s'
    /\ GraphAdds (GraphBuilder SampleState) (GraphBuilder s')
         (BrightPassTexture :: bts ++ [Output]) (bp :: blur)
    /\ PassKind bp = BrightPassPS
    /\ StandardRecorded (ShadersWithout CompositePS) 1
         (Some BrightPassTexture) blur Blurred
    /\ Name Output = "ClassicBloom.Output".
Proof.
  destruct (missing_shader_falls_back SampleCos SampleSin
              (SampleView (ShadersWithout CompositePS)) SampleInputs
              (Some SampleSubsystem)
              (SampleObjects (SampleComponent Standard)) d_1
              (ShadersWithout CompositePS) (SampleComponent Standard)
              SampleSceneTexture SampleState
              (SampleGate (ShadersWithout CompositePS) Standard))
    as (r & s' & T & ts & ps & E & HA & _ & _ & _ & H).
  destruct (H eq_refl)
    as (bp & bts & blur & Blurred & Output & ots & cps & -> & -> & Hk & _
        & Hblur & Hout & Hc & _).
  destruct (Hc eq_refl) as (-> & ->).
  destruct Hout as (O & -> & HO & _).
  exists s', T, bts, O, bp, blur, Blurred. rewrite app_nil_r in HA.
  exact (conj E (conj HA (conj Hk (conj Hblur HO)))).
Defined.

(** Returning the scene colour is not the only effect of a call that
    finds a shader missing. Without the composite shader the sample frame
    comes back unchanged, and the graph, which held no pass, holds the
    bright pass and the two blur passes, and four more textures. Without
    the accumulate shader the sample frame in directional glare mode keeps
    its six streak passes in front of the standard blur. *)
Lemma missing_shader_leaves_passes :
  exists s1 r2 s2,
    SampleRun (ShadersWithout CompositePS) (SampleComponent Standard)
    = Return (SceneColor SampleInputs) s1
    /\ Passes (GraphBuilder SampleState) = []
    /\ map EventName (Passes (GraphBuilder s1))
       = ["BrightPass"; "BlurHorizontal"; "BlurVertical"]
    /\ map Name (Textures (GraphBuilder s1))
       = ["SceneColor"; "ClassicBloom.BrightPass"; "ClassicBloom.BlurTemp";
          "ClassicBloom.Blurred"; "ClassicBloom.Output"]
    /\ SampleRun (ShadersWithout GlareAccumulatePS)
         (SampleComponent DirectionalGlare)
       = Return r2 s2
    /\ map PassKind (Passes (GraphBuilder s2))
       = [BrightPassPS; GlareStreakPS; GlareStreakPS; GlareStreakPS;
          GlareStreakPS; GlareStreakPS; GlareStreakPS; BlurPS; BlurPS;
          CompositePS].
Proof.
  eexists _, _, _.
  split; [vm_compute; reflexivity|].
  split; [reflexivity|].
  split; [vm_compute; reflexivity|].
  split; [vm_compute; reflexivity|].
  split; [vm_compute; reflexivity|].
  vm_compute. reflexivity.
Qed.

(** ** The geometry of the bright pass *)

(** *** Binary32 arithmetic of the divisor

    The quotient 2 / s of a scale in [1/4, 2] is a binary32 number of
    [1, 8]; adding one half to such a number and taking the floor gives
    the nearest integer, because the sum is exact below the next power of
    two and is rounded by less than one half above it. *)

(** The number of binary digits of a positive number. *)
Lemma digits2_pos_size (p : positive) : digits2_pos p = Pos.size p.
Proof. induction p; simpl; congruence. Qed.

Lemma digits2_pos_bounds (p : positive) :
  2 ^ (Zpos (digits2_pos p) - 1) <= Zpos p < 2 ^ Zpos (digits2_pos p).
Proof.
  rewrite digits2_pos_size.
  pose proof (Pos.size_gt p) as Hgt. pose proof (Pos.size_le p) as Hle.
  apply Pos2Z.pos_lt_pos in Hgt. apply Pos2Z.pos_le_pos in Hle.
  rewrite Pos2Z.inj_pow in Hgt, Hle.
  replace (2 ^ Zpos (Pos.size p)) with (2 * 2 ^ (Zpos (Pos.size p) - 1)) in Hle.
  - lia.
  - rewrite <- Z.pow_succ_r by lia. f_equal. lia.
Qed.

Lemma digits2_pos_unique (p : positive) (d : Z) :
  2 ^ (d - 1) <= Zpos p < 2 ^ d -> Zpos (digits2_pos p) = d.
Proof.
  intros H. pose proof (digits2_pos_bounds p) as B.
  set (k := Zpos (digits2_pos p)) in *.
  assert (0 < k) by (unfold k; lia).
  destruct (Z.lt_trichotomy k d) as [L | [E | G]]; [|exact E|].
  - exfalso.
    assert (2 ^ k <= 2 ^ (d - 1)) by (apply Z.pow_le_mono_r; lia). lia.
  - exfalso.
    assert (0 <= d).
    { destruct (Z.le_gt_cases 0 d); [assumption|].
      rewrite (Z.pow_neg_r 2 d) in H by lia. lia. }
    assert (2 ^ d <= 2 ^ (k - 1)) by (apply Z.pow_le_mono_r; lia). lia.
Qed.

Lemma round_nearest_even_cases (x : Z) (l : location) :
  round_nearest_even x l = x \/ round_nearest_even x l = x + 1.
Proof.
  destruct l as [|[]]; simpl; auto. destruct (Z.even x); auto.
Qed.

Lemma shr_m_of_loc (x : Z) (l : location) : shr_m (shr_record_of_loc x l) = x.
Proof. now destruct l as [|[]]. Qed.

Lemma loc_of_shr_record_of_loc (x : Z) (l : location) :
  loc_of_shr_record (shr_record_of_loc x l) = l.
Proof. now destruct l as [|[]]. Qed.

(** A mantissa of 24 digits needs no shift. *)
Lemma shr_fexp_24 (q e : Z) (l : location) :
  2 ^ 23 <= q < 2 ^ 24 -> -149 <= e ->
  shr_fexp 24 128 q e l = (shr_record_of_loc q l, e).
Proof.
  intros Hq He. unfold shr_fexp.
  destruct q as [|p|p]; try lia. cbn [Zdigits2].
  rewrite (digits2_pos_unique p 24) by lia.
  replace (fexp 24 128 (24 + e) - e) with 0 by (unfold fexp, emin; lia).
  reflexivity.
Qed.

(** Rounding a mantissa of 24 digits at a location: the mantissa stays or
    goes up by one, and going up from 2^24 - 1 moves to the next
    exponent. *)
Lemma binary_round_aux_24 (q e : Z) (l : location) :
  2 ^ 23 <= q < 2 ^ 24 -> -149 <= e <= 103 ->
  exists M E,
    binary_round_aux 24 128 false q e l = S754_finite false M E
    /\ ((E = e /\ q <= Zpos M <= q + 1 /\ Zpos M < 2 ^ 24
         /\ (l = loc_Exact -> Zpos M = q))
        \/ (E = e + 1 /\ Zpos M = 2 ^ 23 /\ q = 2 ^ 24 - 1
            /\ l <> loc_Exact)).
Proof.
  intros Hq He. unfold binary_round_aux.
  rewrite shr_fexp_24 by lia.
  rewrite shr_m_of_loc, loc_of_shr_record_of_loc.
  set (R := round_nearest_even q l).
  assert (R = q \/ R = q + 1) as HR by apply round_nearest_even_cases.
  assert (l = loc_Exact -> R = q) as HX by (intros ->; reflexivity).
  destruct (Z.eq_dec R (2 ^ 24)) as [E24 | N24].
  - rewrite E24. unfold shr_fexp.
    change (Zdigits2 (2 ^ 24)) with 25.
    replace (fexp 24 128 (25 + e) - e) with 1 by (unfold fexp, emin; lia).
    cbn [shr iter_pos shr_record_of_loc shr_1 shr_m].
    change (2 ^ 24) with 16777216. cbn [shr_record_of_loc shr_1 shr_m].
    replace (e + 1 <=? 128 - 24) with true by (symmetry; apply Z.leb_le; lia).
    eexists _, _. split; [reflexivity|]. right.
    repeat split; try lia. intros Hl. specialize (HX Hl). lia.
  - rewrite shr_fexp_24 by lia. cbn [shr_record_of_loc shr_m].
    destruct R as [|r|r] eqn:ER; try lia.
    replace (e <=? 128 - 24) with true by (symmetry; apply Z.leb_le; lia).
    eexists _, _. split; [reflexivity|]. left.
    repeat split; try lia. intros Hl. now rewrite <- (HX Hl).
Qed.

(** The integer division behind the quotient of 2 by a number with a
    mantissa of 24 digits. *)
Lemma SFdiv_core_two (m : positive) (e : Z) :
  e = -25 \/ e = -24 \/ e = -23 ->
  2 ^ 23 <= Zpos m < 2 ^ 24 ->
  SFdiv_core_binary 24 128 8388608 (-22) (Zpos m) e
  = (2 ^ 47 / Zpos m, -46 - e, new_location (Zpos m) (2 ^ 47 mod Zpos m)).
Proof.
  intros He Hm. unfold SFdiv_core_binary. cbn [Zdigits2].
  rewrite (digits2_pos_unique m 24) by lia.
  destruct He as [-> | [-> | ->]];
    lazy -[Z.div_eucl new_location Z.div Z.modulo];
    unfold Z.div, Z.modulo; destruct (Z.div_eucl _ _); reflexivity.
Qed.

(** The quotient of 2 by a number of [1/4, 2) lies in [1, 8]. *)
Lemma div_two_shape (m : positive) (e : Z) :
  e = -25 \/ e = -24 \/ e = -23 ->
  2 ^ 23 <= Zpos m < 2 ^ 24 ->
  exists M E,
    Float.div f_2 (S754_finite false m e) = S754_finite false M E
    /\ -23 <= E <= -20
    /\ 2 ^ 23 <= Zpos M < 2 ^ 24
    /\ (E = -20 -> Zpos M = 2 ^ 23).
Proof.
  intros He Hm.
  destruct (Z.eq_dec (Zpos m) 8388608) as [E1 | N1].
  - injection E1 as ->.
    destruct He as [-> | [-> | ->]]; eexists _, _;
      (split; [vm_compute; reflexivity|]); lia.
  - unfold Float.div, f_2, SFdiv, Float.prec, Float.emax.
    rewrite (SFdiv_core_two m e He Hm). cbn [xorb].
    assert (2 ^ 23 <= 2 ^ 47 / Zpos m < 2 ^ 24) as Hq.
    { split.
      - apply Z.div_le_lower_bound; lia.
      - apply Z.div_lt_upper_bound; lia. }
    destruct (binary_round_aux_24 (2 ^ 47 / Zpos m) (-46 - e)
                (new_location (Zpos m) (2 ^ 47 mod Zpos m)) Hq ltac:(lia))
      as (M & E & -> & H).
    exists M, E. split; [reflexivity|]. lia.
Qed.

Lemma shr_1_spec (p : positive) (r s : bool) :
  shr_1 {| shr_m := Zpos p; shr_r := r; shr_s := s |}
  = {| shr_m := Zpos p / 2; shr_r := Z.odd (Zpos p); shr_s := r || s |}.
Proof.
  destruct p as [p|p|]; cbn [shr_1 Z.odd]; f_equal.
  - rewrite Pos2Z.inj_xI. apply (Z.div_unique _ _ _ 1); lia.
  - rewrite Pos2Z.inj_xO. apply (Z.div_unique _ _ _ 0); lia.
Qed.

(** Rounding a mantissa of 24+n digits that [n] shifts bring to [mrs]. *)
Lemma binary_round_shifted (S n : positive) (mrs : shr_record) (e : Z) :
  2 ^ (23 + Zpos n) <= Zpos S < 2 ^ (24 + Zpos n) ->
  -149 <= e -> e + Zpos n <= 103 ->
  iter_pos shr_1 n {| shr_m := Zpos S; shr_r := false; shr_s := false |} = mrs ->
  2 ^ 23 <= shr_m mrs < 2 ^ 24 ->
  exists M E,
    binary_round 24 128 false S e = S754_finite false M E
    /\ ((E = e + Zpos n /\ shr_m mrs <= Zpos M <= shr_m mrs + 1
         /\ Zpos M < 2 ^ 24
         /\ (loc_of_shr_record mrs = loc_Exact -> Zpos M = shr_m mrs))
        \/ (E = e + Zpos n + 1 /\ Zpos M = 2 ^ 23
            /\ shr_m mrs = 2 ^ 24 - 1
            /\ loc_of_shr_record mrs <> loc_Exact)).
Proof.
  intros HS He Hen Hmrs Hm.
  assert (Zpos (digits2_pos S) = 24 + Zpos n) as Hd.
  { apply digits2_pos_unique.
    now replace (24 + Zpos n - 1) with (23 + Zpos n) by lia. }
  assert (binary_round 24 128 false S e
          = binary_round_aux 24 128 false (shr_m mrs) (e + Zpos n)
              (loc_of_shr_record mrs)) as ->.
  { unfold binary_round. rewrite Hd.
    replace (fexp 24 128 (24 + Zpos n + e)) with (e + Zpos n)
      by (unfold fexp, emin; lia).
    unfold shl_align. replace (e + Zpos n - e) with (Zpos n) by lia.
    cbv beta iota. unfold binary_round_aux at 1.
    unfold shr_fexp at 1. cbn [Zdigits2 shr_record_of_loc]. rewrite Hd.
    replace (fexp 24 128 (24 + Zpos n + e) - e) with (Zpos n)
      by (unfold fexp, emin; lia).
    cbn [shr]. rewrite Hmrs.
    unfold binary_round_aux. rewrite (shr_fexp_24 (shr_m mrs)) by lia.
    now rewrite shr_m_of_loc, loc_of_shr_record_of_loc. }
  apply binary_round_aux_24; lia.
Qed.

Lemma floor_finite (M : positive) (E : Z) :
  E < 0 -> Float.floor (S754_finite false M E) = Some (Zpos M / 2 ^ (- E)).
Proof.
  intros H. unfold Float.floor.
  destruct (Z.leb_spec 0 E); [lia|].
  now rewrite Z.shiftr_div_pow2 by lia.
Qed.

Ltac eval_pows :=
  repeat match goal with
         | |- context [2 ^ ?x] =>
             let v := eval vm_compute in (2 ^ x) in change (2 ^ x) with v
         | H : context [2 ^ ?x] |- _ =>
             let v := eval vm_compute in (2 ^ x) in change (2 ^ x) with v in H
         end.

(** The floor of a positive number below 2^24. *)
Lemma FloorToInt_finite (M : positive) (E : Z) :
  -149 <= E < 0 -> Zpos M < 2 ^ 24 ->
  FMath.FloorToInt (S754_finite false M E) = Zpos M / 2 ^ (- E).
Proof.
  intros HE HM. unfold FMath.FloorToInt. rewrite floor_finite by lia.
  assert (0 <= Zpos M / 2 ^ (- E) <= Zpos M) as H.
  { split.
    - apply Z.div_pos; [lia|]. apply Z.pow_pos_nonneg; lia.
    - apply Z.div_le_upper_bound; [apply Z.pow_pos_nonneg; lia|].
      assert (1 <= 2 ^ (- E)) by (apply (Z.pow_le_mono_r 2 0); lia). nia. }
  change (2 ^ 24) with 16777216 in HM.
  unfold Int32.min_value, Int32.max_value.
  destruct (Z.leb_spec (-2147483648) (Zpos M / 2 ^ (- E))); [|lia].
  destruct (Z.leb_spec (Zpos M / 2 ^ (- E)) 2147483647); [|lia].
  reflexivity.
Qed.

(** On the numbers of [1, 8], [RoundToInt] is rounding to the nearest
    integer, a half going up. *)
Lemma RoundToInt_nearest (M : positive) (E : Z) :
  -23 <= E <= -20 -> 2 ^ 23 <= Zpos M < 2 ^ 24 ->
  (E = -20 -> Zpos M = 2 ^ 23) ->
  FMath.RoundToInt (S754_finite false M E)
  = RoundHalfUp (S754_finite false M E).
Proof.
  intros HE HM H8.
  assert (E = -23 \/ E = -22 \/ E = -21 \/ E = -20)
    as [-> | [-> | [-> | ->]]] by lia.
  - unfold FMath.RoundToInt.
    change (Float.add (S754_finite false M (-23)) f_0_5)
      with (binary_round 24 128 false (M + 4194304)~0 (-24)).
    eval_pows.
    destruct (Z.lt_ge_cases (Zpos M + 4194304) 16777216) as [Ha | Hb].
    + destruct (binary_round_shifted (M + 4194304)~0 1
                  {| shr_m := Zpos (M + 4194304); shr_r := false;
                     shr_s := false |} (-24))
        as (M' & E' & -> & H);
        [eval_pows; lia | lia | lia | reflexivity
        | cbn [shr_m]; eval_pows; lia |].
      cbn [shr_m loc_of_shr_record] in H. eval_pows.
      destruct H as [(-> & _ & _ & Hex) | (_ & _ & _ & Hc)];
        [|now elim Hc].
      specialize (Hex eq_refl).
      rewrite FloorToInt_finite by (eval_pows; lia).
      unfold RoundHalfUp. change (0 <=? -23) with false. cbv iota.
      eval_pows. Z.to_euclidean_division_equations; lia.
    + assert (2 ^ 23 <= Zpos (M + 4194304) / 2 < 2 ^ 24) as Hhalf
        by (eval_pows; Z.to_euclidean_division_equations; lia).
      destruct (binary_round_shifted (M + 4194304)~0 2
                  {| shr_m := Zpos (M + 4194304) / 2;
                     shr_r := Z.odd (Zpos (M + 4194304));
                     shr_s := false |} (-24))
        as (M' & E' & -> & H);
        [eval_pows; lia | lia | lia
        | change (iter_pos shr_1 2
                    {| shr_m := Zpos (M + 4194304)~0; shr_r := false;
                       shr_s := false |})
            with (shr_1 {| shr_m := Zpos (M + 4194304); shr_r := false;
                           shr_s := false |});
          apply shr_1_spec
        | exact Hhalf |].
      cbn [shr_m] in H. eval_pows.
      destruct H as [(-> & HM' & _) | (_ & _ & Hc & _)];
        [|exfalso; Z.to_euclidean_division_equations; lia].
      rewrite FloorToInt_finite
        by (eval_pows; Z.to_euclidean_division_equations; lia).
      unfold RoundHalfUp. change (0 <=? -23) with false. cbv iota.
      eval_pows. Z.to_euclidean_division_equations; lia.
  - unfold FMath.RoundToInt.
    change (Float.add (S754_finite false M (-22)) f_0_5)
      with (binary_round 24 128 false (M + 2097152)~0~0 (-24)).
    eval_pows.
    destruct (Z.lt_ge_cases (Zpos M + 2097152) 16777216) as [Ha | Hb].
    + destruct (binary_round_shifted (M + 2097152)~0~0 2
                  {| shr_m := Zpos (M + 2097152); shr_r := false;
                     shr_s := false |} (-24))
        as (M' & E' & -> & H);
        [eval_pows; lia | lia | lia | reflexivity
        | cbn [shr_m]; eval_pows; lia |].
      cbn [shr_m loc_of_shr_record] in H. eval_pows.
      destruct H as [(-> & _ & _ & Hex) | (_ & _ & _ & Hc)];
        [|now elim Hc].
      specialize (Hex eq_refl).
      rewrite FloorToInt_finite by (eval_pows; lia).
      unfold RoundHalfUp. change (0 <=? -22) with false. cbv iota.
      eval_pows. Z.to_euclidean_division_equations; lia.
    + assert (2 ^ 23 <= Zpos (M + 2097152) / 2 < 2 ^ 24) as Hhalf
        by (eval_pows; Z.to_euclidean_division_equations; lia).
      destruct (binary_round_shifted (M + 2097152)~0~0 3
                  {| shr_m := Zpos (M + 2097152) / 2;
                     shr_r := Z.odd (Zpos (M + 2097152));
                     shr_s := false |} (-24))
        as (M' & E' & -> & H);
        [eval_pows; lia | lia | lia
        | change (iter_pos shr_1 3
                    {| shr_m := Zpos (M + 2097152)~0~0; shr_r := false;
                       shr_s := false |})
            with (shr_1 {| shr_m := Zpos (M + 2097152); shr_r := false;
                           shr_s := false |});
          apply shr_1_spec
        | exact Hhalf |].
      cbn [shr_m] in H. eval_pows.
      destruct H as [(-> & HM' & _) | (_ & _ & Hc & _)];
        [|exfalso; Z.to_euclidean_division_equations; lia].
      rewrite FloorToInt_finite
        by (eval_pows; Z.to_euclidean_division_equations; lia).
      unfold RoundHalfUp. change (0 <=? -22) with false. cbv iota.
      eval_pows. Z.to_euclidean_division_equations; lia.
  - unfold FMath.RoundToInt.
    change (Float.add (S754_finite false M (-21)) f_0_5)
      with (binary_round 24 128 false (M + 1048576)~0~0~0 (-24)).
    eval_pows.
    destruct (Z.lt_ge_cases (Zpos M + 1048576) 16777216) as [Ha | Hb].
    + destruct (binary_round_shifted (M + 1048576)~0~0~0 3
                  {| shr_m := Zpos (M + 1048576); shr_r := false;
                     shr_s := false |} (-24))
        as (M' & E' & -> & H);
        [eval_pows; lia | lia | lia | reflexivity
        | cbn [shr_m]; eval_pows; lia |].
      cbn [shr_m loc_of_shr_record] in H. eval_pows.
      destruct H as [(-> & _ & _ & Hex) | (_ & _ & _ & Hc)];
        [|now elim Hc].
      specialize (Hex eq_refl).
      rewrite FloorToInt_finite by (eval_pows; lia).
      unfold RoundHalfUp. change (0 <=? -21) with false. cbv iota.
      eval_pows. Z.to_euclidean_division_equations; lia.
    + assert (2 ^ 23 <= Zpos (M + 1048576) / 2 < 2 ^ 24) as Hhalf
        by (eval_pows; Z.to_euclidean_division_equations; lia).
      destruct (binary_round_shifted (M + 1048576)~0~0~0 4
                  {| shr_m := Zpos (M + 1048576) / 2;
                     shr_r := Z.odd (Zpos (M + 1048576));
                     shr_s := false |} (-24))
        as (M' & E' & -> & H);
        [eval_pows; lia | lia | lia
        | change (iter_pos shr_1 4
                    {| shr_m := Zpos (M + 1048576)~0~0~0; shr_r := false;
                       shr_s := false |})
            with (shr_1 {| shr_m := Zpos (M + 1048576); shr_r := false;
                           shr_s := false |});
          apply shr_1_spec
        | exact Hhalf |].
      cbn [shr_m] in H. eval_pows.
      destruct H as [(-> & HM' & _) | (_ & _ & Hc & _)];
        [|exfalso; Z.to_euclidean_division_equations; lia].
      rewrite FloorToInt_finite
        by (eval_pows; Z.to_euclidean_division_equations; lia).
      unfold RoundHalfUp. change (0 <=? -21) with false. cbv iota.
      eval_pows. Z.to_euclidean_division_equations; lia.
  - specialize (H8 eq_refl). eval_pows. injection H8 as ->.
    vm_compute. reflexivity.
Qed.

(** The clamped scale is a bound, or the scale itself when that lies
    strictly between the bounds. A scale that is not a number is clamped
    to 2. *)
Lemma Clamp_scale_cases (s : float) :
  FMath.Clamp s f_0_25 f_2 = f_0_25
  \/ FMath.Clamp s f_0_25 f_2 = f_2
  \/ (FMath.Clamp s f_0_25 f_2 = s
      /\ Float.ltb f_0_25 s = true /\ Float.ltb s f_2 = true).
Proof.
  unfold FMath.Clamp, FMath.Max, FMath.Min, less, float_less.
  destruct (Float.ltb s f_2) eqn:H2.
  - destruct (Float.ltb f_0_25 s) eqn:H1; auto.
  - right. left. reflexivity.
Qed.

(** A binary32 number strictly between 1/4 and 2. *)
Lemma scale_shape (s : float) :
  valid_binary 24 128 s = true ->
  Float.ltb f_0_25 s = true -> Float.ltb s f_2 = true ->
  exists m e,
    s = S754_finite false m e
    /\ (e = -25 \/ e = -24 \/ e = -23)
    /\ 2 ^ 23 <= Zpos m < 2 ^ 24.
Proof.
  intros Hv H1 H2.
  destruct s as [sg | sg | | sg m e]; try discriminate;
    try (destruct sg; discriminate).
  destruct sg; [discriminate|].
  exists m, e. split; [reflexivity|].
  unfold valid_binary, bounded, canonical_mantissa in Hv.
  apply andb_prop in Hv. destruct Hv as (Hc & _). apply Z.eqb_eq in Hc.
  unfold fexp, emin in Hc.
  pose proof (digits2_pos_bounds m) as Hb.
  unfold Float.ltb, SFltb, SFcompare, f_0_25, f_2 in H1, H2.
  assert (-25 <= e) as He1.
  { destruct (Z.compare_spec (-25) e); [lia | lia | discriminate]. }
  assert (e < -22 \/ (e = -22 /\ Zpos m < 8388608)) as He2.
  { destruct (Z.compare_spec e (-22)); [right | left; lia | discriminate].
    split; [assumption|].
    destruct (Pos.compare_cont Eq m 8388608) eqn:Hcmp; try discriminate.
    exact (proj1 (Pos.compare_lt_iff m 8388608) Hcmp). }
  clear H1 H2.
  assert (Zpos (digits2_pos m) = 24) as Hd by lia.
  rewrite Hd in Hb. eval_pows. lia.
Qed.

(** [RoundHalfUp] gives the nearest integer: for a number x = v * 2^e with
    e < 0 it is the integer n with n - 1/2 <= x < n + 1/2. *)
Lemma RoundHalfUp_nearest (sg : bool) (m : positive) (e : Z) :
  e < 0 ->
  let v := if sg then Zneg m else Zpos m in
  let n := RoundHalfUp (S754_finite sg m e) in
  (2 * n - 1) * 2 ^ (- e) <= 2 * v < (2 * n + 1) * 2 ^ (- e).
Proof.
  intros He v n. unfold n, RoundHalfUp. fold v.
  destruct (Z.leb_spec 0 e); [lia|].
  replace (2 ^ (1 - e)) with (2 * 2 ^ (- e))
    by (rewrite <- Z.pow_succ_r by lia; f_equal; lia).
  assert (0 < 2 ^ (- e)) as Hp by (apply Z.pow_pos_nonneg; lia).
  set (d := 2 ^ (- e)) in *.
  pose proof (Z.div_mod (2 * v + d) (2 * d) ltac:(lia)) as Hdm.
  pose proof (Z.mod_pos_bound (2 * v + d) (2 * d) ltac:(lia)) as Hmb.
  nia.
Qed.

(** The divisor of the code is max(1, round(2 / s)), the quotient being
    the binary32 quotient and the rounding to the nearest integer. *)
Lemma BloomDivisor_rounds (c : UBloomFXComponent) :
  valid_binary 24 128 (DownsampleScale c) = true ->
  BloomDivisor c
  = Z.max 1
      (RoundHalfUp
         (Float.div f_2 (FMath.Clamp (DownsampleScale c) f_0_25 f_2)))
  /\ 1 <= BloomDivisor c <= 8.
Proof.
  intros Hv. unfold BloomDivisor. rewrite FMath_Max_int.
  destruct (Clamp_scale_cases (DownsampleScale c))
    as [-> | [-> | (-> & H1 & H2)]].
  - vm_compute. repeat split; discriminate.
  - vm_compute. repeat split; discriminate.
  - destruct (scale_shape _ Hv H1 H2) as (m & e & -> & He & Hm).
    destruct (div_two_shape m e He Hm) as (M & E & -> & HE & HM & H8).
    rewrite (RoundToInt_nearest M E HE HM H8).
    split; [reflexivity|]. split; [lia|].
    apply Z.max_lub; [lia|].
    unfold RoundHalfUp.
    assert (E = -23 \/ E = -22 \/ E = -21 \/ E = -20)
      as [-> | [-> | [-> | ->]]] by lia;
      try specialize (H8 eq_refl);
      cbn [Z.leb Z.compare]; eval_pows;
      Z.to_euclidean_division_equations; lia.
Qed.

Lemma BloomDivisor_positive (c : UBloomFXComponent) : 1 <= BloomDivisor c.
Proof. unfold BloomDivisor. rewrite FMath_Max_int. lia. Qed.

Lemma Width_FullRect (E : FIntPoint) :
  Int32.InRange (FIntPoint.X E) -> FIntRect.Width (FullRect E) = FIntPoint.X E.
Proof.
  intros H. unfold FIntRect.Width, FullRect, Int32.sub. simpl.
  rewrite Z.sub_0_r. now apply wrap_id.
Qed.

Lemma Height_FullRect (E : FIntPoint) :
  Int32.InRange (FIntPoint.Y E) -> FIntRect.Height (FullRect E) = FIntPoint.Y E.
Proof.
  intros H. unfold FIntRect.Height, FullRect, Int32.sub. simpl.
  rewrite Z.sub_0_r. now apply wrap_id.
Qed.

Lemma FirstActiveComponent_unique
  (Objects : ObjectId -> option UBloomFXComponent) (l : list ObjectId)
  (c c' : UBloomFXComponent) :
  FirstActiveComponent Objects l c -> FirstActiveComponent Objects l c' ->
  c = c'.
Proof.
  intros H H'. apply FindActiveComponent_first in H, H'. congruence.
Qed.

(** C2. The divisor is max(1, round(2 / s)) for the scale s of the
    component clamped to [0.25, 2]: whatever binary32 number the scale is,
    the code's [RoundToInt] of the binary32 quotient is the integer nearest
    to that quotient (a half goes up), and the divisor lies between 1 and
    8; it is 1, 2 and 8 at the scales 2, 1 and 0.25. For a view rectangle
    of positive width and height (whose sizes plus the divisor stay within
    [int32]) the extent of the bright pass is the ceiling of the sizes
    divided by the divisor, and its rectangle starts at (0,0), is as large
    as the extent, and is at least 1x1. A call whose view rectangle or
    downsampled rectangle has no width or no height returns the scene
    colour and leaves the graph as it found it. Past the gate, the bright
    pass texture has that extent and the bright pass is drawn into that
    rectangle. *)
Theorem bright_pass_geometry (c : UBloomFXComponent) (ViewRect : FIntRect) :
  let Divisor := BloomDivisor c in
  let W := FIntRect.Width ViewRect in
  let H := FIntRect.Height ViewRect in
  let Extent := BloomDownsampledExtent c ViewRect in
  let Rect := BloomDownsampledRect c ViewRect in
  (valid_binary Float.prec Float.emax (DownsampleScale c) = true ->
   Divisor
   = Z.max 1
       (RoundHalfUp
          (Float.div f_2 (FMath.Clamp (DownsampleScale c) f_0_25 f_2)))
   /\ 1 <= Divisor <= 8)
  /\ (DownsampleScale c = f_2 -> Divisor = 1)
  /\ (DownsampleScale c = f_1 -> Divisor = 2)
  /\ (DownsampleScale c = f_0_25 -> Divisor = 8)
  /\ (1 <= W -> 1 <= H ->
      W + Divisor - 1 <= Int32.max_value ->
      H + Divisor - 1 <= Int32.max_value ->
      Extent
      = FIntPoint.mk ((W + Divisor - 1) / Divisor) ((H + Divisor - 1) / Divisor)
      /\ FIntRect.Min Rect = FIntPoint.mk 0 0
      /\ FIntRect.Width Rect = FIntPoint.X Extent
      /\ FIntRect.Height Rect = FIntPoint.Y Extent
      /\ 1 <= FIntPoint.X Extent /\ 1 <= FIntPoint.Y Extent)
  /\ (forall (FMath_Cos FMath_Sin : float -> float) (View : FViewInfo)
        (Inputs : FPostProcessMaterialInputs)
        (WeakSubsystem : option UClassicBloomSubsystem)
        (Objects : ObjectId -> option UBloomFXComponent)
        (CurrentTime : double) (s : RenderState),
        FScreenPassTexture.ViewRect (SceneColor Inputs) = ViewRect ->
        (W <= 0 \/ H <= 0)
        \/ ((exists Subsystem,
               WeakSubsystem = Some Subsystem
               /\ FirstActiveComponent Objects (BloomComponents Subsystem) c)
            /\ (FIntRect.Width Rect <= 0 \/ FIntRect.Height Rect <= 0)) ->
        exists s',
          PostProcessPass_RenderThread FMath_Cos FMath_Sin View Inputs
            WeakSubsystem Objects CurrentTime s
          = Return (SceneColor Inputs) s'
          /\ GraphBuilder s' = GraphBuilder s)
  /\ (forall (FMath_Cos FMath_Sin : float -> float) (View : FViewInfo)
        (Inputs : FPostProcessMaterialInputs)
        (WeakSubsystem : option UClassicBloomSubsystem)
        (Objects : ObjectId -> option UBloomFXComponent)
        (CurrentTime : double) (Shaders : FGlobalShaderMap)
        (SceneTexture : FRDGTexture) (s : RenderState),
        FScreenPassTexture.ViewRect (SceneColor Inputs) = ViewRect ->
        GateOpen View Inputs WeakSubsystem Objects Shaders c SceneTexture ->
        HasShader Shaders BrightPassPS = true ->
        exists r s' BrightPassTexture ts bp ps,
          PostProcessPass_RenderThread FMath_Cos FMath_Sin View Inputs
            WeakSubsystem Objects CurrentTime s
          = Return r s'
          /\ GraphAdds (GraphBuilder s) (GraphBuilder s')
               (BrightPassTexture :: ts) (bp :: ps)
          /\ Name BrightPassTexture = "ClassicBloom.BrightPass"
          /\ FRDGTextureDesc.Extent (Desc BrightPassTexture) = Extent
          /\ EventName bp = "BrightPass"
          /\ RenderTarget bp = Some BrightPassTexture
          /\ Viewport bp = Rect).
Proof.
  intros Divisor W H Extent Rect.
  pose proof (BloomDivisor_positive c) as Hd. fold Divisor in Hd.
  split. { intros Hv. exact (BloomDivisor_rounds c Hv). }
  split. { intros E. unfold Divisor, BloomDivisor. rewrite E. reflexivity. }
  split. { intros E. unfold Divisor, BloomDivisor. rewrite E. reflexivity. }
  split. { intros E. unfold Divisor, BloomDivisor. rewrite E. reflexivity. }
  split; [|split].
  - intros HW HH HWmax HHmax.
    assert (Extent
            = FIntPoint.mk ((W + Divisor - 1) / Divisor)
                ((H + Divisor - 1) / Divisor)) as HE.
    { unfold Extent, BloomDownsampledExtent, FIntPoint.DivideAndRoundUp.
      cbn [FIntPoint.X FIntPoint.Y]. fold Divisor W H.
      rewrite !DivideAndRoundUp_coordinate by lia. reflexivity. }
    pose proof (ceil_div_positive W Divisor HW Hd) as HX1.
    pose proof (ceil_div_positive H Divisor HH Hd) as HY1.
    pose proof (ceil_div_le W Divisor ltac:(lia) Hd) as HX2.
    pose proof (ceil_div_le H Divisor ltac:(lia) Hd) as HY2.
    split; [exact HE|]. split; [reflexivity|].
    change Rect with (FullRect Extent).
    rewrite Width_FullRect, Height_FullRect; rewrite HE; simpl;
      unfold Int32.InRange, Int32.min_value, Int32.max_value in *;
      repeat split; lia.
  - intros FMath_Cos FMath_Sin View Inputs WeakSubsystem Objects CurrentTime s
           HR Hempty.
    destruct (gate_cases FMath_Cos FMath_Sin View Inputs WeakSubsystem Objects
                CurrentTime s)
      as [E | [(S & c' & s' & _ & _ & _ & _ & E & G & _)
              | (Sh & c' & T & Open)]].
    + now exists s.
    + now exists s'.
    + exfalso.
      destruct Open as [_ Hr _ _ _ _ _ _ _ (S' & HS' & Hc') _ Hdn].
      rewrite HR in Hr, Hdn. unfold NoArea in Hr, Hdn.
      apply orb_false_elim in Hr. destruct Hr as (Hr1 & Hr2).
      apply Z.leb_gt in Hr1, Hr2.
      destruct Hempty as [He | ((S & HS & Hc) & He)]; [unfold W, H in He; lia|].
      assert (S' = S) as -> by congruence.
      rewrite (FirstActiveComponent_unique _ _ _ _ Hc' Hc) in Hdn.
      apply orb_false_elim in Hdn. destruct Hdn as (Hd1 & Hd2).
      apply Z.leb_gt in Hd1, Hd2. unfold Rect in He. lia.
  - intros FMath_Cos FMath_Sin View Inputs WeakSubsystem Objects CurrentTime
           Shaders SceneTexture s HR Open Hb.
    destruct (pipeline_run FMath_Cos FMath_Sin View Inputs WeakSubsystem
                Objects CurrentTime Shaders c SceneTexture Open s Hb)
      as (r & s' & ts & ps & E & HA & HRec).
    destruct HRec as (T & bp & bts & blur & Blurred & Output & ots & cps
                      & -> & -> & HN & HE & Hbright & _).
    rewrite HR in *.
    exists r, s', T, (bts ++ ots), bp, (blur ++ cps).
    destruct Hbright as (Hev & Hvp & Hbp).
    split; [exact E|]. split; [exact HA|]. split; [exact HN|].
    split; [exact HE|]. split; [exact Hev|]. split; [|exact Hvp].
    unfold RenderTarget. destruct (Parameters bp); try contradiction.
    destruct Hbp as (_ & _ & ->). reflexivity.
Qed.

(** The sample frame at the scale 0.8, where the quotient is 2.5: the
    divisor is 3, and a view rectangle of 1280x720 gives a bright pass of
    427x240; a call on a view rectangle of no width returns the scene
    colour and leaves the graph alone. *)
Lemma bright_pass_geometry_witness :
  let ViewRect := FIntRect.mk (FIntPoint.mk 0 0) (FIntPoint.mk 1280 720) in
  let c := SampleComponentScaled (Float.literal 8 10) in
  let NoWidth :=
    {| SceneColor :=
         FScreenPassTexture.mk (Some SampleSceneTexture)
           (FIntRect.mk (FIntPoint.mk 8 0) (FIntPoint.mk 8 720));
       OverrideOutput := OverrideOutput SampleInputs |} in
  Float.div f_2 (DownsampleScale c) = Float.literal 5 2
  /\ BloomDivisor c = 3
  /\ BloomDownsampledExtent c ViewRect = FIntPoint.mk 427 240
  /\ FIntRect.Width (BloomDownsampledRect c ViewRect) = 427
  /\ exists s',
       PostProcessPass_RenderThread SampleCos SampleSin (SampleView AllShaders)
         NoWidth (Some SampleSubsystem) (SampleObjects c) d_1 SampleState
       = Return (SceneColor NoWidth) s'
       /\ GraphBuilder s' = GraphBuilder SampleState.
Proof.
  intros ViewRect c NoWidth.
  destruct (bright_pass_geometry c ViewRect) as (Hdiv & _ & _ & _ & Hgeo & _).
  destruct (Hdiv eq_refl) as (HD & _).
  assert (BloomDivisor c = 3) as H3 by (rewrite HD; vm_compute; reflexivity).
  destruct Hgeo as (HE & _ & HW & _);
    try (rewrite ?H3; apply Z.leb_le; vm_compute; reflexivity).
  rewrite H3 in HE.
  split; [vm_compute; reflexivity|]. split; [exact H3|].
  split; [exact HE|]. split; [rewrite HW, HE; reflexivity|].
  destruct (bright_pass_geometry c
              (FScreenPassTexture.ViewRect (SceneColor NoWidth)))
    as (_ & _ & _ & _ & _ & Hempty & _).
  apply Hempty; [reflexivity|]. left. left. vm_compute. discriminate.
Defined.

(** ** The Kawase mip chain *)

Lemma KawaseMipExtent_half (E : FIntPoint) :
  1 <= FIntPoint.X E < Int32.max_value ->
  1 <= FIntPoint.Y E < Int32.max_value ->
  KawaseMipExtent E = HalfRoundedUp E.
Proof.
  intros HX HY. unfold KawaseMipExtent, HalfRoundedUp, FIntPoint.DivideAndRoundUp.
  cbn [FIntPoint.X FIntPoint.Y].
  rewrite !DivideAndRoundUp_coordinate by lia.
  rewrite !FMath_Max_int.
  now replace (FIntPoint.X E + 2 - 1) with (FIntPoint.X E + 1) by lia;
    replace (FIntPoint.Y E + 2 - 1) with (FIntPoint.Y E + 1) by lia.
Qed.

Lemma HalfRoundedUp_bounds (E : FIntPoint) :
  1 <= FIntPoint.X E < Int32.max_value ->
  1 <= FIntPoint.Y E < Int32.max_value ->
  1 <= FIntPoint.X (HalfRoundedUp E) < Int32.max_value
  /\ 1 <= FIntPoint.Y (HalfRoundedUp E) < Int32.max_value.
Proof.
  intros HX HY. unfold HalfRoundedUp. cbn [FIntPoint.X FIntPoint.Y].
  assert ((FIntPoint.X E + 1) / 2 <= FIntPoint.X E)
    by (apply Z.div_le_upper_bound; lia).
  assert ((FIntPoint.Y E + 1) / 2 <= FIntPoint.Y E)
    by (apply Z.div_le_upper_bound; lia).
  lia.
Qed.

Lemma KawaseMipRect_full (E : FIntPoint) :
  1 <= FIntPoint.X E < Int32.max_value ->
  1 <= FIntPoint.Y E < Int32.max_value ->
  KawaseMipRect (FullRect E) = FullRect (HalfRoundedUp E).
Proof.
  intros HX HY. rewrite <- (KawaseMipExtent_half E HX HY).
  unfold KawaseMipRect, KawaseMipExtent.
  rewrite Width_FullRect, Height_FullRect
    by (unfold Int32.InRange, Int32.min_value, Int32.max_value in *; lia).
  destruct E. reflexivity.
Qed.

(** Within [int32], the chain of the code is the chain of the
    specification. *)
Lemma DownChain_halved (downs : list FRDGPass) :
  forall (Source : FRDGTextureRef) (E : FIntPoint) (Level : Z),
    1 <= FIntPoint.X E < Int32.max_value ->
    1 <= FIntPoint.Y E < Int32.max_value ->
    DownChain KawaseMipExtent KawaseMipRect Source E (FullRect E) Level downs ->
    HalvedChain Source E Level downs.
Proof.
  induction downs as [|p rest IH]; intros Source E Level HX HY; simpl.
  - trivial.
  - rewrite (KawaseMipExtent_half E HX HY), (KawaseMipRect_full E HX HY).
    intros (Hp & Hrest). split; [exact Hp|].
    destruct (HalfRoundedUp_bounds E HX HY) as (HX' & HY').
    now apply IH.
Qed.

(** C3, as the code has it. In Kawase mode with the bright pass and both
    Kawase shaders available (and a bright pass extent below the largest
    [int32]), the call records, for M = clamp(KawaseMipCount, 3, 8): M
    downsample passes, the first of which reads the scene colour -- not
    the bright pass texture -- and each later one the mip before. The
    sizes are seeded with the extent of the bright pass, not with the size
    of the scene colour that level 0 reads: level 0 is half the bright
    pass extent, and each later mip half the mip before it, rounded up and
    at least 1x1; each is drawn into the rectangle that fills it; the
    Karis average is on at level 0 only. Then come M-1 upsample passes
    from the smallest mip up, each blending with the downsample mip of its
    own size, and a final upsample pass that reads the top of that chain,
    blends with mip 0 and writes the bloom texture, which is as large as
    the bright pass texture. *)
Theorem kawase_mip_chain
  (FMath_Cos FMath_Sin : float -> float) (View : FViewInfo)
  (Inputs : FPostProcessMaterialInputs)
  (WeakSubsystem : option UClassicBloomSubsystem)
  (Objects : ObjectId -> option UBloomFXComponent) (CurrentTime : double)
  (Shaders : FGlobalShaderMap) (c : UBloomFXComponent)
  (SceneTexture : FRDGTexture) (s : RenderState) :
  GateOpen View Inputs WeakSubsystem Objects Shaders c SceneTexture ->
  BloomMode c = Kawase ->
  HasShader Shaders BrightPassPS = true ->
  HasShader Shaders KawaseDownsamplePS = true ->
  HasShader Shaders KawaseUpsamplePS = true ->
  let ViewRect := FScreenPassTexture.ViewRect (SceneColor Inputs) in
  let Extent := BloomDownsampledExtent c ViewRect in
  let M := FMath.Clamp (KawaseMipCount c) 3 8 in
  FIntPoint.X Extent < Int32.max_value ->
  FIntPoint.Y Extent < Int32.max_value ->
  3 <= M <= 8
  /\ exists r s' BrightPassTexture ts bp blur cps Blurred,
       PostProcessPass_RenderThread FMath_Cos FMath_Sin View Inputs
         WeakSubsystem Objects CurrentTime s
       = Return r s'
       /\ GraphAdds (GraphBuilder s) (GraphBuilder s') (BrightPassTexture :: ts)
            (bp :: blur ++ cps)
       /\ FRDGTextureDesc.Extent (Desc BrightPassTexture) = Extent
       /\ KawaseRecorded KawaseMipExtent KawaseMipRect M (Some SceneTexture)
            Extent (FullRect Extent) blur Blurred
       /\ HalvedChain (Some SceneTexture) Extent 0
            (PassesOf KawaseDownsamplePS blur).
Proof.
  intros Open Hmode Hb Hd Hu ViewRect Extent M HX HY.
  split; [apply FMath_Clamp_int; clear; lia|].
  destruct (pipeline_run FMath_Cos FMath_Sin View Inputs WeakSubsystem Objects
              CurrentTime Shaders c SceneTexture Open s Hb)
    as (r & s' & ts & ps & E & HA & HR).
  destruct HR as (T & bp & bts & blur & Blurred & Output & ots & cps
                  & -> & -> & HN & HE & _ & Hblur & _).
  unfold BlurStageRecorded in Hblur. rewrite Hmode, Hd, Hu in Hblur.
  cbn [andb] in Hblur. rewrite (gate_texture _ _ _ _ _ _ _ Open) in Hblur.
  fold ViewRect Extent M in Hblur, HE.
  change (BloomDownsampledRect c ViewRect) with (FullRect Extent) in Hblur.
  exists r, s', T, (bts ++ ots), bp, blur, cps, Blurred.
  split; [exact E|]. split; [exact HA|]. split; [exact HE|].
  split; [exact Hblur|].
  pose proof (gate_downsampled _ _ _ _ _ _ _ Open) as Hne.
  fold ViewRect in Hne.
  change (BloomDownsampledRect c ViewRect) with (FullRect Extent) in Hne.
  assert (Int32.InRange (FIntPoint.X Extent)
          /\ Int32.InRange (FIntPoint.Y Extent)) as (RX & RY).
  { unfold Extent, BloomDownsampledExtent, FIntPoint.DivideAndRoundUp.
    cbn [FIntPoint.X FIntPoint.Y]. split; apply wrap_range. }
  unfold NoArea in Hne.
  rewrite Width_FullRect, Height_FullRect in Hne by assumption.
  apply orb_false_elim in Hne. destruct Hne as (H1 & H2).
  apply Z.leb_gt in H1, H2.
  destruct Hblur as (final & _ & _ & _ & _ & Hchain & _).
  apply DownChain_halved; [lia | lia | exact Hchain].
Qed.

(** The sample frame in Kawase mode: five mips under a bright pass of
    640x360. *)
Lemma kawase_mip_chain_witness :
  exists r s' BrightPassTexture ts bp blur cps Blurred,
    SampleRun AllShaders (SampleComponent Kawase) = Return r s'
    /\ GraphAdds (GraphBuilder SampleState) (GraphBuilder s')
         (BrightPassTexture :: ts) (bp :: blur ++ cps)
    /\ FRDGTextureDesc.Extent (Desc BrightPassTexture) = FIntPoint.mk 640 360
    /\ KawaseRecorded KawaseMipExtent KawaseMipRect 5 (Some SampleSceneTexture)
         (FIntPoint.mk 640 360) (FullRect (FIntPoint.mk 640 360)) blur Blurred
    /\ HalvedChain (Some SampleSceneTexture) (FIntPoint.mk 640 360) 0
         (PassesOf KawaseDownsamplePS blur).
Proof.
  destruct (kawase_mip_chain SampleCos SampleSin
              (SampleView AllShaders) SampleInputs (Some SampleSubsystem)
              (SampleObjects (SampleComponent Kawase)) d_1
              AllShaders (SampleComponent Kawase) SampleSceneTexture
              SampleState (SampleGate AllShaders Kawase)
              eq_refl eq_refl eq_refl eq_refl eq_refl eq_refl)
    as (_ & H).
  exact H.
Defined.

(** Level 0 is not half the buffer it reads. In the sample frame the
    first downsample pass reads the scene colour, a texture of 1920x1080
    with a view rectangle of 1280x720, and writes a mip of 320x180: half
    the bright pass extent of 640x360. A chain that halved the source from
    level 0 on would start at 960x540 or 640x360. *)
Lemma kawase_level_0_is_not_half_its_source :
  exists r s' p rest P,
    SampleRun AllShaders (SampleComponent Kawase) = Return r s'
    /\ PassesOf KawaseDownsamplePS (Passes (GraphBuilder s')) = p :: rest
    /\ Parameters p = KawaseDownsampleParameters P
    /\ FClassicBloomKawaseDownsamplePS.SourceTexture P
       = Some SampleSceneTexture
    /\ FRDGTextureDesc.Extent (Desc SampleSceneTexture)
       = FIntPoint.mk 1920 1080
    /\ FScreenPassTexture.ViewRect (SceneColor SampleInputs)
       = FullRect (FIntPoint.mk 1280 720)
    /\ BloomDownsampledExtent (SampleComponent Kawase)
         (FScreenPassTexture.ViewRect (SceneColor SampleInputs))
       = FIntPoint.mk 640 360
    /\ TextureExtent (RenderTarget p) = Some (FIntPoint.mk 320 180)
    /\ Viewport p = FullRect (FIntPoint.mk 320 180)
    /\ ~ HalvedChain (Some SampleSceneTexture) (FIntPoint.mk 1920 1080) 0
           (p :: rest)
    /\ ~ HalvedChain (Some SampleSceneTexture) (FIntPoint.mk 1280 720) 0
           (p :: rest).
Proof.
  eexists _, _, _, _, _.
  split; [vm_compute; reflexivity|].
  split; [vm_compute; reflexivity|].
  split; [reflexivity|].
  split; [reflexivity|].
  split; [reflexivity|].
  split; [reflexivity|].
  split; [vm_compute; reflexivity|].
  split; [vm_compute; reflexivity|].
  split; [vm_compute; reflexivity|].
  split; intros (H & _); cbn [Parameters] in H;
    destruct H as (_ & _ & _ & H & _); vm_compute in H; discriminate.
Qed.

(** ** The blur shader *)

Lemma StandardPlan_length (N : Z) :
  1 <= N <= 4 -> Z.of_nat (List.length (StandardPlan N)) = 2 * N.
Proof.
  intros H. assert (N = 1 \/ N = 2 \/ N = 3 \/ N = 4) as [->|[->|[->| ->]]]
    by lia; reflexivity.
Qed.

Lemma StandardRecorded_shader (Shaders : FGlobalShaderMap) (N : Z)
  (Bright : FRDGTextureRef) (ps : list FRDGPass) (Blurred : FRDGTextureRef) :
  1 <= N <= 4 ->
  StandardRecorded Shaders N Bright ps Blurred ->
  Z.of_nat (List.length ps) = 2 * N
  /\ Forall (fun p =>
               PixelShader p
               = TShaderMapRef.mk BlurPS (HasShader Shaders BlurPS)) ps.
Proof.
  intros HN (Temp & _ & _ & H). split.
  - rewrite <- (Forall2_length H). now apply StandardPlan_length.
  - clear HN. induction H as [|step p plan ps Hp _ IH]; constructor.
    + now destruct Hp as (_ & -> & _).
    + exact IH.
Qed.

(** From states that agree, a call with the shader map of the view and a
    call with a map that differs on the blur shader only do the same, up
    to the validity bit of the blur shader reference. *)
Lemma Related_shader_maps (FMath_Cos FMath_Sin : float -> float)
  (View : FViewInfo) (Inputs : FPostProcessMaterialInputs)
  (WeakSubsystem : option UClassicBloomSubsystem)
  (Objects : ObjectId -> option UBloomFXComponent) (CurrentTime : double)
  (Shaders Shaders' : FGlobalShaderMap) :
  ShaderMap View = Some Shaders ->
  AgreeButBlur Shaders Shaders' ->
  Related SameButBlurValidity
    (PostProcessPass_RenderThread FMath_Cos FMath_Sin View Inputs
       WeakSubsystem Objects CurrentTime)
    (PostProcessPass_RenderThread FMath_Cos FMath_Sin
       (WithShaderMap View Shaders') Inputs WeakSubsystem Objects CurrentTime).
Proof.
  intros Hsm Hagree.
  unfold PostProcessPass_RenderThread.
  cbn [WithShaderMap bIsReflectionCapture bIsSceneCapture bIsViewInfo Family
       ShaderMap].
  rewrite Hsm.
  destruct (FScreenPassTexture.IsValid (SceneColor Inputs));
    [|apply Related_return].
  cbn [negb].
  destruct (bIsReflectionCapture View || bIsSceneCapture View
            || negb (bIsViewInfo View)); [apply Related_return|].
  destruct (negb (Rendering (EngineShowFlags (Family View)))
            || negb (PostProcessing (EngineShowFlags (Family View)))
            || Wireframe (EngineShowFlags (Family View)));
    [apply Related_return|].
  destruct WeakSubsystem as [Subsystem|]; [|apply Related_return].
  destruct (FindActiveComponent Objects (BloomComponents Subsystem))
    as [c|]; [|apply Related_return].
  destruct (Float.leb (BloomIntensity c) f_0); [apply Related_return|].
  apply Related_bind; [apply Related_Deref|]. intros SceneTexture.
  apply Related_bind; [now apply Related_LogFrameInfo|]. intros bShouldLog.
  match goal with
  | |- Related _ (if ?b then _ else _) _ =>
      destruct b; [apply Related_return|]
  end.
  match goal with
  | |- Related _ (if ?b then _ else _) _ =>
      destruct b; [apply Related_return|]
  end.
  apply (Related_BloomPasses FMath_Cos FMath_Sin View SameButBlurValidity
           Shaders Shaders').
  - intros p. now left.
  - intros N P V. right. repeat split.
  - exact Hagree.
Qed.

(** C9. Past the gate, with the bright pass shader available and the
    standard blur reached -- by the mode, or because a shader of the
    directional glare or of the Kawase mode is missing -- the call
    returns and the blur stage ends with the 2N passes of the standard
    blur, N = clamp(BlurPasses, 1, 4), each with the blur shader
    reference as the shader map gives it, valid or not; with the
    composite shader available the composite pass follows. And whatever
    the mode, a call with a shader map that differs in the availability
    of the blur shader only has the same kind of outcome, returns the
    same texture and records the same textures and the same passes, up to
    the validity bit of the shader reference of the blur passes. *)
Theorem blur_shader_is_not_checked
  (FMath_Cos FMath_Sin : float -> float) (View : FViewInfo)
  (Inputs : FPostProcessMaterialInputs)
  (WeakSubsystem : option UClassicBloomSubsystem)
  (Objects : ObjectId -> option UBloomFXComponent) (CurrentTime : double)
  (Shaders : FGlobalShaderMap) (c : UBloomFXComponent)
  (SceneTexture : FRDGTexture) (s : RenderState) :
  GateOpen View Inputs WeakSubsystem Objects Shaders c SceneTexture ->
  HasShader Shaders BrightPassPS = true ->
  StandardPathTaken Shaders c = true ->
  let N := FMath.Clamp (BlurPasses c) 1 4 in
  (exists r s' BrightPassTexture ts bp before std cps Blurred,
     PostProcessPass_RenderThread FMath_Cos FMath_Sin View Inputs
       WeakSubsystem Objects CurrentTime s
     = Return r s'
     /\ GraphAdds (GraphBuilder s) (GraphBuilder s') (BrightPassTexture :: ts)
          (bp :: (before ++ std) ++ cps)
     /\ StandardRecorded Shaders N (Some BrightPassTexture) std Blurred
     /\ Z.of_nat (List.length std) = 2 * N
     /\ Forall (fun p =>
                  PixelShader p
                  = TShaderMapRef.mk BlurPS (HasShader Shaders BlurPS)) std
     /\ Forall (fun p => PassKind p = GlareStreakPS) before
     /\ (HasShader Shaders CompositePS = true ->
         exists cp, cps = [cp] /\ PassKind cp = CompositePS))
  /\ (forall Shaders',
        AgreeButBlur Shaders Shaders' ->
        StepRel SameButBlurValidity
          (PostProcessPass_RenderThread FMath_Cos FMath_Sin View Inputs
             WeakSubsystem Objects CurrentTime s)
          (PostProcessPass_RenderThread FMath_Cos FMath_Sin
             (WithShaderMap View Shaders') Inputs WeakSubsystem Objects
             CurrentTime s)).
Proof.
  intros Open Hb Hstd N. split.
  - destruct (pipeline_run FMath_Cos FMath_Sin View Inputs WeakSubsystem
                Objects CurrentTime Shaders c SceneTexture Open s Hb)
      as (r & s' & ts & ps & E & HA & HR).
    destruct HR as (T & bp & bts & blur & Blurred & Output & ots & cps
                    & -> & -> & _ & _ & _ & Hblur & _ & _ & Hcomp).
    assert (1 <= N <= 4) as HN by (now apply FMath_Clamp_int).
    assert (exists before std,
               blur = before ++ std
               /\ StandardRecorded Shaders N (Some T) std Blurred
               /\ Forall (fun p => PassKind p = GlareStreakPS) before)
      as (before & std & -> & Hs & Hk).
    { unfold BlurStageRecorded in Hblur. fold N in Hblur.
      unfold StandardPathTaken in Hstd.
      destruct (BloomMode c).
      - now exists [], blur.
      - destruct (HasShader Shaders GlareStreakPS); [|now exists [], blur].
        destruct (HasShader Shaders GlareAccumulatePS); [discriminate|].
        destruct Hblur as (sps & std & -> & Hk & _ & Hs).
        now exists sps, std.
      - destruct (HasShader Shaders KawaseDownsamplePS
                  && HasShader Shaders KawaseUpsamplePS); [discriminate|].
        now exists [], blur.
      - now exists [], blur. }
    destruct (StandardRecorded_shader _ _ _ _ _ HN Hs) as (Hlen & Hsh).
    exists r, s', T, (bts ++ ots), bp, before, std, cps, Blurred.
    split; [exact E|]. split; [exact HA|]. split; [exact Hs|].
    split; [exact Hlen|]. split; [exact Hsh|]. split; [exact Hk|].
    intros Hc. rewrite Hc in Hcomp. destruct Hcomp as (_ & cp & -> & _ & Hcp).
    exists cp. split; [reflexivity|].
    destruct Hcp as (_ & _ & Hcp). unfold PassKind.
    now destruct (Parameters cp).
  - intros Shaders' Hagree.
    apply (Related_shader_maps FMath_Cos FMath_Sin View Inputs WeakSubsystem
             Objects CurrentTime Shaders Shaders'
             (gate_shaders _ _ _ _ _ _ _ Open) Hagree s s).
    apply StateRel_refl. intros p. now left.
Qed.

(** The sample frame in standard mode without the blur shader: the two
    blur passes are recorded with an invalid shader reference, and the
    composite pass follows. *)
Lemma blur_shader_is_not_checked_witness :
  exists r s' BrightPassTexture ts bp before std cps Blurred,
    SampleRun (ShadersWithout BlurPS) (SampleComponent Standard) = Return r s'
    /\ GraphAdds (GraphBuilder SampleState) (GraphBuilder s')
         (BrightPassTexture :: ts) (bp :: (before ++ std) ++ cps)
    /\ StandardRecorded (ShadersWithout BlurPS) 1 (Some BrightPassTexture) std
         Blurred
    /\ Z.of_nat (List.length std) = 2
    /\ Forall (fun p => PixelShader p = TShaderMapRef.mk BlurPS false) std
    /\ Forall (fun p => PassKind p = GlareStreakPS) before
    /\ exists cp, cps = [cp] /\ PassKind cp = CompositePS.
Proof.
  destruct (blur_shader_is_not_checked SampleCos SampleSin
              (SampleView (ShadersWithout BlurPS)) SampleInputs
              (Some SampleSubsystem)
              (SampleObjects (SampleComponent Standard)) d_1
              (ShadersWithout BlurPS) (SampleComponent Standard)
              SampleSceneTexture SampleState
              (SampleGate (ShadersWithout BlurPS) Standard) eq_refl eq_refl)
    as ((r & s' & T & ts & bp & before & std & cps & Blurred
         & E & HA & Hs & Hl & Hsh & Hk & Hc) & _).
  exists r, s', T, ts, bp, before, std, cps, Blurred.
  exact (conj E (conj HA (conj Hs (conj Hl (conj Hsh (conj Hk (Hc eq_refl))))))).
Defined.

(** ** The blur quality fields *)

Lemma FindActiveComponent_blur_quality
  (Objects Objects' : ObjectId -> option UBloomFXComponent)
  (l : list ObjectId) :
  DifferInBlurQuality Objects Objects' ->
  match FindActiveComponent Objects l, FindActiveComponent Objects' l with
  | Some c, Some c' =>
      c' = WithBlurQuality c (BlurSamples c') (bHighQualityUpsampling c')
  | None, None => True
  | _, _ => False
  end.
Proof.
  intros H. induction l as [|id l IH]; simpl; [exact I|].
  specialize (H id).
  destruct (Objects id) as [c|], (Objects' id) as [c'|]; try contradiction.
  - assert (bIsActive c' = bIsActive c) as -> by (now rewrite H).
    destruct (bIsActive c); [exact H | exact IH].
  - exact IH.
Qed.

(** From states that agree, calls on two tables of components that differ
    in the blur quality fields only do the same to the graph. *)
Lemma Related_blur_quality (FMath_Cos FMath_Sin : float -> float)
  (View : FViewInfo) (Inputs : FPostProcessMaterialInputs)
  (WeakSubsystem : option UClassicBloomSubsystem)
  (Objects Objects' : ObjectId -> option UBloomFXComponent)
  (CurrentTime : double) :
  DifferInBlurQuality Objects Objects' ->
  Related eq
    (PostProcessPass_RenderThread FMath_Cos FMath_Sin View Inputs
       WeakSubsystem Objects CurrentTime)
    (PostProcessPass_RenderThread FMath_Cos FMath_Sin View Inputs
       WeakSubsystem Objects' CurrentTime).
Proof.
  intros Hdiff.
  unfold PostProcessPass_RenderThread.
  destruct (FScreenPassTexture.IsValid (SceneColor Inputs));
    [|apply Related_return].
  cbn [negb].
  destruct (bIsReflectionCapture View || bIsSceneCapture View
            || negb (bIsViewInfo View)); [apply Related_return|].
  destruct (negb (Rendering (EngineShowFlags (Family View)))
            || negb (PostProcessing (EngineShowFlags (Family View)))
            || Wireframe (EngineShowFlags (Family View)));
    [apply Related_return|].
  destruct (ShaderMap View) as [Shaders|]; [|apply Related_return].
  destruct WeakSubsystem as [Subsystem|]; [|apply Related_return].
  pose proof (FindActiveComponent_blur_quality Objects Objects'
                (BloomComponents Subsystem) Hdiff) as Hfind.
  destruct (FindActiveComponent Objects (BloomComponents Subsystem)) as [c|],
    (FindActiveComponent Objects' (BloomComponents Subsystem)) as [c'|];
    try contradiction; [|apply Related_return].
  rewrite Hfind.
  generalize (BlurSamples c') (bHighQualityUpsampling c'). intros n b.
  cbn [WithBlurQuality BloomIntensity].
  destruct (Float.leb (BloomIntensity c) f_0); [apply Related_return|].
  apply Related_bind; [apply Related_Deref|]. intros SceneTexture.
  apply Related_bind; [now apply Related_LogFrameInfo|]. intros bShouldLog.
  match goal with
  | |- Related _ (if ?b then _ else _) _ =>
      destruct b; [apply Related_return|]
  end.
  change (BloomDownsampledRect (WithBlurQuality c n b))
    with (BloomDownsampledRect c).
  change (BloomDownsampledExtent (WithBlurQuality c n b))
    with (BloomDownsampledExtent c).
  change (BloomDivisor (WithBlurQuality c n b)) with (BloomDivisor c).
  change (BloomPasses FMath_Cos FMath_Sin View Shaders (WithBlurQuality c n b))
    with (BloomPasses FMath_Cos FMath_Sin View Shaders c).
  match goal with
  | |- Related _ (if ?b then _ else _) _ =>
      destruct b; [apply Related_return|]
  end.
  apply (Related_BloomPasses FMath_Cos FMath_Sin View eq Shaders Shaders);
    reflexivity.
Qed.

(** C10. Two calls that differ only in the [BlurSamples] and
    [bHighQualityUpsampling] fields of the registered components both
    return, and return the same texture and the same graph: the same
    textures and the same passes, with the same shaders, parameters and
    viewports. ([BlurSamples] is read by the debug header only, and
    [bHighQualityUpsampling] not at all.) *)
Theorem blur_quality_fields_do_not_matter
  (FMath_Cos FMath_Sin : float -> float) (View : FViewInfo)
  (Inputs : FPostProcessMaterialInputs)
  (WeakSubsystem : option UClassicBloomSubsystem)
  (Objects Objects' : ObjectId -> option UBloomFXComponent)
  (CurrentTime : double) (s : RenderState) :
  DifferInBlurQuality Objects Objects' ->
  exists r g,
    GraphOutcome
      (PostProcessPass_RenderThread FMath_Cos FMath_Sin View Inputs
         WeakSubsystem Objects CurrentTime s)
    = Some (r, g)
    /\ GraphOutcome
         (PostProcessPass_RenderThread FMath_Cos FMath_Sin View Inputs
            WeakSubsystem Objects' CurrentTime s)
       = Some (r, g).
Proof.
  intros Hdiff.
  pose proof (Related_blur_quality FMath_Cos FMath_Sin View Inputs
                WeakSubsystem Objects Objects' CurrentTime Hdiff s s
                (StateRel_refl eq s (fun p => eq_refl))) as H.
  destruct (always_returns FMath_Cos FMath_Sin View Inputs WeakSubsystem
              Objects CurrentTime s) as (r & s1 & E).
  rewrite E in H |- *.
  destruct (PostProcessPass_RenderThread FMath_Cos FMath_Sin View Inputs
              WeakSubsystem Objects' CurrentTime s)
    as [a s2|r2 s2|why]; try contradiction.
  destruct H as (<- & Hg & _). apply GraphRel_eq in Hg.
  exists r, (GraphBuilder s1). simpl. now rewrite Hg.
Qed.

(** The sample frame in standard mode, with 5 samples and plain
    upsampling against 13 samples and high quality upsampling. *)
Lemma blur_quality_fields_do_not_matter_witness :
  exists r g,
    GraphOutcome (SampleRun AllShaders (SampleComponent Standard))
    = Some (r, g)
    /\ GraphOutcome
         (SampleRun AllShaders
            (WithBlurQuality (SampleComponent Standard) 13 true))
       = Some (r, g).
Proof.
  apply (blur_quality_fields_do_not_matter SampleCos SampleSin
           (SampleView AllShaders) SampleInputs (Some SampleSubsystem)
           (SampleObjects (SampleComponent Standard))
           (SampleObjects (WithBlurQuality (SampleComponent Standard) 13 true))
           d_1 SampleState).
  intros id. unfold SampleObjects. destruct (Nat.eqb id 3); [reflexivity|exact I].
Defined.

(** ** The scene view extension *)

Lemma HasActiveComponents_find
  (Objects : ObjectId -> option UBloomFXComponent) (l : list ObjectId) :
  HasActiveComponents Objects l
  = match FindActiveComponent Objects l with Some _ => true | None => false end.
Proof.
  induction l as [|id l IH]; simpl; [reflexivity|].
  destruct (Objects id) as [c|]; [destruct (bIsActive c)|]; auto.
Qed.

Lemma FindActiveComponent_None_inv
  (Objects : ObjectId -> option UBloomFXComponent) (l : list ObjectId) :
  FindActiveComponent Objects l = None -> NoActiveComponent Objects l.
Proof.
  induction l as [|x l IH]; simpl; intros E id c Hin Hid; [destruct Hin|].
  destruct Hin as [->|Hin].
  - rewrite Hid in E. destruct (bIsActive c); [discriminate | reflexivity].
  - apply (IH ltac:(destruct (Objects x) as [cx|];
                    [destruct (bIsActive cx)|]; congruence) id c Hin Hid).
Qed.

(** Without a live and active component a call is a pass-through. *)
Lemma render_without_component
  (FMath_Cos FMath_Sin : float -> float) (View : FViewInfo)
  (Inputs : FPostProcessMaterialInputs)
  (WeakSubsystem : option UClassicBloomSubsystem)
  (Objects : ObjectId -> option UBloomFXComponent) (CurrentTime : double)
  (s : RenderState) :
  (forall Subsystem,
     WeakSubsystem = Some Subsystem ->
     FindActiveComponent Objects (BloomComponents Subsystem) = None) ->
  PostProcessPass_RenderThread FMath_Cos FMath_Sin View Inputs WeakSubsystem
    Objects CurrentTime s
  = Return (SceneColor Inputs) s.
Proof.
  intros Hnone. unfold PostProcessPass_RenderThread.
  destruct (FScreenPassTexture.IsValid (SceneColor Inputs)); [|reflexivity].
  cbn [negb].
  destruct (bIsReflectionCapture View || bIsSceneCapture View
            || negb (bIsViewInfo View)); [reflexivity|].
  destruct (negb (Rendering (EngineShowFlags (Family View)))
            || negb (PostProcessing (EngineShowFlags (Family View)))
            || Wireframe (EngineShowFlags (Family View))); [reflexivity|].
  destruct (ShaderMap View); [|reflexivity].
  destruct WeakSubsystem as [Subsystem|]; [|reflexivity].
  now rewrite (Hnone Subsystem eq_refl).
Qed.

(** X1. The extension reports itself active exactly when its subsystem is
    alive and the render function would find a live and active
    component; when it reports itself inactive, a call of the render
    function returns the scene colour input and leaves the graph, the log
    and the time stamp as they are. *)
Theorem inactive_extension_passes_through
  (WeakSubsystem : option UClassicBloomSubsystem)
  (Objects : ObjectId -> option UBloomFXComponent) :
  (IsActiveThisFrame_Internal WeakSubsystem Objects = true
   <-> exists Subsystem c,
         WeakSubsystem = Some Subsystem
         /\ FirstActiveComponent Objects (BloomComponents Subsystem) c)
  /\ (IsActiveThisFrame_Internal WeakSubsystem Objects = false ->
      forall (FMath_Cos FMath_Sin : float -> float) (View : FViewInfo)
        (Inputs : FPostProcessMaterialInputs) (CurrentTime : double)
        (s : RenderState),
        PostProcessPass_RenderThread FMath_Cos FMath_Sin View Inputs
          WeakSubsystem Objects CurrentTime s
        = Return (SceneColor Inputs) s).
Proof.
  split.
  - unfold IsActiveThisFrame_Internal. destruct WeakSubsystem as [S|].
    + rewrite HasActiveComponents_find.
      destruct (FindActiveComponent Objects (BloomComponents S)) as [c|] eqn:E.
      * split; [|reflexivity]. intros _. exists S, c.
        split; [reflexivity | now apply FindActiveComponent_Some].
      * split; [discriminate|]. intros (S' & c & [= <-] & Hc).
        apply FindActiveComponent_first in Hc. congruence.
    + split; [discriminate|]. intros (S' & c & [=] & _).
  - intros Hinactive FMath_Cos FMath_Sin View Inputs CurrentTime s.
    apply render_without_component. intros S ->.
    unfold IsActiveThisFrame_Internal in Hinactive.
    rewrite HasActiveComponents_find in Hinactive.
    now destruct (FindActiveComponent Objects (BloomComponents S)).
Qed.
Lemma EPostProcessingPass_eqb_eq (a b : EPostProcessingPass) :
  EPostProcessingPass.eqb a b = true <-> a = b.
Proof.
  destruct a, b; simpl; split; intros H; try reflexivity; try discriminate.
  - apply Nat.eqb_eq in H. now subst.
  - injection H as ->. apply Nat.eqb_refl.
Qed.

Lemma Num_positive {A : Type} (l : list A) : (0 <? Num l) = false <-> l = [].
Proof.
  unfold Num. destruct l; simpl; split; intros H; try reflexivity;
    try discriminate.
Qed.

(** Case analysis on the tests of a subscription, in the order of the
    code. *)
Ltac subscribe_cases H :=
  unfold SubscribeToPostProcessingPass in H;
  repeat match type of H with
         | context [match FSceneView.Family ?V with _ => _ end] =>
             destruct (FSceneView.Family V) as [?Family|] eqn:?HFamily
         | context [if IsPreviewWorld ?F then _ else _] =>
             destruct (IsPreviewWorld F) eqn:?HPreview
         | context [PostProcessing ?F] =>
             destruct (PostProcessing F) eqn:?HPost; cbn [negb] in H
         | context [Rendering ?F] =>
             destruct (Rendering F) eqn:?HRender; cbn [negb orb] in H
         | context [Wireframe ?F] =>
             destruct (Wireframe F) eqn:?HWire; cbn [negb orb] in H
         | context [match Scene ?F with _ => _ end] =>
             destruct (Scene F) as [?Sc|] eqn:?HScene
         | context [match GetWorld ?S with _ => _ end] =>
             destruct (GetWorld S) as [?World|] eqn:?HWorld
         | context [match ?W with Some _ => _ | None => Completed _ end] =>
             destruct W as [?Subsystem|] eqn:?HWeak
         | context [DesiredPass ?O ?S] =>
             destruct (DesiredPass O S) as [?Desired ?bEnableDebug]
               eqn:?HDesired
         | context [EPostProcessingPass.eqb ?a ?b] =>
             destruct (EPostProcessingPass.eqb a b) eqn:?HPass
         | context [0 <? Num ?l] =>
             destruct (0 <? Num l) eqn:?HNum
         | context [?d && Double.ltb ?a ?b] =>
             destruct (d && Double.ltb a b) eqn:?HLog
         end.

(** X2. A subscription that runs to its end leaves the callbacks of the
    pass as they are, or finds them empty and adds the delegate of the
    plugin: it never adds to an array that holds a callback, its own or
    another extension's, and never removes one. *)
Theorem subscription_adds_at_most_one_callback
  (PassValue : EPostProcessingPass -> Z)
  (WeakSubsystem : option UClassicBloomSubsystem)
  (Objects : ObjectId -> option UBloomFXComponent) (CurrentTime : double)
  (PassId : EPostProcessingPass) (View : FSceneView) (bIsPassEnabled : bool)
  (s s' : FSubscribeState) :
  SubscribeToPostProcessingPass PassValue WeakSubsystem Objects CurrentTime
    PassId View bIsPassEnabled s
  = Completed s' ->
  InOutPassCallbacks s' = InOutPassCallbacks s
  \/ (InOutPassCallbacks s = []
      /\ InOutPassCallbacks s' = [ClassicBloomDelegate]).
Proof.
  intros H. subscribe_cases H; try discriminate;
    injection H as <-; cbn [InOutPassCallbacks]; auto;
    apply Num_positive in HNum; rewrite HNum; auto.
Qed.

(** A second subscription for the pass of the sample component finds the
    delegate of the first and adds nothing. *)
Lemma subscription_adds_at_most_one_callback_witness :
  exists s1 s2,
    SubscribeToPostProcessingPass SamplePassValue (Some SampleSubsystem)
      (SampleObjects (SampleComponent Standard)) d_1
      EPostProcessingPass.Tonemap SampleSceneView true SampleSubscribeState
    = Completed s1
    /\ SubscribeToPostProcessingPass SamplePassValue (Some SampleSubsystem)
         (SampleObjects (SampleComponent Standard)) d_1
         EPostProcessingPass.Tonemap SampleSceneView true s1
       = Completed s2
    /\ InOutPassCallbacks s1 = [ClassicBloomDelegate]
    /\ InOutPassCallbacks s2 = [ClassicBloomDelegate].
Proof.
  eexists _, _. split; [reflexivity|]. split; [reflexivity|].
  split; [reflexivity|].
  match goal with
  | |- InOutPassCallbacks ?s2 = _ =>
      destruct (subscription_adds_at_most_one_callback SamplePassValue
                  (Some SampleSubsystem)
                  (SampleObjects (SampleComponent Standard)) d_1
                  EPostProcessingPass.Tonemap SampleSceneView true
                  {| InOutPassCallbacks := [ClassicBloomDelegate];
                     SubscribeLog := [];
                     LastSkipLogTime := S754_zero false;
                     LastSubscribeLogTime := S754_zero false |}
                  s2 eq_refl) as [H | [H _]]
  end.
  - exact H.
  - discriminate H.
Defined.



(** X4. With a live subsystem and no live and active component, a
    subscription for the motion blur pass on an eligible view with no
    callback adds the delegate all the same, and writes nothing else;
    every call of the render function is then a pass-through. *)
Theorem subscription_without_active_component
  (PassValue : EPostProcessingPass -> Z)
  (Subsystem : UClassicBloomSubsystem)
  (Objects : ObjectId -> option UBloomFXComponent) (CurrentTime : double)
  (View : FSceneView) (Family : FSceneViewFamily) (bIsPassEnabled : bool)
  (s : FSubscribeState) :
  FSceneView.Family View = Some Family ->
  IsPreviewWorld Family = false ->
  Rendering (EngineShowFlags Family) = true ->
  PostProcessing (EngineShowFlags Family) = true ->
  Wireframe (EngineShowFlags Family) = false ->
  NoActiveComponent Objects (BloomComponents Subsystem) ->
  InOutPassCallbacks s = [] ->
  SubscribeToPostProcessingPass PassValue (Some Subsystem) Objects CurrentTime
    EPostProcessingPass.MotionBlur View bIsPassEnabled s
  = Completed
      {| InOutPassCallbacks := [ClassicBloomDelegate];
         SubscribeLog := SubscribeLog s;
         LastSkipLogTime := LastSkipLogTime s;
         LastSubscribeLogTime := LastSubscribeLogTime s |}
  /\ forall (FMath_Cos FMath_Sin : float -> float) (RenderView : FViewInfo)
       (Inputs : FPostProcessMaterialInputs) (RenderTime : double)
       (rs : RenderState),
       PostProcessPass_RenderThread FMath_Cos FMath_Sin RenderView Inputs
         (Some Subsystem) Objects RenderTime rs
       = Return (SceneColor Inputs) rs.
Proof.
  intros HF HP HR HPP HW Hnone Hempty. split.
  - unfold SubscribeToPostProcessingPass, DesiredPass.
    rewrite HF, HP, HPP, HR, HW, (FindActiveComponent_None _ _ Hnone), Hempty.
    reflexivity.
  - intros. apply render_without_component. intros S [= <-].
    now apply FindActiveComponent_None.
Qed.

(** The sample frame with its component unregistered. *)
Lemma subscription_without_active_component_witness :
  SubscribeToPostProcessingPass SamplePassValue (Some Initialize)
    (SampleObjects (SampleComponent Standard)) d_1
    EPostProcessingPass.MotionBlur SampleSceneView true SampleSubscribeState
  = Completed
      {| InOutPassCallbacks := [ClassicBloomDelegate];
         SubscribeLog := [];
         LastSkipLogTime := S754_zero false;
         LastSubscribeLogTime := S754_zero false |}
  /\ PostProcessPass_RenderThread SampleCos SampleSin (SampleView AllShaders)
       SampleInputs (Some Initialize)
       (SampleObjects (SampleComponent Standard)) d_1 SampleState
     = Return (SceneColor SampleInputs) SampleState.
Proof.
  destruct (subscription_without_active_component SamplePassValue Initialize
              (SampleObjects (SampleComponent Standard)) d_1 SampleSceneView
              (Family (SampleView AllShaders)) true SampleSubscribeState
              eq_refl eq_refl eq_refl eq_refl eq_refl
              ltac:(intros id c [])
              eq_refl) as (H1 & H2).
  split; [exact H1 | apply H2].
Defined.

(** X5. A subscription reads [WorldType] through a null world exactly
    when the scene of the view has no world, the view is otherwise
    eligible, the subsystem is alive, the pass is the desired one, no
    callback is there yet, and the first live and active component has
    debug logging on with the last subscription log more than a second
    old. *)
Theorem subscription_null_world
  (PassValue : EPostProcessingPass -> Z)
  (WeakSubsystem : option UClassicBloomSubsystem)
  (Objects : ObjectId -> option UBloomFXComponent) (CurrentTime : double)
  (PassId : EPostProcessingPass) (View : FSceneView) (bIsPassEnabled : bool)
  (s : FSubscribeState) :
  SubscribeToPostProcessingPass PassValue WeakSubsystem Objects CurrentTime
    PassId View bIsPassEnabled s
  = NullWorldDereference
  <-> exists Family Sc Subsystem c,
        FSceneView.Family View = Some Family
        /\ Scene Family = Some Sc
        /\ GetWorld Sc = None
        /\ Rendering (EngineShowFlags Family) = true
        /\ PostProcessing (EngineShowFlags Family) = true
        /\ Wireframe (EngineShowFlags Family) = false
        /\ WeakSubsystem = Some Subsystem
        /\ FirstActiveComponent Objects (BloomComponents Subsystem) c
        /\ PassId = DesiredPassOf (PostProcessPass c)
        /\ InOutPassCallbacks s = []
        /\ bEnableDebugLogging c = true
        /\ Double.ltb d_1 (Double.sub CurrentTime (LastSubscribeLogTime s))
           = true.
Proof.
  split.
  - intros H. subscribe_cases H; try discriminate.
    unfold DesiredPass in HDesired.
    match type of HDesired with
    | context [FindActiveComponent ?O ?l] =>
        destruct (FindActiveComponent O l) as [c|] eqn:Hfind
    end.
    + injection HDesired as <- <-.
      apply andb_prop in HLog. destruct HLog as (Hdbg & Hlt).
      eexists _, _, _, c.
      repeat (split; [reflexivity || eassumption|]).
      split; [now apply FindActiveComponent_Some|].
      split; [now apply EPostProcessingPass_eqb_eq|].
      split; [now apply Num_positive|]. now split.
    + injection HDesired as <- <-. discriminate HLog.
  - intros (Family & Sc & Subsystem & c & HF & HSc & HWd & HR & HPP & HW
            & -> & Hc & -> & Hempty & Hdbg & Hlt).
    unfold SubscribeToPostProcessingPass, DesiredPass, IsPreviewWorld.
    rewrite HF, HSc, HWd, HPP, HR, HW, (FindActiveComponent_first _ _ _ Hc).
    cbn [negb orb].
    rewrite (proj2 (EPostProcessingPass_eqb_eq _ _) eq_refl), Hempty, Hdbg, Hlt.
    reflexivity.
Qed.

(** The sample component with debug logging on, on a view whose scene has
    no world, two seconds after start. *)
Lemma subscription_null_world_witness :
  SubscribeToPostProcessingPass SamplePassValue (Some SampleSubsystem)
    (SampleObjects SampleDebugComponent) d_2 EPostProcessingPass.Tonemap
    WorldlessSceneView true SampleSubscribeState
  = NullWorldDereference.
Proof.
  apply (proj2 (subscription_null_world SamplePassValue (Some SampleSubsystem)
                  (SampleObjects SampleDebugComponent) d_2
                  EPostProcessingPass.Tonemap WorldlessSceneView true
                  SampleSubscribeState)).
  eexists _, _, SampleSubsystem, SampleDebugComponent.
  repeat (split; [reflexivity|]).
  split; [|repeat split].
  exists [], 3%nat, []. repeat split. intros id c [].
Defined.

(** ** The component *)

Lemma In_Remove (l : list ObjectId) (c x : ObjectId) :
  In x (TArray.Remove l c) <-> In x l /\ x <> c.
Proof.
  unfold TArray.Remove. rewrite filter_In. split.
  - intros (Hin & Hne). split; [exact Hin|]. intros ->.
    now rewrite Nat.eqb_refl in Hne.
  - intros (Hin & Hne). split; [exact Hin|].
    destruct (Nat.eqb_spec c x); [congruence | reflexivity].
Qed.

Lemma Remove_not_In (l : list ObjectId) (c : ObjectId) :
  ~ In c (TArray.Remove l c).
Proof. intros H. apply In_Remove in H. now destruct H. Qed.

Lemma AddUnique_absent (l : list ObjectId) (c : ObjectId) :
  ~ In c l -> TArray.AddUnique l c = l ++ [c].
Proof.
  intros Hnin. unfold TArray.AddUnique.
  destruct (TArray.Contains l c) eqn:E; [|reflexivity].
  apply Contains_In in E. contradiction.
Qed.

Lemma In_AddUnique (l : list ObjectId) (c x : ObjectId) :
  In x (TArray.AddUnique l c) <-> In x l \/ x = c.
Proof.
  unfold TArray.AddUnique. destruct (TArray.Contains l c) eqn:E.
  - apply Contains_In in E. split; [auto|]. intros [H| ->]; assumption.
  - rewrite in_app_iff. simpl. intuition congruence.
Qed.

Lemma Remove_appended (l : list ObjectId) (c : ObjectId) :
  TArray.Remove (l ++ [c]) c = TArray.Remove l c.
Proof.
  unfold TArray.Remove. rewrite filter_app. simpl.
  rewrite Nat.eqb_refl. simpl. apply app_nil_r.
Qed.

Lemma Remove_requeued (l : list ObjectId) (c : ObjectId) :
  TArray.Remove (TArray.Remove l c ++ [c]) c = TArray.Remove l c.
Proof.
  rewrite Remove_appended. apply Remove_absent, Remove_not_In.
Qed.

Lemma NoDup_requeued (l : list ObjectId) (c : ObjectId) :
  NoDup l -> NoDup (TArray.Remove l c ++ [c]).
Proof.
  intros H. rewrite <- AddUnique_absent by apply Remove_not_In.
  now apply AddUnique_NoDup, Remove_NoDup.
Qed.

(** Unregistering and registering again puts the component last. *)
Lemma requeued_after_reinitialize (This : ObjectId) (Subsystem : UClassicBloomSubsystem) :
  RegisteredComponents
    (RegisterWithSubsystem This
       (UnregisterFromSubsystem This (Some (Some Subsystem))))
  = TArray.Remove (BloomComponents Subsystem) This ++ [This].
Proof. simpl. apply AddUnique_absent, Remove_not_In. Qed.

(** X6. A component that the engine registers and starts (first
    [OnRegister], then [BeginPlay]) is in the array of its subsystem
    exactly once, and the other entries are as before; after [EndPlay] it
    is not in the array; [EndPlay] and [OnUnregister] after the start give
    back the world as it was, if the component was not registered before;
    and without a world, or without a subsystem in it, the four functions
    change nothing. *)
Theorem component_lifecycle (This : ObjectId) (World : FComponentWorld) :
  NoDup (RegisteredComponents World) ->
  let Playing := BeginPlay This (OnRegister This World) in
  (forall Subsystem,
     World = Some (Some Subsystem) ->
     count_occ Nat.eq_dec (RegisteredComponents Playing) This = 1%nat)
  /\ (forall other,
        other <> This ->
        In other (RegisteredComponents Playing)
        <-> In other (RegisteredComponents World))
  /\ ~ In This (RegisteredComponents (EndPlay This Playing))
  /\ (~ In This (RegisteredComponents World) ->
      OnUnregister This (EndPlay This Playing) = World)
  /\ (World = None \/ World = Some None ->
      Playing = World /\ EndPlay This World = World
      /\ OnUnregister This World = World).
Proof.
  intros Hnd Playing. unfold Playing, BeginPlay, OnRegister, EndPlay,
    OnUnregister.
  destruct World as [[[l]|]|]; simpl in *.
  - assert (In This (TArray.AddUnique l This)) as Hin
      by (apply In_AddUnique; now right).
    rewrite (AddUnique_present _ _ Hin).
    split; [|split; [|split; [|split]]].
    + intros S _. apply (proj1 (NoDup_count_occ' Nat.eq_dec _)).
      * now apply AddUnique_NoDup.
      * exact Hin.
    + intros other Hne. rewrite In_AddUnique. intuition congruence.
    + apply Remove_not_In.
    + intros Hnin. rewrite (AddUnique_absent _ _ Hnin).
      rewrite (Remove_absent (TArray.Remove _ _) This) by apply Remove_not_In.
      now rewrite Remove_appended, (Remove_absent l This Hnin).
    + intros [H|H]; discriminate H.
  - split; [discriminate|]. split; [tauto|]. split; [tauto|]. auto.
  - split; [discriminate|]. split; [tauto|]. split; [tauto|]. auto.
Qed.

(** A world whose subsystem holds component 1; component 2 comes and
    goes. *)
Lemma component_lifecycle_witness :
  let World :=
    Some (Some (RegisterBloomComponent (Some 1%nat) Initialize)) in
  In 1%nat (RegisteredComponents (BeginPlay 2%nat (OnRegister 2%nat World)))
  /\ OnUnregister 2%nat
       (EndPlay 2%nat (BeginPlay 2%nat (OnRegister 2%nat World)))
     = World.
Proof.
  intros World.
  assert (NoDup (RegisteredComponents World)) as Hnd
    by (simpl; repeat constructor; intros []).
  destruct (component_lifecycle 2%nat World Hnd) as (_ & Hother & _ & Hback & _).
  split.
  - apply Hother; [discriminate | simpl; now left].
  - apply Hback. simpl. intros [H|[]]. discriminate H.
Defined.

(** The state of the component and of its world after a tick. *)
Lemma TickComponent_world (DeltaTime : float) (This : ObjectId)
  (s : FTickState) (Subsystem : UClassicBloomSubsystem) :
  TickWorld s = Some (Some Subsystem) ->
  let l := BloomComponents Subsystem in
  let l' := RegisteredComponents (TickWorld (TickComponent DeltaTime This s)) in
  (l' = l \/ l' = TArray.Remove l This ++ [This])
  /\ (bReinitializeRect (Properties s) = true ->
      l' = TArray.Remove l This ++ [This]).
Proof.
  intros HW l l'. unfold l', TickComponent, TickAutoReinitialize,
    TickManualReinitialize.
  destruct (bReinitializeRect (Properties s)) eqn:Hb;
    cbn [Properties ReinitializeTimer TickWorld WithReinitializeRect
         bAutoReinitializeRect ReinitializeInterval bEnableDebugLogging].
  - rewrite HW.
    destruct (bAutoReinitializeRect (Properties s)
              && Float.ltb f_0 (ReinitializeInterval (Properties s)));
      [destruct (Float.leb _ _)|]; cbn [TickWorld].
    + pose proof (requeued_after_reinitialize This Subsystem) as E.
      destruct (RegisterWithSubsystem This
                  (UnregisterFromSubsystem This (Some (Some Subsystem))))
        as [[[l1]|]|] eqn:E1; try discriminate E1.
      cbn [RegisteredComponents BloomComponents] in E. subst l1.
      rewrite requeued_after_reinitialize. cbn [BloomComponents].
      rewrite Remove_requeued. fold l. auto.
    + rewrite requeued_after_reinitialize. fold l. auto.
    + rewrite requeued_after_reinitialize. fold l. auto.
  - destruct (bAutoReinitializeRect (Properties s)
              && Float.ltb f_0 (ReinitializeInterval (Properties s)));
      [destruct (Float.leb _ _)|]; cbn [TickWorld]; rewrite HW.
    + rewrite requeued_after_reinitialize. fold l.
      split; [auto | discriminate].
    + split; [now left | discriminate].
    + split; [now left | discriminate].
Qed.

(** X7. After a tick the reinitialize button is released and the other
    properties are as before. The array of the subsystem is as before,
    or -- always when the button was pressed -- it is the array without
    the component followed by the component: the other entries keep
    their order, the component is registered even if it was not, and an
    array without duplicates stays so. *)
Theorem tick_reinitialize_requeues (DeltaTime : float) (This : ObjectId)
  (s : FTickState) (Subsystem : UClassicBloomSubsystem) :
  TickWorld s = Some (Some Subsystem) ->
  let l := BloomComponents Subsystem in
  let s' := TickComponent DeltaTime This s in
  let l' := RegisteredComponents (TickWorld s') in
  Properties s' = WithReinitializeRect (Properties s) false
  /\ (l' = l \/ l' = TArray.Remove l This ++ [This])
  /\ (bReinitializeRect (Properties s) = true ->
      l' = TArray.Remove l This ++ [This])
  /\ TArray.Remove l' This = TArray.Remove l This
  /\ (NoDup l -> NoDup l').
Proof.
  intros HW l s' l'.
  destruct (TickComponent_world DeltaTime This s Subsystem HW) as (Hl & Hb).
  fold l s' l' in Hl, Hb.
  split; [|split; [exact Hl|split; [exact Hb|split]]].
  - unfold s', TickComponent, TickAutoReinitialize, TickManualReinitialize.
    destruct (bReinitializeRect (Properties s)) eqn:E;
      cbn [Properties WithReinitializeRect bAutoReinitializeRect
           ReinitializeInterval].
    + destruct (bAutoReinitializeRect (Properties s)
                && Float.ltb f_0 (ReinitializeInterval (Properties s)));
        [destruct (Float.leb _ _)|]; reflexivity.
    + destruct (bAutoReinitializeRect (Properties s)
                && Float.ltb f_0 (ReinitializeInterval (Properties s)));
        [destruct (Float.leb _ _)|]; cbn [Properties];
        destruct (Properties s); simpl in E; subst; reflexivity.
  - destruct Hl as [-> | ->]; [reflexivity | apply Remove_requeued].
  - intros Hnd. destruct Hl as [-> | ->];
      [exact Hnd | now apply NoDup_requeued].
Qed.

(** Component 1 of [1; 2] with the button pressed. *)
Lemma tick_reinitialize_requeues_witness :
  let World :=
    Some (Some (RegisterBloomComponent (Some 2%nat)
                  (RegisterBloomComponent (Some 1%nat) Initialize))) in
  let s :=
    {| TickWorld := World; Properties := SampleDebugComponent;
       ReinitializeTimer := f_0; TickLog := [] |} in
  RegisteredComponents (TickWorld (TickComponent f_1 1%nat s))
  = [2%nat; 1%nat]
  /\ bReinitializeRect (Properties (TickComponent f_1 1%nat s)) = false.
Proof.
  intros World s.
  destruct (tick_reinitialize_requeues f_1 1%nat s _ eq_refl)
    as (HP & _ & Hl & _).
  split; [exact (Hl eq_refl) | now rewrite HP].
Defined.

Lemma FindActiveComponent_app
  (Objects : ObjectId -> option UBloomFXComponent) (a b : list ObjectId) :
  FindActiveComponent Objects (a ++ b)
  = match FindActiveComponent Objects a with
    | Some c => Some c
    | None => FindActiveComponent Objects b
    end.
Proof.
  induction a as [|x a IH]; simpl; [reflexivity|].
  destruct (Objects x) as [c|]; [destruct (bIsActive c)|]; auto.
Qed.

(** X8. When the reinitialize button of a component is pressed and
    another registered component is live and active, then after the tick
    the first live and active entry of the array -- the component whose
    settings the render function uses -- is another component, wherever
    the ticking component stood before. *)
Theorem reinitialize_yields_priority (DeltaTime : float) (This : ObjectId)
  (s : FTickState) (Subsystem : UClassicBloomSubsystem)
  (Objects : ObjectId -> option UBloomFXComponent)
  (other : ObjectId) (c : UBloomFXComponent) :
  TickWorld s = Some (Some Subsystem) ->
  bReinitializeRect (Properties s) = true ->
  In other (BloomComponents Subsystem) ->
  other <> This ->
  Objects other = Some c ->
  bIsActive c = true ->
  exists before id after c',
    RegisteredComponents (TickWorld (TickComponent DeltaTime This s))
    = before ++ id :: after
    /\ id <> This
    /\ NoActiveComponent Objects before
    /\ Objects id = Some c'
    /\ bIsActive c' = true
    /\ FindActiveComponent Objects
         (RegisteredComponents (TickWorld (TickComponent DeltaTime This s)))
       = Some c'.
Proof.
  intros HW Hb Hin Hne Hother Hact.
  destruct (TickComponent_world DeltaTime This s Subsystem HW) as (_ & Hl).
  rewrite (Hl Hb).
  destruct (FindActiveComponent Objects
              (TArray.Remove (BloomComponents Subsystem) This))
    as [c'|] eqn:Hfind.
  - destruct (FindActiveComponent_Some _ _ _ Hfind)
      as (before & id & after & E & Hno & Hid & Ha).
    exists before, id, (after ++ [This]), c'.
    rewrite E, <- app_assoc. split; [reflexivity|].
    split.
    { assert (In id (TArray.Remove (BloomComponents Subsystem) This)) as Hi
        by (rewrite E; apply in_elt).
      apply In_Remove in Hi. now destruct Hi. }
    split; [exact Hno|]. split; [exact Hid|]. split; [exact Ha|].
    change (before ++ id :: after ++ [This])
      with (before ++ (id :: after) ++ [This]).
    rewrite app_assoc, <- E, FindActiveComponent_app, Hfind. reflexivity.
  - exfalso. apply FindActiveComponent_None_inv in Hfind.
    assert (In other (TArray.Remove (BloomComponents Subsystem) This)) as Hi
      by (apply In_Remove; now split).
    rewrite (Hfind other c Hi Hother) in Hact. discriminate.
Qed.

(** Components 1 and 2, both the sample component; 1 is first until its
    button is pressed. *)
Lemma reinitialize_yields_priority_witness :
  let World :=
    Some (Some (RegisterBloomComponent (Some 2%nat)
                  (RegisterBloomComponent (Some 1%nat) Initialize))) in
  let s :=
    {| TickWorld := World; Properties := SampleDebugComponent;
       ReinitializeTimer := f_0; TickLog := [] |} in
  exists before id after c',
    RegisteredComponents (TickWorld (TickComponent f_1 1%nat s))
    = before ++ id :: after
    /\ id <> 1%nat
    /\ NoActiveComponent (fun _ => Some SampleDebugComponent) before
    /\ Some SampleDebugComponent = Some c'
    /\ bIsActive c' = true
    /\ FindActiveComponent (fun _ => Some SampleDebugComponent)
         (RegisteredComponents (TickWorld (TickComponent f_1 1%nat s)))
       = Some c'.
Proof.
  intros World s.
  apply (reinitialize_yields_priority f_1 1%nat s _
           (fun _ => Some SampleDebugComponent) 2%nat SampleDebugComponent
           eq_refl eq_refl).
  - simpl. auto.
  - discriminate.
  - reflexivity.
  - reflexivity.
Defined.

(** ** The render function on every input *)

(** X9. Whatever the view, the inputs, the subsystem, the components and
    the graph, a call of the render function returns a texture -- it
    never fails a range check on its arrays of streak, mip and upsample
    textures and never dereferences a null texture -- and it only appends
    to the graph: the textures and passes that were recorded stay, in
    their order. *)
Theorem render_returns_and_only_appends
  (FMath_Cos FMath_Sin : float -> float) (View : FViewInfo)
  (Inputs : FPostProcessMaterialInputs)
  (WeakSubsystem : option UClassicBloomSubsystem)
  (Objects : ObjectId -> option UBloomFXComponent) (CurrentTime : double)
  (s : RenderState) :
  exists r s' ts ps,
    PostProcessPass_RenderThread FMath_Cos FMath_Sin View Inputs WeakSubsystem
      Objects CurrentTime s
    = Return r s'
    /\ GraphAdds (GraphBuilder s) (GraphBuilder s') ts ps.
Proof.
  destruct (gate_cases FMath_Cos FMath_Sin View Inputs WeakSubsystem Objects
              CurrentTime s)
    as [E | [(S & c & s' & _ & _ & _ & _ & E & G & _) | (Sh & c & T & Open)]].
  - exists (SceneColor Inputs), s, [], []. split; [exact E|].
    apply GraphAdds_nil.
  - exists (SceneColor Inputs), s', [], []. split; [exact E|].
    rewrite G. apply GraphAdds_nil.
  - destruct (HasShader Sh BrightPassPS) eqn:Hb.
    + destruct (pipeline_run FMath_Cos FMath_Sin View Inputs WeakSubsystem
                  Objects CurrentTime Sh c T Open s Hb)
        as (r & s' & ts & ps & E & HA & _).
      now exists r, s', ts, ps.
    + destruct (pipeline_bright_unavailable FMath_Cos FMath_Sin View Inputs
                  WeakSubsystem Objects CurrentTime Sh c T Open s Hb)
        as (T' & s' & E & HA & _).
      now exists (SceneColor Inputs), s', [T'], [].
Qed.

(** ** Silence *)

Lemma Silent_ret {A : Type} (a : A) : Silent (ret a).
Proof. intros s. simpl. auto. Qed.

Lemma Silent_return {A : Type} (r : FScreenPassTexture) : Silent (@return_ A r).
Proof. intros s. simpl. auto. Qed.

Lemma Silent_crash {A : Type} (why : ECrash) : Silent (@crash A why).
Proof. intros s. exact I. Qed.

Lemma Silent_bind {A B : Type} (m : Stmt A) (k : A -> Stmt B) :
  Silent m -> (forall a, Silent (k a)) -> Silent (bind m k).
Proof.
  intros Hm Hk s. unfold bind. specialize (Hm s).
  destruct (m s) as [a s1|r s1|why]; [|exact Hm|exact I].
  specialize (Hk a s1). destruct (k a s1) as [b s2|r s2|why];
    [| |exact I]; destruct Hm, Hk; split; congruence.
Qed.

Lemma Silent_CreateTexture (D : FRDGTextureDesc) (N : string) :
  Silent (CreateTexture D N).
Proof. intros s. simpl. auto. Qed.

Lemma Silent_AddFullscreenPass (N : string) (Sh : TShaderMapRef)
  (P : FPassParameters) (V : FIntRect) :
  Silent (AddFullscreenPass N Sh P V).
Proof. intros s. simpl. auto. Qed.

Lemma Silent_Index {A : Type} (l : list A) (i : Z) : Silent (Index l i).
Proof.
  intros s. unfold Index.
  destruct (i <? 0); [exact I|].
  destruct (nth_error l (Z.to_nat i)); simpl; auto.
Qed.

Lemma Silent_Last {A : Type} (l : list A) : Silent (Last l).
Proof. apply Silent_Index. Qed.

Lemma Silent_Deref (P : FRDGTextureRef) : Silent (Deref P).
Proof. intros s. destruct P; simpl; auto. Qed.

Lemma Silent_ForLoop {L : Type} (bound : nat) (Cond : Z -> bool)
  (Incr : Z -> Z) (Body : Z -> L -> Stmt L) :
  (forall i l, Silent (Body i l)) ->
  forall i l, Silent (ForLoop bound Cond Incr Body i l).
Proof.
  intros HB. induction bound as [|n IH]; intros i l; simpl.
  - destruct (Cond i); [apply Silent_crash | apply Silent_ret].
  - destruct (Cond i); [|apply Silent_ret].
    apply Silent_bind; [apply HB | intros l'; apply IH].
Qed.

Ltac silent_step :=
  first
    [ apply Silent_ret
    | apply Silent_return
    | apply Silent_crash
    | apply Silent_CreateTexture
    | apply Silent_Index
    | apply Silent_Last
    | apply Silent_Deref
    | apply Silent_AddFullscreenPass
    | apply Silent_bind; [|intros ?]
    | apply Silent_ForLoop; intros ? ?
    | match goal with
      | |- Silent (if ?b then _ else _) => destruct b
      | |- Silent (match ?x with _ => _ end) => destruct x
      end ].

(** Without [bShouldLog] the passes are recorded in silence. *)
Lemma Silent_BloomPasses (FMath_Cos FMath_Sin : float -> float)
  (View : FViewInfo) (GlobalShaderMap : FGlobalShaderMap)
  (ActiveComponent : UBloomFXComponent) (Inputs : FPostProcessMaterialInputs)
  (SceneTexture : FRDGTexture) (Divisor : Z) (DownsampledExtent : FIntPoint)
  (DownsampledRect : FIntRect) :
  Silent
    (BloomPasses FMath_Cos FMath_Sin View GlobalShaderMap ActiveComponent
       Inputs SceneTexture false Divisor DownsampledExtent DownsampledRect).
Proof.
  unfold BloomPasses, BrightPass, DirectionalGlareBlock, GlareAccumulate,
    GlareStreakBody, KawaseBlock, KawaseMipBody, KawaseDownsampleBody,
    KawaseUpsampleTargetBody, KawaseUpsampleBody, StandardBlurBlock,
    CompositeBlock.
  cbv beta iota zeta delta [when].
  repeat silent_step.
Qed.

Lemma Silent_bind_value {A B : Type} (m : Stmt A) (k : A -> Stmt B) (a : A) :
  (forall s, m s = Next a s) -> Silent (k a) -> Silent (bind m k).
Proof.
  intros Hm Hk s. unfold bind. rewrite Hm. apply Hk.
Qed.

(** X10. When the first live and active component has debug logging off
    (or there is none), a call of the render function returns without
    writing a line to the log and without touching the time stamp of the
    log throttle. *)
Theorem render_is_silent_without_debug_logging
  (FMath_Cos FMath_Sin : float -> float) (View : FViewInfo)
  (Inputs : FPostProcessMaterialInputs)
  (WeakSubsystem : option UClassicBloomSubsystem)
  (Objects : ObjectId -> option UBloomFXComponent) (CurrentTime : double)
  (s : RenderState) :
  (forall Subsystem c,
     WeakSubsystem = Some Subsystem ->
     FirstActiveComponent Objects (BloomComponents Subsystem) c ->
     bEnableDebugLogging c = false) ->
  exists r s',
    PostProcessPass_RenderThread FMath_Cos FMath_Sin View Inputs WeakSubsystem
      Objects CurrentTime s
    = Return r s'
    /\ LogOutput s' = LogOutput s
    /\ LastLogTime s' = LastLogTime s.
Proof.
  intros Hoff.
  destruct (always_returns FMath_Cos FMath_Sin View Inputs WeakSubsystem
              Objects CurrentTime s) as (r & s' & E).
  exists r, s'. split; [exact E|].
  assert (Silent (PostProcessPass_RenderThread FMath_Cos FMath_Sin View Inputs
                    WeakSubsystem Objects CurrentTime)) as HS.
  { unfold PostProcessPass_RenderThread.
    destruct (FScreenPassTexture.IsValid (SceneColor Inputs));
      [|apply Silent_return].
    cbn [negb].
    destruct (bIsReflectionCapture View || bIsSceneCapture View
              || negb (bIsViewInfo View)); [apply Silent_return|].
    destruct (negb (Rendering (EngineShowFlags (Family View)))
              || negb (PostProcessing (EngineShowFlags (Family View)))
              || Wireframe (EngineShowFlags (Family View)));
      [apply Silent_return|].
    destruct (ShaderMap View) as [Shaders|]; [|apply Silent_return].
    destruct WeakSubsystem as [Subsystem|]; [|apply Silent_return].
    destruct (FindActiveComponent Objects (BloomComponents Subsystem))
      as [c|] eqn:Hfind; [|apply Silent_return].
    destruct (Float.leb (BloomIntensity c) f_0); [apply Silent_return|].
    pose proof (Hoff Subsystem c eq_refl (FindActiveComponent_Some _ _ _ Hfind))
      as Hdbg.
    apply Silent_bind; [apply Silent_Deref|]. intros SceneTexture.
    apply (Silent_bind_value _ _ false);
      [intros s0; now apply LogFrameInfo_off|].
    match goal with
    | |- Silent (if ?b then _ else _) => destruct b; [apply Silent_return|]
    end.
    match goal with
    | |- Silent (if ?b then _ else _) => destruct b; [apply Silent_return|]
    end.
    apply Silent_BloomPasses. }
  specialize (HS s). rewrite E in HS. exact HS.
Qed.

(** The sample frame: the sample component has debug logging off. *)
Lemma render_is_silent_without_debug_logging_witness :
  exists r s',
    SampleRun AllShaders (SampleComponent Standard) = Return r s'
    /\ LogOutput s' = []
    /\ LastLogTime s' = S754_zero false.
Proof.
  apply (render_is_silent_without_debug_logging SampleCos SampleSin
           (SampleView AllShaders) SampleInputs (Some SampleSubsystem)
           (SampleObjects (SampleComponent Standard)) d_1 SampleState).
  intros S c [= <-] Hc. apply FindActiveComponent_first in Hc.
  now injection Hc as <-.
Defined.

(** ** The cost of a frame *)

Lemma PlanMatches_length (Plan : list FBatch) :
  forall (Streaks : list FRDGTextureRef) (Prev : FRDGTextureRef)
         (ps : list FRDGPass),
    PlanMatches Streaks Prev ps Plan -> List.length ps = List.length Plan.
Proof.
  induction Plan as [|b Plan IH]; intros Streaks Prev [|p ps]; simpl;
    try tauto.
  intros (_ & H). f_equal. exact (IH _ _ _ H).
Qed.

Lemma AccumulationPlan_length (K : Z) :
  2 <= K ->
  Z.of_nat (List.length (AccumulationPlan K)) = 1 + (K - 2) / 3.
Proof.
  intros HK. unfold AccumulationPlan, BatchStarts. cbn [List.length].
  rewrite !length_map, length_seq, Nat2Z.inj_succ, Z2Nat.id.
  - lia.
  - apply Z.div_pos; lia.
Qed.

(** X11. Past the gate and with every shader of the modes available, the
    number of passes that a call records is 2N + 2 in standard and soft
    focus mode, K + (K - 2) / 3 + 5 in directional glare mode and 2M + 2
    in Kawase mode, for N = clamp(BlurPasses, 1, 4),
    K = clamp(GlareStreakCount, 2, 16) and M = clamp(KawaseMipCount, 3,
    8): between 4 and 25 passes. *)
Theorem pass_count_by_mode
  (FMath_Cos FMath_Sin : float -> float) (View : FViewInfo)
  (Inputs : FPostProcessMaterialInputs)
  (WeakSubsystem : option UClassicBloomSubsystem)
  (Objects : ObjectId -> option UBloomFXComponent) (CurrentTime : double)
  (Shaders : FGlobalShaderMap) (c : UBloomFXComponent)
  (SceneTexture : FRDGTexture) (s : RenderState) :
  GateOpen View Inputs WeakSubsystem Objects Shaders c SceneTexture ->
  HasShader Shaders BrightPassPS = true ->
  HasShader Shaders CompositePS = true ->
  HasShader Shaders GlareStreakPS = true ->
  HasShader Shaders GlareAccumulatePS = true ->
  HasShader Shaders KawaseDownsamplePS = true ->
  HasShader Shaders KawaseUpsamplePS = true ->
  let N := FMath.Clamp (BlurPasses c) 1 4 in
  let K := FMath.Clamp (GlareStreakCount c) 2 16 in
  let M := FMath.Clamp (KawaseMipCount c) 3 8 in
  exists r s' ts ps,
    PostProcessPass_RenderThread FMath_Cos FMath_Sin View Inputs WeakSubsystem
      Objects CurrentTime s
    = Return r s'
    /\ GraphAdds (GraphBuilder s) (GraphBuilder s') ts ps
    /\ Z.of_nat (List.length ps)
       = match BloomMode c with
         | Standard | SoftFocus => 2 * N + 2
         | DirectionalGlare => K + (K - 2) / 3 + 5
         | Kawase => 2 * M + 2
         end
    /\ 4 <= Z.of_nat (List.length ps) <= 25.
Proof.
  intros Open Hb Hc Hs Ha Hd Hu N K M.
  assert (1 <= N <= 4) as HN by (apply FMath_Clamp_int; lia).
  assert (2 <= K <= 16) as HK by (apply FMath_Clamp_int; lia).
  assert (3 <= M <= 8) as HM by (apply FMath_Clamp_int; lia).
  destruct (pipeline_run FMath_Cos FMath_Sin View Inputs WeakSubsystem Objects
              CurrentTime Shaders c SceneTexture Open s Hb)
    as (r & s' & ts & ps & E & HA & HR).
  destruct HR as (T & bp & bts & blur & Blurred & Output & ots & cps
                  & -> & -> & _ & _ & _ & Hblur & _ & _ & Hcomp).
  rewrite Hc in Hcomp. destruct Hcomp as (_ & cp & -> & _).
  exists r, s', (T :: bts ++ ots), (bp :: blur ++ [cp]).
  split; [exact E|]. split; [exact HA|].
  assert (Z.of_nat (List.length blur)
          = match BloomMode c with
            | Standard | SoftFocus => 2 * N
            | DirectionalGlare => K + (K - 2) / 3 + 3
            | Kawase => 2 * M
            end) as Hlen.
  { unfold BlurStageRecorded in Hblur. fold N K M in Hblur.
    rewrite Hs, Ha, Hd, Hu in Hblur. cbn [andb] in Hblur.
    destruct (BloomMode c).
    - now apply (StandardRecorded_shader _ _ _ _ _ HN) in Hblur.
    - destruct Hblur as (bh & bv & Hps & Hsl & _ & Hplan & _).
      apply PlanMatches_length in Hplan.
      rewrite Hps, !length_app, !Nat2Z.inj_add, Hsl, Hplan.
      rewrite AccumulationPlan_length by lia. cbn [List.length]. lia.
    - destruct Hblur as (final & Hps & Hdl & Hul & _).
      rewrite Hps, length_app, Nat2Z.inj_add, Hdl, Hul. lia.
    - now apply (StandardRecorded_shader _ _ _ _ _ HN) in Hblur. }
  assert (0 <= (K - 2) / 3 <= 4) as HQ.
  { split; [apply Z.div_pos; lia|].
    apply Z.lt_succ_r, Z.div_lt_upper_bound; lia. }
  cbn [List.length]. rewrite length_app, Nat2Z.inj_succ, Nat2Z.inj_add.
  cbn [List.length]. rewrite Hlen.
  destruct (BloomMode c); lia.
Qed.

(** The sample frame in directional glare mode with six streaks: 12
    passes. *)
Lemma pass_count_by_mode_witness :
  exists r s' ts ps,
    SampleRun AllShaders (SampleComponent DirectionalGlare) = Return r s'
    /\ GraphAdds (GraphBuilder SampleState) (GraphBuilder s') ts ps
    /\ Z.of_nat (List.length ps) = 12
    /\ 4 <= Z.of_nat (List.length ps) <= 25.
Proof.
  exact (pass_count_by_mode SampleCos SampleSin
           (SampleView AllShaders) SampleInputs (Some SampleSubsystem)
           (SampleObjects (SampleComponent DirectionalGlare)) d_1
           AllShaders (SampleComponent DirectionalGlare) SampleSceneTexture
           SampleState (SampleGate AllShaders DirectionalGlare)
           eq_refl eq_refl eq_refl eq_refl eq_refl eq_refl).
Defined.

(** ** The output *)

(** X12. Past the gate and with the bright pass and composite shaders
    available, the texture that a call returns is the one its last pass,
    the composite pass, is drawn into, over the same rectangle. With a
    valid override output it is the override output. Otherwise it is a
    texture that the call creates last, named ["ClassicBloom.Output"], as
    large as the scene colour texture, with the view rectangle of the
    scene colour. *)
Theorem output_is_override_or_scene_sized
  (FMath_Cos FMath_Sin : float -> float) (View : FViewInfo)
  (Inputs : FPostProcessMaterialInputs)
  (WeakSubsystem : option UClassicBloomSubsystem)
  (Objects : ObjectId -> option UBloomFXComponent) (CurrentTime : double)
  (Shaders : FGlobalShaderMap) (c : UBloomFXComponent)
  (SceneTexture : FRDGTexture) (s : RenderState) :
  GateOpen View Inputs WeakSubsystem Objects Shaders c SceneTexture ->
  HasShader Shaders BrightPassPS = true ->
  HasShader Shaders CompositePS = true ->
  exists r s' ts before cp,
    PostProcessPass_RenderThread FMath_Cos FMath_Sin View Inputs WeakSubsystem
      Objects CurrentTime s
    = Return r s'
    /\ GraphAdds (GraphBuilder s) (GraphBuilder s') ts (before ++ [cp])
    /\ RenderTarget cp = FScreenPassTexture.Texture r
    /\ Viewport cp = FScreenPassTexture.ViewRect r
    /\ if FScreenPassRenderTarget.IsValid (OverrideOutput Inputs)
       then r = FScreenPassRenderTarget.ToTexture (OverrideOutput Inputs)
       else exists earlier T,
           ts = earlier ++ [T]
           /\ Name T = "ClassicBloom.Output"
           /\ FRDGTextureDesc.Extent (Desc T)
              = FRDGTextureDesc.Extent (Desc SceneTexture)
           /\ r = FScreenPassTexture.mk (Some T)
                    (FScreenPassTexture.ViewRect (SceneColor Inputs)).
Proof.
  intros Open Hb Hc.
  destruct (pipeline_run FMath_Cos FMath_Sin View Inputs WeakSubsystem Objects
              CurrentTime Shaders c SceneTexture Open s Hb)
    as (r & s' & ts & ps & E & HA & HR).
  destruct HR as (T & bp & bts & blur & Blurred & Output & ots & cps
                  & -> & -> & _ & _ & _ & _ & _ & Hout & Hcomp).
  rewrite Hc in Hcomp. destruct Hcomp as (-> & cp & -> & _ & Hcp).
  exists (FScreenPassRenderTarget.ToTexture Output), s', (T :: bts ++ ots),
    (bp :: blur), cp.
  split; [exact E|]. split; [exact HA|].
  destruct Hcp as (_ & Hvp & Hcp).
  split.
  { unfold RenderTarget. destruct (Parameters cp); try contradiction.
    destruct Hcp as (_ & _ & -> & _). reflexivity. }
  split; [exact Hvp|].
  unfold OutputChosen in Hout.
  destruct (FScreenPassRenderTarget.IsValid (OverrideOutput Inputs)).
  - destruct Hout as (-> & _). reflexivity.
  - destruct Hout as (O & -> & HN & HE & ->).
    exists (T :: bts), O. split; [now rewrite app_comm_cons|].
    split; [exact HN|]. split; [|reflexivity].
    rewrite (gate_texture _ _ _ _ _ _ _ Open) in HE. simpl in HE.
    now injection HE.
Qed.

(** The sample frame has no override output, and gets a new output
    texture. With an override output that has a texture and a view
    rectangle of no width -- not an empty rectangle, so a valid output --
    the call returns the override output. *)
Lemma output_is_override_or_scene_sized_witness :
  (exists r s' ts before cp earlier T,
     SampleRun AllShaders (SampleComponent Standard) = Return r s'
     /\ GraphAdds (GraphBuilder SampleState) (GraphBuilder s') ts
          (before ++ [cp])
     /\ RenderTarget cp = FScreenPassTexture.Texture r
     /\ ts = earlier ++ [T]
     /\ Name T = "ClassicBloom.Output"
     /\ FRDGTextureDesc.Extent (Desc T) = FIntPoint.mk 1920 1080
     /\ r = FScreenPassTexture.mk (Some T)
              (FIntRect.mk (FIntPoint.mk 0 0) (FIntPoint.mk 1280 720)))
  /\ (exists s' ts before cp,
        PostProcessPass_RenderThread SampleCos SampleSin
          (SampleView AllShaders) SampleOverrideInputs (Some SampleSubsystem)
          (SampleObjects (SampleComponent Standard)) d_1 SampleOverrideState
        = Return
            (FScreenPassTexture.mk (Some SampleOverrideTexture)
               (FIntRect.mk (FIntPoint.mk 0 0) (FIntPoint.mk 0 720))) s'
        /\ GraphAdds (GraphBuilder SampleOverrideState) (GraphBuilder s') ts
             (before ++ [cp])
        /\ RenderTarget cp = Some SampleOverrideTexture).
Proof.
  split.
  - destruct (output_is_override_or_scene_sized SampleCos SampleSin
                (SampleView AllShaders) SampleInputs (Some SampleSubsystem)
                (SampleObjects (SampleComponent Standard)) d_1
                AllShaders (SampleComponent Standard) SampleSceneTexture
                SampleState (SampleGate AllShaders Standard) eq_refl eq_refl)
      as (r & s' & ts & before & cp & E & HA & HT & _ & earlier & T
          & Hts & HN & HE & Hr).
    exists r, s', ts, before, cp, earlier, T.
    exact (conj E (conj HA (conj HT (conj Hts (conj HN (conj HE Hr)))))).
  - destruct (output_is_override_or_scene_sized SampleCos SampleSin
                (SampleView AllShaders) SampleOverrideInputs
                (Some SampleSubsystem)
                (SampleObjects (SampleComponent Standard)) d_1
                AllShaders (SampleComponent Standard) SampleSceneTexture
                SampleOverrideState SampleOverrideGate eq_refl eq_refl)
      as (r & s' & ts & before & cp & E & HA & HT & _ & Hr).
    assert (FScreenPassRenderTarget.IsValid
              (OverrideOutput SampleOverrideInputs) = true) as Hv
      by reflexivity.
    rewrite Hv in Hr.
    subst r. exists s', ts, before, cp.
    exact (conj E (conj HA HT)).
Defined.

(** ** Settings of the other modes *)

Lemma kawase_block_other_mode (View : FViewInfo) (Shaders : FGlobalShaderMap)
  (c : UBloomFXComponent) (Scene : FScreenPassTexture) (bShouldLog : bool)
  (DE : FIntPoint) (DR : FIntRect) (D : FRDGTextureDesc)
  (BrightPassTexture : FRDGTextureRef) (SceneTexture : FRDGTexture)
  (Blurred : FRDGTextureRef) (s : RenderState) :
  BloomMode c <> Kawase ->
  KawaseBlock View Shaders c Scene bShouldLog DE DR D BrightPassTexture
    SceneTexture Blurred s
  = Next Blurred s.
Proof.
  intros Hmode. unfold KawaseBlock.
  destruct (BloomMode c); try reflexivity. congruence.
Qed.

Lemma FindActiveComponent_mode_settings
  (Objects Objects' : ObjectId -> option UBloomFXComponent)
  (l : list ObjectId) :
  DifferInModeSettings Objects Objects' ->
  match FindActiveComponent Objects l, FindActiveComponent Objects' l with
  | Some c, Some c' => c' = WithModeSettings c c'
  | None, None => True
  | _, _ => False
  end.
Proof.
  intros H. induction l as [|id l IH]; simpl; [exact I|].
  specialize (H id).
  destruct (Objects id) as [c|], (Objects' id) as [c'|]; try contradiction.
  - assert (bIsActive c' = bIsActive c) as -> by (now rewrite H).
    destruct (bIsActive c); [exact H | exact IH].
  - exact IH.
Qed.

Lemma bind_ext_at {A B : Type} (m m' : Stmt A) (k k' : A -> Stmt B)
  (s : RenderState) :
  m s = m' s ->
  (forall a s1, m s = Next a s1 -> k a s1 = k' a s1) ->
  bind m k s = bind m' k' s.
Proof.
  intros Hm Hk. unfold bind. rewrite <- Hm.
  destruct (m s) as [a s1|r s1|why]; [now apply Hk | reflexivity | reflexivity].
Qed.

(** In standard and soft focus mode the passes do not depend on the
    settings of the other modes. *)
Lemma BloomPasses_mode_settings (FMath_Cos FMath_Sin : float -> float)
  (View : FViewInfo) (Shaders : FGlobalShaderMap) (c o : UBloomFXComponent)
  (Inputs : FPostProcessMaterialInputs) (SceneTexture : FRDGTexture)
  (bShouldLog : bool) (Divisor : Z) (DE : FIntPoint) (DR : FIntRect)
  (s : RenderState) :
  BloomMode c = Standard \/ BloomMode c = SoftFocus ->
  BloomPasses FMath_Cos FMath_Sin View Shaders (WithModeSettings c o) Inputs
    SceneTexture bShouldLog Divisor DE DR s
  = BloomPasses FMath_Cos FMath_Sin View Shaders c Inputs SceneTexture
      bShouldLog Divisor DE DR s.
Proof.
  intros Hmode.
  assert (BloomMode c <> DirectionalGlare /\ BloomMode c <> Kawase)
    as (NotGlare & NotKawase) by (destruct Hmode as [-> | ->]; split; discriminate).
  unfold BloomPasses.
  change (BrightPass View Shaders (WithModeSettings c o))
    with (BrightPass View Shaders c).
  change (StandardBlurBlock View Shaders (WithModeSettings c o))
    with (StandardBlurBlock View Shaders c).
  change (CompositeBlock View Shaders (WithModeSettings c o))
    with (CompositeBlock View Shaders c).
  apply bind_ext_at; [reflexivity|]. intros BrightPassTexture s1 _.
  apply bind_ext_at; [reflexivity|]. intros u s2 _.
  apply bind_ext_at.
  { now rewrite !glare_block_skip. }
  intros B1 s3 _.
  apply bind_ext_at.
  { now rewrite !kawase_block_other_mode. }
  intros B2 s4 _. reflexivity.
Qed.

(** X13. When the first live and active component is in standard or soft
    focus mode, the eight settings of the directional glare and of the
    Kawase mode of the registered components change nothing of what a
    call does: the result, the graph, the log and the time stamp are the
    same. *)
Theorem standard_modes_ignore_other_mode_settings
  (FMath_Cos FMath_Sin : float -> float) (View : FViewInfo)
  (Inputs : FPostProcessMaterialInputs)
  (WeakSubsystem : option UClassicBloomSubsystem)
  (Objects Objects' : ObjectId -> option UBloomFXComponent)
  (CurrentTime : double) (s : RenderState) :
  DifferInModeSettings Objects Objects' ->
  (forall Subsystem c,
     WeakSubsystem = Some Subsystem ->
     FirstActiveComponent Objects (BloomComponents Subsystem) c ->
     BloomMode c = Standard \/ BloomMode c = SoftFocus) ->
  PostProcessPass_RenderThread FMath_Cos FMath_Sin View Inputs WeakSubsystem
    Objects' CurrentTime s
  = PostProcessPass_RenderThread FMath_Cos FMath_Sin View Inputs WeakSubsystem
      Objects CurrentTime s.
Proof.
  intros Hdiff Hmode. unfold PostProcessPass_RenderThread.
  destruct (FScreenPassTexture.IsValid (SceneColor Inputs)); [|reflexivity].
  cbn [negb].
  destruct (bIsReflectionCapture View || bIsSceneCapture View
            || negb (bIsViewInfo View)); [reflexivity|].
  destruct (negb (Rendering (EngineShowFlags (Family View)))
            || negb (PostProcessing (EngineShowFlags (Family View)))
            || Wireframe (EngineShowFlags (Family View))); [reflexivity|].
  destruct (ShaderMap View) as [Shaders|]; [|reflexivity].
  destruct WeakSubsystem as [Subsystem|]; [|reflexivity].
  pose proof (FindActiveComponent_mode_settings Objects Objects'
                (BloomComponents Subsystem) Hdiff) as Hfind.
  destruct (FindActiveComponent Objects (BloomComponents Subsystem))
    as [c|] eqn:Hc,
    (FindActiveComponent Objects' (BloomComponents Subsystem)) as [c'|];
    try contradiction; [|reflexivity].
  specialize (Hmode Subsystem c eq_refl (FindActiveComponent_Some _ _ _ Hc)).
  assert (exists o, c' = WithModeSettings c o) as (o & ->)
    by (now exists c').
  clear Hfind.
  change (BloomIntensity (WithModeSettings c o)) with (BloomIntensity c).
  destruct (Float.leb (BloomIntensity c) f_0); [reflexivity|].
  change (LogFrameInfo View (WithModeSettings c o))
    with (LogFrameInfo View c).
  change (BloomDownsampledRect (WithModeSettings c o))
    with (BloomDownsampledRect c).
  change (BloomDownsampledExtent (WithModeSettings c o))
    with (BloomDownsampledExtent c).
  change (BloomDivisor (WithModeSettings c o)) with (BloomDivisor c).
  apply bind_ext_at; [reflexivity|]. intros SceneTexture s0 _.
  apply bind_ext_at; [reflexivity|]. intros bShouldLog s1 _.
  match goal with
  | |- (if ?b then _ else _) _ = _ => destruct b; [reflexivity|]
  end.
  match goal with
  | |- (if ?b then _ else _) _ = _ => destruct b; [reflexivity|]
  end.
  now apply BloomPasses_mode_settings.
Qed.

(** The sample frame in standard mode, with the glare and Kawase settings
    of the sample component against eight other values: nine streaks for
    six, seven mips for five, and so on. *)
Lemma standard_modes_ignore_other_mode_settings_witness :
  let c := SampleComponent Standard in
  let c' := WithModeSettings c SampleOtherModeSettings in
  (GlareStreakCount c, GlareStreakCount c') = (6, 9)
  /\ (GlareStreakLength c, GlareStreakLength c') = (40, 80)
  /\ (GlareRotationOffset c, GlareRotationOffset c') = (f_0, f_10)
  /\ (GlareFalloff c, GlareFalloff c') = (f_2, f_1)
  /\ (KawaseMipCount c, KawaseMipCount c') = (5, 7)
  /\ (KawaseFilterRadius c, KawaseFilterRadius c') = (f_0_01, f_0_0001)
  /\ (bKawaseSoftThreshold c, bKawaseSoftThreshold c') = (true, false)
  /\ (KawaseThresholdKnee c, KawaseThresholdKnee c') = (f_0_5, f_0_25)
  /\ SampleRun AllShaders c' = SampleRun AllShaders c.
Proof.
  intros c c'. do 8 (split; [reflexivity|]).
  apply (standard_modes_ignore_other_mode_settings SampleCos SampleSin
           (SampleView AllShaders) SampleInputs (Some SampleSubsystem)
           (SampleObjects c) (SampleObjects c') d_1 SampleState).
  - intros id. unfold SampleObjects.
    destruct (Nat.eqb id 3); [reflexivity | exact I].
  - intros S c0 [= <-] Hc. apply FindActiveComponent_first in Hc.
    injection Hc as <-. now left.
Defined.

(** ** The log throttle *)

Lemma timed_log (T : double) (L : Stmt unit) (b : bool) (s : RenderState) :
  LogOnly L ->
  exists s1,
    bind (bind (SetLastLogTime T) (fun _ => L)) (fun _ => ret b) s = Next b s1
    /\ LastLogTime s1 = T.
Proof.
  intros HL.
  destruct (HL {| GraphBuilder := GraphBuilder s; LogOutput := LogOutput s;
                  LastLogTime := T |}) as (s1 & E & _ & HT).
  exists s1. split; [|exact HT].
  unfold bind, SetLastLogTime. now rewrite E.
Qed.

(** The debug header answers whether it wrote; when it did, the time
    stamp is the time of the call, and when it did not, nothing has
    changed. *)
Lemma LogFrameInfo_cases (View : FViewInfo) (c : UBloomFXComponent)
  (E : FIntPoint) (R : FIntRect) (T : double) (s : RenderState) :
  exists s1,
    LogFrameInfo View c E R T s
    = Next (bEnableDebugLogging c
            && Double.ltb d_1 (Double.sub T (LastLogTime s))) s1
    /\ if bEnableDebugLogging c
          && Double.ltb d_1 (Double.sub T (LastLogTime s))
       then LastLogTime s1 = T
       else s1 = s.
Proof.
  unfold LogFrameInfo.
  rewrite (bind_Next _ _ s s (LastLogTime s)) by reflexivity.
  destruct (bEnableDebugLogging c
            && Double.ltb d_1 (Double.sub T (LastLogTime s))).
  - unfold when. apply timed_log. log_only.
  - exists s. split; reflexivity.
Qed.

(** The passes leave the time stamp alone, logging or not. *)
Lemma BloomPasses_keeps_time (FMath_Cos FMath_Sin : float -> float)
  (View : FViewInfo) (Shaders : FGlobalShaderMap) (c : UBloomFXComponent)
  (Inputs : FPostProcessMaterialInputs) (SceneTexture : FRDGTexture)
  (bShouldLog : bool) (Divisor : Z) (DE : FIntPoint) (DR : FIntRect)
  (s : RenderState) (r : FScreenPassTexture) (s' : RenderState) :
  BloomPasses FMath_Cos FMath_Sin View Shaders c Inputs SceneTexture
    bShouldLog Divisor DE DR s
  = Return r s' ->
  LastLogTime s' = LastLogTime s.
Proof.
  intros E.
  pose proof (Related_BloomPasses FMath_Cos FMath_Sin View eq Shaders Shaders
                (fun p => eq_refl) (fun N P V => eq_refl) (fun S _ => eq_refl)
                c Inputs SceneTexture bShouldLog false Divisor DE DR s s
                (StateRel_refl eq s (fun p => eq_refl))) as H.
  pose proof (Silent_BloomPasses FMath_Cos FMath_Sin View Shaders c Inputs
                SceneTexture Divisor DE DR s) as HS.
  rewrite E in H.
  destruct (BloomPasses FMath_Cos FMath_Sin View Shaders c Inputs SceneTexture
              false Divisor DE DR s) as [a s2|r2 s2|why]; try contradiction.
  destruct H as (_ & _ & HT). destruct HS as (_ & HT2). congruence.
Qed.

(** What a call does to the log and to the time stamp: nothing, when the
    test of the throttle fails on entry; and if it writes to the log, the
    time stamp is the time of the call afterwards. *)
Lemma render_log_cases
  (FMath_Cos FMath_Sin : float -> float) (View : FViewInfo)
  (Inputs : FPostProcessMaterialInputs)
  (WeakSubsystem : option UClassicBloomSubsystem)
  (Objects : ObjectId -> option UBloomFXComponent) (CurrentTime : double)
  (s : RenderState) (r : FScreenPassTexture) (s' : RenderState) :
  PostProcessPass_RenderThread FMath_Cos FMath_Sin View Inputs WeakSubsystem
    Objects CurrentTime s
  = Return r s' ->
  (Double.ltb d_1 (Double.sub CurrentTime (LastLogTime s)) = false ->
   LogOutput s' = LogOutput s /\ LastLogTime s' = LastLogTime s)
  /\ (LogOutput s' <> LogOutput s -> LastLogTime s' = CurrentTime).
Proof.
  unfold PostProcessPass_RenderThread.
  assert (forall x : RenderState,
             @Return unit (SceneColor Inputs) s = Return r x ->
             (Double.ltb d_1 (Double.sub CurrentTime (LastLogTime s)) = false ->
              LogOutput x = LogOutput s /\ LastLogTime x = LastLogTime s)
             /\ (LogOutput x <> LogOutput s -> LastLogTime x = CurrentTime))
    as Hearly.
  { intros x [= _ <-]. split; [auto | congruence]. }
  destruct (FScreenPassTexture.IsValid (SceneColor Inputs));
    [|apply Hearly].
  cbn [negb].
  destruct (bIsReflectionCapture View || bIsSceneCapture View
            || negb (bIsViewInfo View)); [apply Hearly|].
  destruct (negb (Rendering (EngineShowFlags (Family View)))
            || negb (PostProcessing (EngineShowFlags (Family View)))
            || Wireframe (EngineShowFlags (Family View))); [apply Hearly|].
  destruct (ShaderMap View) as [Shaders|]; [|apply Hearly].
  destruct WeakSubsystem as [Subsystem|]; [|apply Hearly].
  destruct (FindActiveComponent Objects (BloomComponents Subsystem))
    as [c|]; [|apply Hearly].
  destruct (Float.leb (BloomIntensity c) f_0); [apply Hearly|].
  clear Hearly.
  destruct (FScreenPassTexture.Texture (SceneColor Inputs))
    as [SceneTexture|]; [|discriminate].
  rewrite (bind_Next _ _ s s SceneTexture) by reflexivity.
  destruct (LogFrameInfo_cases View c
              (FRDGTextureDesc.Extent (Desc SceneTexture))
              (FScreenPassTexture.ViewRect (SceneColor Inputs)) CurrentTime s)
    as (s1 & E1 & H1).
  rewrite (bind_Next _ _ _ _ _ E1).
  assert (forall x : RenderState,
             LastLogTime x = LastLogTime s1 ->
             (bEnableDebugLogging c
              && Double.ltb d_1 (Double.sub CurrentTime (LastLogTime s))
              = false -> LogOutput x = LogOutput s1) ->
             (Double.ltb d_1 (Double.sub CurrentTime (LastLogTime s)) = false ->
              LogOutput x = LogOutput s /\ LastLogTime x = LastLogTime s)
             /\ (LogOutput x <> LogOutput s -> LastLogTime x = CurrentTime))
    as Hlate.
  { intros x HT HL.
    destruct (bEnableDebugLogging c
              && Double.ltb d_1 (Double.sub CurrentTime (LastLogTime s)))
      eqn:Hb.
    - split; [|congruence]. intros Hlt. rewrite Hlt, andb_false_r in Hb.
      discriminate.
    - subst s1. specialize (HL eq_refl). split; [auto|]. congruence. }
  match goal with
  | |- (if ?b then _ else _) _ = _ -> _ =>
      destruct b; [intros [= _ <-]; now apply Hlate|]
  end.
  match goal with
  | |- (if ?b then _ else _) _ = _ -> _ =>
      destruct b; [intros [= _ <-]; now apply Hlate|]
  end.
  intros E. apply Hlate.
  - exact (BloomPasses_keeps_time _ _ _ _ _ _ _ _ _ _ _ _ _ _ E).
  - intros Hb. rewrite Hb in E.
    pose proof (Silent_BloomPasses FMath_Cos FMath_Sin View Shaders c Inputs
                  SceneTexture (BloomDivisor c)
                  (BloomDownsampledExtent c
                     (FScreenPassTexture.ViewRect (SceneColor Inputs)))
                  (BloomDownsampledRect c
                     (FScreenPassTexture.ViewRect (SceneColor Inputs))) s1)
      as HS.
    rewrite E in HS. apply HS.
Qed.

(** X14. The debug log is throttled: when a call of the render function
    has written to the log, a later call whose time is not more than one
    second after it -- by the test of the code, [CurrentTime - LastLogTime
    > 1.0] in double precision -- writes nothing to the log and leaves
    the time stamp alone, whatever its view, inputs and components. *)
Theorem debug_log_is_throttled
  (FMath_Cos FMath_Sin : float -> float) (View View2 : FViewInfo)
  (Inputs Inputs2 : FPostProcessMaterialInputs)
  (WeakSubsystem WeakSubsystem2 : option UClassicBloomSubsystem)
  (Objects Objects2 : ObjectId -> option UBloomFXComponent)
  (CurrentTime CurrentTime2 : double)
  (s s1 s2 : RenderState) (r1 r2 : FScreenPassTexture) :
  PostProcessPass_RenderThread FMath_Cos FMath_Sin View Inputs WeakSubsystem
    Objects CurrentTime s
  = Return r1 s1 ->
  LogOutput s1 <> LogOutput s ->
  Double.ltb d_1 (Double.sub CurrentTime2 CurrentTime) = false ->
  PostProcessPass_RenderThread FMath_Cos FMath_Sin View2 Inputs2
    WeakSubsystem2 Objects2 CurrentTime2 s1
  = Return r2 s2 ->
  LogOutput s2 = LogOutput s1 /\ LastLogTime s2 = CurrentTime.
Proof.
  intros E1 Hlogged Hsoon E2.
  destruct (render_log_cases _ _ _ _ _ _ _ _ _ _ E1) as (_ & Hstamp).
  specialize (Hstamp Hlogged).
  destruct (render_log_cases _ _ _ _ _ _ _ _ _ _ E2) as (Hquiet & _).
  rewrite Hstamp in Hquiet. destruct (Hquiet Hsoon) as (HL & HT).
  split; [exact HL | congruence].
Qed.

(** Two calls for the sample frame with debug logging on, both two
    seconds after start: the first writes the header, the second
    nothing. *)
Lemma debug_log_is_throttled_witness :
  exists r1 s1 r2 s2,
    PostProcessPass_RenderThread SampleCos SampleSin (SampleView AllShaders)
      SampleInputs (Some SampleSubsystem) (SampleObjects SampleDebugComponent)
      d_2 SampleState
    = Return r1 s1
    /\ PostProcessPass_RenderThread SampleCos SampleSin
         (SampleView AllShaders) SampleInputs (Some SampleSubsystem)
         (SampleObjects SampleDebugComponent) d_2 s1
       = Return r2 s2
    /\ LogOutput s1 <> []
    /\ LogOutput s2 = LogOutput s1.
Proof.
  destruct (always_returns SampleCos SampleSin (SampleView AllShaders)
              SampleInputs (Some SampleSubsystem)
              (SampleObjects SampleDebugComponent) d_2 SampleState)
    as (r1 & s1 & E1).
  destruct (always_returns SampleCos SampleSin (SampleView AllShaders)
              SampleInputs (Some SampleSubsystem)
              (SampleObjects SampleDebugComponent) d_2 s1)
    as (r2 & s2 & E2).
  assert (LogOutput s1 <> []) as Hlogged.
  { pose proof E1 as E. vm_compute in E. injection E as _ <-.
    discriminate. }
  exists r1, s1, r2, s2.
  split; [exact E1|]. split; [exact E2|]. split; [exact Hlogged|].
  exact (proj1 (debug_log_is_throttled SampleCos SampleSin
                  (SampleView AllShaders) (SampleView AllShaders)
                  SampleInputs SampleInputs
                  (Some SampleSubsystem) (Some SampleSubsystem)
                  (SampleObjects SampleDebugComponent)
                  (SampleObjects SampleDebugComponent)
                  d_2 d_2 SampleState s1 s2 r1 r2
                  E1 Hlogged eq_refl E2)).
Defined.
